(** * reddit_cm: the import reconciliation loop and credential resolution

    A shallow embedding of [main.py]: [import_communities] (the loop that
    joins the communities of an exported file), [get_reddit_credentials]
    (command line over config file over default), the loaders, the export
    and the two commands, with the Python values, string operations and
    exceptions they use.  The Reddit client (praw), the progress bar of
    click and the parsers are external libraries; they are parameters of
    the development. *)

From Stdlib Require Import Ascii String Bool Arith Lia.
From stdpp Require Import base strings gmap list pretty.

(** ** Python strings

    A [str] is a [string]; every [ascii] is one code point below 256.  On
    that range [str.lower] maps one code point to one code point. *)
Module PyStr.

(** [chr(i).lower()] for [i < 256]: the letters A-Z and the Latin-1 capitals
    U+00C0-U+00DE (without the multiplication sign U+00D7) move up by 32. *)
Definition lower_char (c : ascii) : ascii :=
  let n := nat_of_ascii c in
  if ((65 <=? n) && (n <=? 90)) || ((192 <=? n) && (n <=? 222) && negb (n =? 215))
  then ascii_of_nat (n + 32)
  else c.

(** [s.lower()] *)
Fixpoint lower (s : string) : string :=
  match s with
  | EmptyString => EmptyString
  | String c s' => String (lower_char c) (lower s')
  end.

(** [needle in hay]: does [needle] start at some position of [hay]? *)
Fixpoint str_in (needle hay : string) : bool :=
  String.prefix needle hay ||
  match hay with
  | EmptyString => false
  | String _ hay' => str_in needle hay'
  end.

(** [sep.join(parts)] *)
Fixpoint join (sep : string) (parts : list string) : string :=
  match parts with
  | [] => ""
  | [p] => p
  | p :: ps => p +:+ sep +:+ join sep ps
  end.

(** [c * n] for a one-character string [c] *)
Fixpoint repeat_char (c : ascii) (n : nat) : string :=
  match n with
  | O => ""
  | S n' => String c (repeat_char c n')
  end.

(** The line feed, ["\n"]. *)
Definition nl : string := String (ascii_of_nat 10) "".

(** What the operations are meant to compute: [needle] occurs in [hay] ... *)
Definition occurs_in (needle hay : string) : Prop :=
  exists pre post, hay = pre +:+ needle +:+ post.

(** ... and [needle] occurs in [hay] up to the case of the letters. *)
Definition occurs_in_nocase (needle hay : string) : Prop :=
  exists pre mid post,
    hay = pre +:+ mid +:+ post /\ lower mid = lower needle.

End PyStr.

Import PyStr.


(** ** Python values

    What [json.load] and [yaml.safe_load] build and what click passes for
    an option: [None], booleans, integers, strings, sequences, and
    mappings with string keys.  Floats are left out, and so is what only
    YAML has: dates, binary data, sets and keys that are not strings. *)
#[warnings="-register-all"]
Inductive pyval : Type :=
  | PNone
  | PBool (b : bool)
  | PInt (z : Z)
  | PStr (s : string)
  | PList (items : list pyval)
  | PDict (d : gmap string pyval).

(** A [dict] with string keys: a community record, a config. *)
Abbreviation dict := (gmap string pyval).

(** [bool(v)], the test behind [if v], [not v] and [v or w]: a sequence or
    a mapping is true when it is not empty. *)
Definition truthy (v : pyval) : bool :=
  match v with
  | PNone => false
  | PBool b => b
  | PInt z => negb (z =? 0)%Z
  | PStr s => match s with EmptyString => false | String _ _ => true end
  | PList items => match items with [] => false | _ :: _ => true end
  | PDict d => match map_to_list d with [] => false | _ :: _ => true end
  end.

(** [a or b] when [b] is a value at hand. *)
Definition py_or (a b : pyval) : pyval := if truthy a then a else b.

(** [str(v)] of a sequence or a mapping is Python's [repr], which walks
    the container in insertion order and quotes the strings in it.  It is
    not modelled: the development holds for every such function. *)
Class Repr : Type := repr_container : pyval -> string.

(** [str(v)], what an f-string prints for [v]. *)
Definition py_str `{Repr} (v : pyval) : string :=
  match v with
  | PNone => "None"
  | PBool true => "True"
  | PBool false => "False"
  | PInt z => pretty z
  | PStr s => s
  | PList _ | PDict _ => repr_container v
  end.

(** [type(v).__name__] *)
Definition type_name (v : pyval) : string :=
  match v with
  | PNone => "NoneType"
  | PBool _ => "bool"
  | PInt _ => "int"
  | PStr _ => "str"
  | PList _ => "list"
  | PDict _ => "dict"
  end.

(** [d.get(k)] and [d.get(k, dflt)] on a mapping. *)
Definition dict_get (d : dict) (k : string) : pyval := default PNone (d !! k).
Definition dict_get_default (d : dict) (k : string) (dflt : pyval) : pyval :=
  default dflt (d !! k).

(** ** Exceptions

    Every exception the code meets is an instance of [Exception]; the code
    tells apart [AttributeError] (inside [hasattr]) and raises
    [click.ClickException] itself.  [exn_str] is [str(e)]. *)
Inductive exn : Type :=
  | AttributeError (msg : string)
  | ClickException (msg : string)
  | Exception (msg : string).

Definition exn_str (e : exn) : string :=
  match e with
  | AttributeError msg | ClickException msg | Exception msg => msg
  end.

(** Reading the attribute [get] of a value that is no mapping. *)
Definition no_attribute_get (v : pyval) : exn :=
  AttributeError ("'" +:+ type_name v +:+ "' object has no attribute 'get'").

(** [v.get(k)] and [v.get(k, dflt)] on any value: a mapping answers, and
    any other value has no attribute [get]. *)
Definition py_get (v : pyval) (k : string) : exn + pyval :=
  match v with
  | PDict d => inr (dict_get d k)
  | _ => inl (no_attribute_get v)
  end.

Definition py_get_default (v : pyval) (k : string) (dflt : pyval) : exn + pyval :=
  match v with
  | PDict d => inr (dict_get_default d k dflt)
  | _ => inl (no_attribute_get v)
  end.

(** An entry of [failed_joins]: [{'name': ..., 'error': ...}]. *)
Record failure : Type := Failure { f_name : pyval; f_error : string }.

(** ** The Reddit client

    [praw.Reddit] is not part of the repository.  The loop uses three of its
    operations, each of which returns or raises and may change the state
    [St] behind the client (the account, the network, a cache):
    - [reddit.subreddit(name)] gives a handle;
    - reading the attribute [subreddit.user_is_subscriber];
    - [subreddit.subscribe()]. *)
Record Client (St Handle : Type) : Type := {
  subreddit : pyval -> St -> St * (exn + Handle);
  user_is_subscriber : Handle -> St -> St * (exn + pyval);
  subscribe : Handle -> St -> St * (exn + unit)
}.
Arguments subreddit {St Handle} _ _ _.
Arguments user_is_subscriber {St Handle} _ _ _.
Arguments subscribe {St Handle} _ _ _.

(** The calls made on the client, in the order they are made, each with a
    flag telling whether it raised. *)
Inductive call (Handle : Type) : Type :=
  | CSubreddit (name : pyval)
  | CUserIsSubscriber (h : Handle)
  | CSubscribe (h : Handle).
Arguments CSubreddit {Handle} _.
Arguments CUserIsSubscriber {Handle} _.
Arguments CSubscribe {Handle} _.

Record event (Handle : Type) : Type := Event {
  ev_call : call Handle;
  ev_raised : bool
}.
Arguments Event {Handle} _ _.
Arguments ev_call {Handle} _.
Arguments ev_raised {Handle} _.

Definition is_subscribe {Handle} (ev : event Handle) : bool :=
  match ev_call ev with CSubscribe _ => true | _ => false end.

Definition raised {A} (r : exn + A) : bool :=
  match r with inl _ => true | inr _ => false end.

(** ** The progress bar

    [click.progressbar] is not part of the repository either.  What it
    writes depends on the version of click and on the terminal: on a
    terminal it draws and redraws a bar, elsewhere it writes its label
    once or nothing.  A bar is what it writes and when: on entering the
    [with] block, each time the loop asks it for the next element (the
    argument is the number of elements handed out so far; the last time it
    is asked, there is none left), and on leaving the block, which happens
    also when the block raises. *)
Record Bar : Type := {
  bar_enter : list string;
  bar_next : nat -> list string;
  bar_exit : list string
}.

(** ** The state of a run of [import_communities]

    The client's state, the calls made so far, the three local lists and
    what has been written to the standard output: one string per
    [click.echo], and what the progress bar writes. *)
Record state (St Handle : Type) : Type := State {
  reddit : St;
  calls : list (event Handle);
  successful_joins : list pyval;
  failed_joins : list failure;
  already_joined : list pyval;
  stdout : list string
}.
Arguments State {St Handle} _ _ _ _ _ _.
Arguments reddit {St Handle} _.
Arguments calls {St Handle} _.
Arguments successful_joins {St Handle} _.
Arguments failed_joins {St Handle} _.
Arguments already_joined {St Handle} _.
Arguments stdout {St Handle} _.

Section ImportLoop.
Context {St Handle : Type} {py_repr : Repr}.
Variable client : Client St Handle.

(** [click.progressbar(iterable, label=...)], from the length of the
    iterable and the label. *)
Variable progressbar : nat -> string -> Bar.

Local Abbreviation state := (state St Handle).

(** A statement: it runs on a state, and returns a value or raises. *)
Definition M (A : Type) : Type := state -> state * (exn + A).

#[export] Instance M_ret : MRet M := fun A x s => (s, inr x).
#[export] Instance M_bind : MBind M := fun A B k m s =>
  match m s with
  | (s', inl e) => (s', inl e)
  | (s', inr x) => k x s'
  end.

Definition raise {A} (e : exn) : M A := fun s => (s, inl e).

(** An expression that returns or raises and leaves the state alone. *)
Definition lift {A} (r : exn + A) : M A := fun s => (s, r).

(** [try: body / except Exception as e: handler e] *)
Definition try_except {A} (body : M A) (handler : exn -> M A) : M A :=
  fun s =>
    match body s with
    | (s', inl e) => handler e s'
    | (s', inr x) => (s', inr x)
    end.

(** [for x in l: body x]; an exception that leaves [body] ends the loop. *)
Fixpoint for_each {A} (l : list A) (body : A -> M unit) : M unit :=
  match l with
  | [] => mret tt
  | x :: l' => body x;; for_each l' body
  end.

(** One call on the client: the state behind it moves on and the call is
    logged. *)
Definition client_call {A} (c : call Handle) (op : St -> St * (exn + A)) : M A :=
  fun s =>
    let (st', r) := op (reddit s) in
    (State st' (calls s ++ [Event c (raised r)]) (successful_joins s)
       (failed_joins s) (already_joined s) (stdout s), r).

Definition call_subreddit (name : pyval) : M Handle :=
  client_call (CSubreddit name) (subreddit client name).

Definition get_user_is_subscriber (h : Handle) : M pyval :=
  client_call (CUserIsSubscriber h) (user_is_subscriber client h).

Definition call_subscribe (h : Handle) : M unit :=
  client_call (CSubscribe h) (subscribe client h).

(** [hasattr(subreddit, 'user_is_subscriber')]: the attribute is read;
    [AttributeError] gives [False], any other exception goes on. *)
Definition hasattr_user_is_subscriber (h : Handle) : M bool :=
  fun s =>
    match get_user_is_subscriber h s with
    | (s', inl (AttributeError _)) => (s', inr false)
    | (s', inl e) => (s', inl e)
    | (s', inr _) => (s', inr true)
    end.

Definition successful_joins_append (name : pyval) : M unit :=
  fun s => (State (reddit s) (calls s) (successful_joins s ++ [name])
              (failed_joins s) (already_joined s) (stdout s), inr tt).

Definition failed_joins_append (f : failure) : M unit :=
  fun s => (State (reddit s) (calls s) (successful_joins s)
              (failed_joins s ++ [f]) (already_joined s) (stdout s), inr tt).

Definition already_joined_append (name : pyval) : M unit :=
  fun s => (State (reddit s) (calls s) (successful_joins s)
              (failed_joins s) (already_joined s ++ [name]) (stdout s), inr tt).

(** Strings written to the standard output. *)
Definition write (chunks : list string) : M unit :=
  fun s => (State (reddit s) (calls s) (successful_joins s)
              (failed_joins s) (already_joined s) (stdout s ++ chunks), inr tt).

(** [click.echo(line)] *)
Definition echo (line : string) : M unit :=
  fun s => (State (reddit s) (calls s) (successful_joins s)
              (failed_joins s) (already_joined s) (stdout s ++ [line]), inr tt).

(** Lines 133-135: the three lists start empty. *)
Definition init_lists : M unit :=
  fun s => (State (reddit s) (calls s) [] [] [] (stdout s), inr tt).

Definition get_state : M state := fun s => (s, inr s).

(** [with bar as community_list: block]: the bar writes on the way in and
    on the way out, and an exception of the block goes on after that. *)
Definition with_bar {A} (bar : Bar) (block : M A) : M A :=
  write (bar_enter bar);;
  (fun s =>
     let (s', r) := block s in
     (fst (write (bar_exit bar) s'), r)) : M A.

(** [for x in community_list: body x], where [community_list] hands out
    the elements of [l]: the bar writes each time it is asked for the next
    element.  [next] is what it writes, counted from the element at hand. *)
Fixpoint for_each_shown {A} (next : nat -> list string) (l : list A)
    (body : A -> M unit) : M unit :=
  match l with
  | [] => write (next 0)
  | x :: l' =>
    write (next 0);; body x;; for_each_shown (fun i => next (S i)) l' body
  end.

(** Lines 157-166: the [except Exception as e] clause of the loop. *)
Definition except_clause (community_name : pyval) (e : exn) : M unit :=
  let error_msg := lower (exn_str e) in
  if str_in "private" error_msg || str_in "forbidden" error_msg then
    failed_joins_append (Failure community_name "Private/Restricted community")
  else if str_in "not found" error_msg || str_in "404" error_msg then
    failed_joins_append (Failure community_name "Community not found")
  else if str_in "banned" error_msg then
    failed_joins_append (Failure community_name "Banned from community")
  else
    failed_joins_append (Failure community_name ("Unknown error: " +:+ exn_str e)).

(** Lines 144-155: the [try] block of the loop.  [continue] ends it. *)
Definition try_block (dry_run : bool) (community_name : pyval) : M unit :=
  sub ← call_subreddit community_name;
  has ← hasattr_user_is_subscriber sub;
  is_sub ← (if has : bool then v ← get_user_is_subscriber sub; mret (truthy v)
            else mret false : M bool);
  if is_sub : bool then
    already_joined_append community_name
  else
    (if negb dry_run then call_subscribe sub else mret tt);;
    successful_joins_append community_name.

(** Lines 139-166: the body of the loop for one [community], an element
    of the list as the file has it.  Line 139 is outside the [try] of the
    body: on an element that is no mapping it raises out of the loop. *)
Definition loop_body (dry_run : bool) (community : pyval) : M unit :=
  community_name ← lift (py_get community "name");
  if negb (truthy community_name) then
    failed_joins_append (Failure (PStr "Unknown") "Missing community name")
  else
    try_except (try_block dry_run community_name) (except_clause community_name).

(** Lines 168-188: the summary. *)
Definition print_summary (dry_run : bool) (communities : list pyval) : M unit :=
  s ← get_state;
  echo (nl +:+ repeat_char "=" 50);;
  echo "IMPORT SUMMARY";;
  echo (repeat_char "=" 50);;
  (if dry_run then
     echo ("Would join: " +:+ pretty (length (successful_joins s)) +:+ " communities")
   else
     echo ("Successfully joined: " +:+ pretty (length (successful_joins s))
           +:+ " communities"));;
  (match already_joined s with
   | [] => mret tt : M unit
   | _ :: _ =>
     echo (nl +:+ "Already joined: " +:+ pretty (length (already_joined s))
           +:+ " communities");;
     for_each (already_joined s) (fun name => echo ("  - r/" +:+ py_str name))
   end);;
  (match failed_joins s with
   | [] => mret tt : M unit
   | _ :: _ =>
     echo (nl +:+ "Failed to join: " +:+ pretty (length (failed_joins s))
           +:+ " communities");;
     for_each (failed_joins s)
       (fun failure => echo ("  - r/" +:+ py_str (f_name failure) +:+ ": "
                             +:+ f_error failure))
   end);;
  echo (nl +:+ "Total processed: " +:+ pretty (length communities) +:+ " communities").

(** Line 137: the bar of a run over [n] communities. *)
Definition run_bar (n : nat) : Bar := progressbar n "Importing communities".

(** Lines 137-166: the loop inside the progress bar. *)
Definition import_loop (dry_run : bool) (communities : list pyval) : M unit :=
  let bar := run_bar (length communities) in
  with_bar bar (for_each_shown (bar_next bar) communities (loop_body dry_run)).

(** [import_communities(reddit, import_file, dry_run)].  Reading the file is
    [load_communities_file], which gives the list under ['communities'] as
    it is, or raises. *)
Definition import_communities
    (load_communities_file : string -> exn + list pyval)
    (import_file : string) (dry_run : bool) : M unit :=
  try_except
    (communities ← (match load_communities_file import_file with
                    | inl e => raise e
                    | inr l => mret l
                    end : M (list pyval));
     echo ("Found " +:+ pretty (length communities) +:+ " communities to import");;
     (if dry_run then
        echo "DRY RUN MODE - No communities will actually be joined"
      else mret tt);;
     init_lists;;
     import_loop dry_run communities;;
     print_summary dry_run communities)
    (fun e => raise (ClickException ("Import failed: " +:+ exn_str e))).

End ImportLoop.

Arguments M St Handle A : clear implicits.

(** ** Reading a run

    The loop has no value per record: it appends to one of three lists.
    An [outcome] names the list and the entry. *)
Inductive outcome : Type :=
  | Joined (name : pyval)
  | AlreadyJoined (name : pyval)
  | Failed (name : pyval) (reason : string).

Section Reading.
Context {St Handle : Type}.
Variable client : Client St Handle.
Variable progressbar : nat -> string -> Bar.

Local Abbreviation state := (state St Handle).

(** From [s] to [s'] exactly one entry was appended, the one [o] names. *)
Definition tallied (o : outcome) (s s' : state) : Prop :=
  match o with
  | Joined name =>
    successful_joins s' = successful_joins s ++ [name]
    /\ failed_joins s' = failed_joins s
    /\ already_joined s' = already_joined s
  | AlreadyJoined name =>
    successful_joins s' = successful_joins s
    /\ failed_joins s' = failed_joins s
    /\ already_joined s' = already_joined s ++ [name]
  | Failed name reason =>
    successful_joins s' = successful_joins s
    /\ failed_joins s' = failed_joins s ++ [Failure name reason]
    /\ already_joined s' = already_joined s
  end.

(** The names passed to [reddit.subreddit], in call order. *)
Fixpoint subreddit_calls (evs : list (event Handle)) : list pyval :=
  match evs with
  | [] => []
  | Event (CSubreddit name) _ :: evs' => name :: subreddit_calls evs'
  | _ :: evs' => subreddit_calls evs'
  end.

Definition same_operation (a b : event Handle) : bool :=
  match ev_call a, ev_call b with
  | CSubreddit _, CSubreddit _ => true
  | CUserIsSubscriber _, CUserIsSubscriber _ => true
  | CSubscribe _, CSubscribe _ => true
  | _, _ => false
  end.

(** No call that raised is followed by a call of the same operation. *)
Fixpoint no_retry (evs : list (event Handle)) : bool :=
  match evs with
  | [] => true
  | ev :: evs' =>
    (negb (ev_raised ev) || forallb (fun ev' => negb (same_operation ev ev')) evs')
    && no_retry evs'
  end.

Definition count_subscribe (evs : list (event Handle)) : nat :=
  length (List.filter is_subscribe evs).

(** The name of a record, as the loop reads it, and the names the loop
    does not reject, in input order. *)
Definition name_of (community : dict) : pyval := dict_get community "name".

Definition named_records (communities : list dict) : list pyval :=
  List.filter truthy (map name_of communities).

(** A platform operation of the record called [name] raises [e]: the
    lookup, a read of the subscription flag (an [AttributeError] of the read
    inside [hasattr] is the answer "no such attribute", not an error of the
    operation), or the subscription.  [st] is the client's state before the
    record and [st'] the one after the call that raised. *)
Inductive op_raises (dry_run : bool) (name : pyval) (st : St) (e : exn) (st' : St) : Prop :=
  | subreddit_raises :
      subreddit client name st = (st', inl e) ->
      op_raises dry_run name st e st'
  | first_read_raises h st1 :
      subreddit client name st = (st1, inr h) ->
      user_is_subscriber client h st1 = (st', inl e) ->
      (forall msg, e <> AttributeError msg) ->
      op_raises dry_run name st e st'
  | second_read_raises h st1 st2 v :
      subreddit client name st = (st1, inr h) ->
      user_is_subscriber client h st1 = (st2, inr v) ->
      user_is_subscriber client h st2 = (st', inl e) ->
      op_raises dry_run name st e st'
  | subscribe_raises_no_attribute h st1 st2 msg :
      dry_run = false ->
      subreddit client name st = (st1, inr h) ->
      user_is_subscriber client h st1 = (st2, inl (AttributeError msg)) ->
      subscribe client h st2 = (st', inl e) ->
      op_raises dry_run name st e st'
  | subscribe_raises h st1 st2 st3 v1 v2 :
      dry_run = false ->
      subreddit client name st = (st1, inr h) ->
      user_is_subscriber client h st1 = (st2, inr v1) ->
      user_is_subscriber client h st2 = (st3, inr v2) ->
      truthy v2 = false ->
      subscribe client h st3 = (st', inl e) ->
      op_raises dry_run name st e st'.

(** The client reports that the account has joined [name]: the lookup
    gives a handle and its subscription flag reads as a true value. *)
Definition reports_subscribed (name : pyval) (st st' : St) : Prop :=
  exists h st1 st2 v1 v2,
    subreddit client name st = (st1, inr h)
    /\ user_is_subscriber client h st1 = (st2, inr v1)
    /\ user_is_subscriber client h st2 = (st', inr v2)
    /\ truthy v2 = true.

(** What one iteration guarantees about the calls it makes. *)
Definition segment_ok (dry_run : bool) (community : dict)
    (seg : list (event Handle)) : Prop :=
  subreddit_calls seg =
    (if truthy (name_of community) then [name_of community] else [])
  /\ count_subscribe seg <= 1
  /\ no_retry seg = true
  /\ (dry_run = true -> count_subscribe seg = 0).

(** The same three lists. *)
Definition same_lists (s1 s2 : state) : Prop :=
  successful_joins s1 = successful_joins s2
  /\ failed_joins s1 = failed_joins s2
  /\ already_joined s1 = already_joined s2.

(** What the bar of a run over [communities] writes when it is asked for
    the next element. *)
Definition shown {A} (communities : list A) : nat -> list string :=
  bar_next (run_bar progressbar (length communities)).

(** The state in which [import_communities] enters the loop: the first
    lines are printed, the three lists are empty and the bar has written
    what it writes on the way in. *)
Definition loop_entry {A} (dry_run : bool) (communities : list A) (s : state) : state :=
  State (reddit s) (calls s) [] [] []
    (stdout s
     ++ ["Found " +:+ pretty (length communities) +:+ " communities to import"]
     ++ (if dry_run then ["DRY RUN MODE - No communities will actually be joined"]
         else [])
     ++ bar_enter (run_bar progressbar (length communities))).

(** The loop over the records [communities], started in [s0] with a bar
    that writes [next], appends the entry [o] for the record at position
    [i]: the loop gets as far as that record, and its iteration appends
    the entry. *)
Definition yields_shown (next : nat -> list string) (dry_run : bool)
    (communities : list dict) (s0 : state) (i : nat) (o : outcome) : Prop :=
  exists community s1 s2,
    communities !! i = Some community
    /\ for_each_shown next (PDict <$> take i communities)
         (loop_body client dry_run) s0 = (s1, inr tt)
    /\ loop_body client dry_run (PDict community) s1 = (s2, inr tt)
    /\ tallied o s1 s2.

(** The same for the bar of the run. *)
Definition yields (dry_run : bool) (communities : list dict) (s0 : state)
    (i : nat) (o : outcome) : Prop :=
  yields_shown (shown communities) dry_run communities s0 i o.

(** A remote that keeps subscriptions.  [joined st name] reads "in state
    [st] the account has joined [name]"; [handle_name] is the name a handle
    stands for.  A subscription that returns establishes [joined], no
    operation undoes it, and a joined community is found and reads as
    subscribed. *)
Record keeps_subscriptions (joined : St -> pyval -> Prop)
    (handle_name : Handle -> pyval) : Prop := {
  ks_handle : forall name st st' h,
    subreddit client name st = (st', inr h) -> handle_name h = name;
  ks_subscribe : forall h st st',
    subscribe client h st = (st', inr tt) -> joined st' (handle_name h);
  ks_stable_subreddit : forall name name' st st' r,
    joined st name -> subreddit client name' st = (st', r) -> joined st' name;
  ks_stable_read : forall name h st st' r,
    joined st name -> user_is_subscriber client h st = (st', r) -> joined st' name;
  ks_stable_subscribe : forall name h st st' r,
    joined st name -> subscribe client h st = (st', r) -> joined st' name;
  ks_found : forall name st,
    joined st name -> exists st' h, subreddit client name st = (st', inr h);
  ks_read : forall h st,
    joined st (handle_name h) ->
    exists st' v, user_is_subscriber client h st = (st', inr v) /\ truthy v = true
}.

(** A remote on which a dry run can stand for a real one.  [ahead J st st']
    reads "[st'] is [st] after subscribing to the names in [J]".  Every
    subscription returns, and it changes no answer about another name. *)
Record subscriptions_independent (ahead : list pyval -> St -> St -> Prop)
    (handle_name : Handle -> pyval) : Prop := {
  si_handle : forall name st st' h,
    subreddit client name st = (st', inr h) -> handle_name h = name;
  si_subreddit : forall J name st1 st2 st1' st2' r1 r2,
    ahead J st1 st2 -> name ∉ J ->
    subreddit client name st1 = (st1', r1) ->
    subreddit client name st2 = (st2', r2) ->
    r1 = r2 /\ ahead J st1' st2';
  si_read : forall J h st1 st2 st1' st2' r1 r2,
    ahead J st1 st2 -> handle_name h ∉ J ->
    user_is_subscriber client h st1 = (st1', r1) ->
    user_is_subscriber client h st2 = (st2', r2) ->
    r1 = r2 /\ ahead J st1' st2';
  si_subscribe : forall J h st1 st2 st2' r,
    ahead J st1 st2 ->
    subscribe client h st2 = (st2', r) ->
    r = inr tt /\ ahead (handle_name h :: J) st1 st2'
}.

End Reading.

(** The entries of each list, read off a sequence of outcomes. *)
Fixpoint joined_of (os : list outcome) : list pyval :=
  match os with
  | [] => []
  | Joined name :: os' => name :: joined_of os'
  | _ :: os' => joined_of os'
  end.

Fixpoint failed_of (os : list outcome) : list failure :=
  match os with
  | [] => []
  | Failed name reason :: os' => Failure name reason :: failed_of os'
  | _ :: os' => failed_of os'
  end.

Fixpoint already_of (os : list outcome) : list pyval :=
  match os with
  | [] => []
  | AlreadyJoined name :: os' => name :: already_of os'
  | _ :: os' => already_of os'
  end.

(** ** Credentials *)

(** A call that returns or raises, and what is done with its value. *)
Definition and_then {A B} (r : exn + A) (k : A -> exn + B) : exn + B :=
  match r with
  | inl e => inl e
  | inr x => k x
  end.

(** Lines 197-199: the config is the empty mapping unless a file is named,
    and then it is what [load_config] returns for the file, whatever that
    is, or [load_config] raises. *)
Definition read_config (load_config : string -> exn + pyval)
    (config_file : option string) : exn + pyval :=
  match config_file with
  | Some (String _ _ as f) => load_config f
  | _ => inr (PDict ∅)
  end.

(** [explicit or config.get(key)] and [explicit or config.get(key, dflt)]:
    [or] evaluates its right side only when the left one is false, and
    [get] on a config that is no mapping raises. *)
Definition or_get (explicit config : pyval) (key : string) : exn + pyval :=
  if truthy explicit then inr explicit else py_get config key.

Definition or_get_default (explicit config : pyval) (key : string) (dflt : pyval)
    : exn + pyval :=
  if truthy explicit then inr explicit else py_get_default config key dflt.

(** Lines 208-225: the validation of what was resolved. *)
Definition validated (client_id client_secret username password user_agent : pyval)
    : exn + (pyval * pyval * pyval * pyval * pyval) :=
  let missing_params := [] in
  let missing_params :=
    if negb (truthy client_id) then missing_params ++ ["client-id"] else missing_params in
  let missing_params :=
    if negb (truthy client_secret) then missing_params ++ ["client-secret"]
    else missing_params in
  let missing_params :=
    if negb (truthy username) then missing_params ++ ["username"] else missing_params in
  let missing_params :=
    if negb (truthy password) then missing_params ++ ["password"] else missing_params in
  match missing_params with
  | _ :: _ =>
    inl (ClickException
           ("Missing required parameters: " +:+ join ", " missing_params +:+ ". "
            +:+ "Provide them via command line or config file."))
  | [] => inr (client_id, client_secret, username, password, user_agent)
  end.

(** [get_reddit_credentials]: command line arguments (click passes [None]
    for an option that is not given), then the config file, then the
    default user agent.  Nothing here catches what [load_config] or
    [config.get] raises. *)
Definition get_reddit_credentials
    (load_config : string -> exn + pyval)
    (config_file : option string)
    (client_id client_secret username password user_agent : pyval)
    : exn + (pyval * pyval * pyval * pyval * pyval) :=
  and_then (read_config load_config config_file) (fun config =>
  and_then (or_get client_id config "client_id") (fun client_id =>
  and_then (or_get client_secret config "client_secret") (fun client_secret =>
  and_then (or_get username config "username") (fun username =>
  and_then (or_get password config "password") (fun password =>
  and_then (or_get_default user_agent config "user_agent" (PStr "reddit-cm:v0.1.0"))
    (fun user_agent =>
  validated client_id client_secret username password user_agent)))))).

(** The four required fields, with their key in the config, their name in
    the error message, and where they sit among the arguments and in the
    result. *)
Inductive required : Type := ClientId | ClientSecret | Username | Password.

Definition config_key (f : required) : string :=
  match f with
  | ClientId => "client_id"
  | ClientSecret => "client_secret"
  | Username => "username"
  | Password => "password"
  end.

Definition label (f : required) : string :=
  match f with
  | ClientId => "client-id"
  | ClientSecret => "client-secret"
  | Username => "username"
  | Password => "password"
  end.

Definition field_of (f : required) (client_id client_secret username password : pyval)
    : pyval :=
  match f with
  | ClientId => client_id
  | ClientSecret => client_secret
  | Username => username
  | Password => password
  end.

(** The arguments with the one of field [f] replaced by [v]. *)
Definition with_field (f : required) (v : pyval)
    (client_id client_secret username password : pyval)
    : pyval * pyval * pyval * pyval :=
  match f with
  | ClientId => (v, client_secret, username, password)
  | ClientSecret => (client_id, v, username, password)
  | Username => (client_id, client_secret, v, password)
  | Password => (client_id, client_secret, username, v)
  end.

(** The call with the four required arguments taken from a tuple. *)
Definition credentials_with (load_config : string -> exn + pyval)
    (config_file : option string) (user_agent : pyval)
    (required_args : pyval * pyval * pyval * pyval)
    : exn + (pyval * pyval * pyval * pyval * pyval) :=
  let '(client_id, client_secret, username, password) := required_args in
  get_reddit_credentials load_config config_file
    client_id client_secret username password user_agent.

Definition resolved_field (f : required)
    (creds : pyval * pyval * pyval * pyval * pyval) : pyval :=
  let '(client_id, client_secret, username, password, _) := creds in
  field_of f client_id client_secret username password.

(** [v] is chosen by precedence: the explicit value when it is given (a
    true value), else the value in the config file when the key is there,
    else the default. *)
Definition by_precedence (explicit : pyval) (from_file : option pyval)
    (dflt v : pyval) : Prop :=
  (truthy explicit = true -> v = explicit)
  /\ (truthy explicit = false -> forall x, from_file = Some x -> v = x)
  /\ (truthy explicit = false -> from_file = None -> v = dflt).

(** The value that a config has for a key: a config that is no mapping
    has none. *)
Definition config_value (config : pyval) (key : string) : option pyval :=
  match config with
  | PDict d => d !! key
  | _ => None
  end.

(** After the merge the required field [f] is missing: it is not given
    explicitly and the config has no true value for it. *)
Definition is_missing (f : required) (config : pyval)
    (client_id client_secret username password : pyval) : Prop :=
  truthy (field_of f client_id client_secret username password) = false
  /\ forall v, config_value config (config_key f) = Some v -> truthy v = false.

(** * Files, export and the commands *)

(** ** Parsing *)

(** What a parser raises: the two classes that [load_communities_file] and
    [load_config] tell apart, or any other exception. *)
Inductive pyexc : Type :=
  | JSONDecodeError (msg : string)
  | YAMLError (msg : string)
  | Raised (e : exn).

Definition pyexc_str (e : pyexc) : string :=
  match e with
  | JSONDecodeError msg | YAMLError msg => msg
  | Raised e => exn_str e
  end.

(** ** The libraries and the file system

    [pathlib], [json], [yaml] and [datetime] are parameters, with the
    options [main.py] passes them fixed.  A dump gives the text it wrote
    and the exception that stopped it, if any.  [T] is the type of a
    subreddit's [created_utc]. *)
Record Libs (T : Type) : Type := {
  suffix : string -> string;
  json_load : string -> pyexc + pyval;
  yaml_safe_load : string -> pyexc + pyval;
  json_dump : pyval -> string * option exn;
  yaml_dump : pyval -> string * option exn;
  fromtimestamp_isoformat : T -> exn + string;
  now_isoformat : string
}.
Arguments suffix {T} _ _.
Arguments json_load {T} _ _.
Arguments yaml_safe_load {T} _ _.
Arguments json_dump {T} _ _.
Arguments yaml_dump {T} _ _.
Arguments fromtimestamp_isoformat {T} _ _.
Arguments now_isoformat {T} _.

(** The files, in a state [FS]: [Path(p).exists()], opening a file for
    reading and reading all of it, opening a file for writing (which
    empties it), and writing text to the file just opened. *)
Record FileSystem (FS : Type) : Type := {
  fs_exists : string -> FS -> bool;
  fs_read : string -> FS -> exn + string;
  fs_open_w : string -> FS -> exn + FS;
  fs_write : string -> string -> FS -> FS
}.
Arguments fs_exists {FS} _ _ _.
Arguments fs_read {FS} _ _ _.
Arguments fs_open_w {FS} _ _ _.
Arguments fs_write {FS} _ _ _ _.

(** A subreddit as [reddit.user.subreddits] yields it: the attributes that
    [export_communities] reads. *)
Record Subreddit (T : Type) : Type := {
  display_name : pyval;
  title : pyval;
  public_description : pyval;
  subscribers : pyval;
  created_utc : T
}.
Arguments display_name {T} _.
Arguments title {T} _.
Arguments public_description {T} _.
Arguments subscribers {T} _.
Arguments created_utc {T} _.

(** The account side of praw: the constructor [praw.Reddit], which gives
    the client in its first state, [reddit.user.me()], and
    [reddit.user.subreddits(limit=None)], a generator: it yields
    subreddits and may then raise. *)
Record Account (St T : Type) : Type := {
  praw_Reddit : pyval -> pyval -> pyval -> pyval -> pyval -> exn + St;
  user_me : St -> St * (exn + unit);
  user_subreddits : St -> St * (list (Subreddit T) * option exn)
}.
Arguments praw_Reddit {St T} _ _ _ _ _ _.
Arguments user_me {St T} _ _.
Arguments user_subreddits {St T} _ _.

(** A file system that keeps what is written: a file opened for writing
    and written to exists and reads as the text written. *)
Definition keeps_text {FS : Type} (fsys : FileSystem FS) : Prop :=
  forall path text fs fs1,
    fs_open_w fsys path fs = inr fs1 ->
    fs_exists fsys path (fs_write fsys path text fs1) = true
    /\ fs_read fsys path (fs_write fsys path text fs1) = inr text.

Section Files.
Context {T FS : Type}.
Variable libs : Libs T.
Variable fsys : FileSystem FS.

(** The parser that the suffix of [path] selects in [load_config]. *)
Definition is_yaml_suffix (path : string) : bool :=
  let sfx := lower (suffix libs path) in
  String.eqb sfx ".yaml" || String.eqb sfx ".yml".

Definition is_json_suffix (path : string) : bool :=
  String.eqb (lower (suffix libs path)) ".json".

(** Lines 19-32: the file is opened and parsed by its suffix; with another
    suffix JSON is tried first, and YAML when JSON does not decode. *)
Definition parse_config (fs : FS) (config_file : string) : pyexc + pyval :=
  match fs_read fsys config_file fs with
  | inl e => inl (Raised e)
  | inr text =>
    if is_yaml_suffix config_file then yaml_safe_load libs text
    else if is_json_suffix config_file then json_load libs text
    else
      match json_load libs text with
      | inl (JSONDecodeError _) => yaml_safe_load libs text
      | r => r
      end
  end.

(** [load_config(config_file)] *)
Definition load_config (fs : FS) (config_file : string) : exn + pyval :=
  if negb (fs_exists fsys config_file fs) then
    inl (ClickException ("Config file not found: " +:+ config_file))
  else
    match parse_config fs config_file with
    | inl e => inl (ClickException ("Failed to parse config file: " +:+ pyexc_str e))
    | inr config => inr (if truthy config then config else PDict ∅)
    end.

(** Lines 101-105: the file is opened and parsed, as YAML by its suffix and
    as JSON otherwise. *)
Definition parse_import (fs : FS) (file_path : string) : pyexc + pyval :=
  match fs_read fsys file_path fs with
  | inl e => inl (Raised e)
  | inr text =>
    if is_yaml_suffix file_path then yaml_safe_load libs text
    else json_load libs text
  end.

(** Lines 97-114: the [try] block of [load_communities_file]. *)
Definition load_communities_block (fs : FS) (file_path : string) : pyexc + list pyval :=
  if negb (fs_exists fsys file_path fs) then
    inl (Raised (ClickException ("Import file not found: " +:+ file_path)))
  else
    match parse_import fs file_path with
    | inl e => inl e
    | inr data =>
      match data with
      | PDict d =>
        match d !! "communities" with
        | None =>
          inl (Raised (ClickException "Invalid file format: missing 'communities' field"))
        | Some (PList communities) => inr communities
        | Some _ =>
          inl (Raised (ClickException "Invalid file format: 'communities' must be a list"))
        end
      | _ =>
        inl (Raised (ClickException "Invalid file format: missing 'communities' field"))
      end
    end.

(** [load_communities_file(file_path)]: the block under its three [except]
    clauses. *)
Definition load_communities_file (fs : FS) (file_path : string) : exn + list pyval :=
  match load_communities_block fs file_path with
  | inl (JSONDecodeError msg) =>
    inl (ClickException ("Failed to parse JSON file: " +:+ msg))
  | inl (YAMLError msg) =>
    inl (ClickException ("Failed to parse YAML file: " +:+ msg))
  | inl (Raised e) =>
    inl (ClickException ("Failed to load import file: " +:+ exn_str e))
  | inr communities => inr communities
  end.

End Files.

Section ExportRun.
Context {St T FS : Type} {py_repr : Repr}.
Variable libs : Libs T.
Variable fsys : FileSystem FS.
Variable account : Account St T.

(** Lines 63-70: the record exported for one subreddit, once its creation
    time is formatted. *)
Definition community_data (sub : Subreddit T) (created : string) : dict :=
  <["url" := PStr ("https://reddit.com/r/" +:+ py_str (display_name sub))]>
  (<["created_utc" := PStr created]>
  (<["subscribers" := subscribers sub]>
  (<["description" := py_or (public_description sub) (PStr "")]>
  (<["title" := title sub]>
  (<["name" := display_name sub]> ∅))))).

(** Lines 62-71: the loop over what the generator yields. *)
Fixpoint collect_communities (subs : list (Subreddit T)) : exn + list dict :=
  match subs with
  | [] => inr []
  | sub :: subs' =>
    match fromtimestamp_isoformat libs (created_utc sub) with
    | inl e => inl e
    | inr created =>
      match collect_communities subs' with
      | inl e => inl e
      | inr communities => inr (community_data sub created :: communities)
      end
    end
  end.

(** Lines 75-79: the document. *)
Definition export_data (communities : list dict) : pyval :=
  PDict (<["communities" := PList (PDict <$> communities)]>
        (<["total_communities" := PInt (Z.of_nat (length communities))]>
        (<["exported_at" := PStr (now_isoformat libs)]> ∅))).

(** What a run of [export_communities] or of a command leaves: the
    client's state, the files and the lines printed. *)
Record world : Type := World {
  w_reddit : St;
  w_files : FS;
  w_stdout : list string
}.

Definition w_echo (line : string) (w : world) : world :=
  World (w_reddit w) (w_files w) (w_stdout w ++ [line]).

(** Lines 82-86: [with open(output_file, 'w') as f: dump(export_data, f)]. *)
Definition write_document (dump : pyval -> string * option exn)
    (output_file : string) (data : pyval) (w : world) : world * (exn + unit) :=
  match fs_open_w fsys output_file (w_files w) with
  | inl e => (w, inl e)
  | inr fs1 =>
    let (text, err) := dump data in
    let w' := World (w_reddit w) (fs_write fsys output_file text fs1) (w_stdout w) in
    match err with
    | Some e => (w', inl e)
    | None => (w', inr tt)
    end
  end.

(** Lines 81-86: the dump for a format; none for a format that is neither
    ['json'] nor ['yaml']. *)
Definition dump_for (format_type : string) : option (pyval -> string * option exn) :=
  if String.eqb format_type "json" then Some (json_dump libs)
  else if String.eqb format_type "yaml" then Some (yaml_dump libs)
  else None.

(** Lines 59-88: the [try] block of [export_communities]. *)
Definition export_block (format_type output_file : string) (w : world)
    : world * (exn + unit) :=
  let w := w_echo "Fetching joined communities..." w in
  let '(st, (subs, err)) := user_subreddits account (w_reddit w) in
  let w := World st (w_files w) (w_stdout w) in
  match collect_communities subs with
  | inl e => (w, inl e)
  | inr communities =>
    match err with
    | Some e => (w, inl e)
    | None =>
      let w := w_echo ("Found " +:+ pretty (length communities) +:+ " communities") w in
      let data := export_data communities in
      let (w, r) :=
        match dump_for format_type with
        | Some dump => write_document dump output_file data w
        | None => (w, inr tt)
        end in
      match r with
      | inl e => (w, inl e)
      | inr _ => (w_echo ("Communities exported to " +:+ output_file) w, inr tt)
      end
    end
  end.

(** [export_communities(reddit, format_type, output_file)] *)
Definition export_communities (format_type output_file : string) (w : world)
    : world * (exn + unit) :=
  match export_block format_type output_file w with
  | (w', inl e) => (w', inl (ClickException ("Export failed: " +:+ exn_str e)))
  | (w', inr _) => (w', inr tt)
  end.

(** [authenticate_reddit(client_id, client_secret, username, password,
    user_agent)]: the client, in the state after [reddit.user.me()]. *)
Definition authenticate_reddit
    (client_id client_secret username password user_agent : pyval) : exn + St :=
  match praw_Reddit account client_id client_secret username password user_agent with
  | inl e => inl (ClickException ("Authentication failed: " +:+ exn_str e))
  | inr st =>
    match user_me account st with
    | (_, inl e) => inl (ClickException ("Authentication failed: " +:+ exn_str e))
    | (st', inr _) => inr st'
    end
  end.

(** The choices of [--format]. *)
Inductive format : Type := Json | Yaml.

Definition format_str (f : format) : string :=
  match f with Json => "json" | Yaml => "yaml" end.

(** [format_type.upper()] *)
Definition format_upper (f : format) : string :=
  match f with Json => "JSON" | Yaml => "YAML" end.

(** Lines 253-259 of [export]: the format and the file the export goes to.
    click passes [None] for an option that is not given. *)
Definition export_target (format_type : option format) (output_file : option string)
    : format * string :=
  let format_type := default Json format_type in
  let output_file :=
    match output_file with
    | Some (String _ _ as f) => f
    | _ => "communities.json"
    end in
  let output_file :=
    match format_type with
    | Yaml => if String.eqb output_file "communities.json" then "communities.yaml"
              else output_file
    | Json => output_file
    end in
  (format_type, output_file).

(** The command [export].  [load_config] is what [get_reddit_credentials]
    calls for the config file.  The command starts with the files and the
    lines printed; the client comes with the authentication. *)
Definition export
    (load_config : string -> exn + pyval) (config_file : option string)
    (client_id client_secret username password user_agent : pyval)
    (format_type : option format) (output_file : option string)
    (fs : FS) (out : list string)
    : (option St * FS * list string) * (exn + unit) :=
  match get_reddit_credentials load_config config_file
          client_id client_secret username password user_agent with
  | inl e => ((None, fs, out), inl e)
  | inr (client_id, client_secret, username, password, user_agent) =>
    let (format_type, output_file) := export_target format_type output_file in
    let out := out ++ ["Authenticating with Reddit as " +:+ py_str username +:+ "..."] in
    match authenticate_reddit client_id client_secret username password user_agent with
    | inl e => ((None, fs, out), inl e)
    | inr st =>
      let out :=
        out ++ ["Exporting communities to " +:+ format_upper format_type
                +:+ " format..."] in
      let (w, r) :=
        export_communities (format_str format_type) output_file (World st fs out) in
      ((Some (w_reddit w), w_files w, w_stdout w), r)
    end
  end.

End ExportRun.

Arguments world St FS : clear implicits.
Arguments World {St FS} _ _ _.
Arguments w_reddit {St FS} _.
Arguments w_files {St FS} _.
Arguments w_stdout {St FS} _.

Section ImportCommand.
Context {St Handle T : Type} {py_repr : Repr}.
Variable client : Client St Handle.
Variable progressbar : nat -> string -> Bar.
Variable account : Account St T.

(** The command [import].  The lines printed so far go into the state in
    which [import_communities] starts. *)
Definition import_cmd
    (load_communities_file : string -> exn + list pyval) (import_file : string)
    (load_config : string -> exn + pyval) (config_file : option string)
    (client_id client_secret username password user_agent : pyval)
    (dry_run : bool) (out : list string)
    : option (state St Handle) * list string * (exn + unit) :=
  match get_reddit_credentials load_config config_file
          client_id client_secret username password user_agent with
  | inl e => (None, out, inl e)
  | inr (client_id, client_secret, username, password, user_agent) =>
    let out := out ++ ["Authenticating with Reddit as " +:+ py_str username +:+ "..."] in
    match authenticate_reddit account client_id client_secret username password
            user_agent with
    | inl e => (None, out, inl e)
    | inr st =>
      let (s, r) :=
        import_communities client progressbar load_communities_file import_file dry_run
          (State st [] [] [] [] out) in
      (Some s, stdout s, r)
    end
  end.

End ImportCommand.

(** ** Reading a run, further *)

(** The entry that the loop can append for [community]: under its name
    when it has one, and the fixed failure when it has none. *)
Definition outcome_for (community : dict) (o : outcome) : Prop :=
  match o with
  | Joined name | AlreadyJoined name =>
    truthy (name_of community) = true /\ name = name_of community
  | Failed name reason =>
    (truthy (name_of community) = true /\ name = name_of community)
    \/ (truthy (name_of community) = false
        /\ name = PStr "Unknown" /\ reason = "Missing community name")
  end.

(** ** A client to run the loop on

    An account as a set of joined community names, with a table of the
    names whose operations raise.  The handle of a community is its name. *)
Module Remote.

Record faults : Type := Faults {
  subreddit_fault : string -> option exn;
  query_fault : string -> option exn;
  subscribe_fault : string -> option exn
}.

Definition no_faults : faults :=
  Faults (fun _ => None) (fun _ => None) (fun _ => None).

Definition client (f : faults) : Client (gset string) string := {|
  subreddit name st :=
    match name with
    | PStr n =>
      match subreddit_fault f n with
      | Some e => (st, inl e)
      | None => (st, inr n)
      end
    | _ => (st, inl (Exception "invalid community name"))
    end;
  user_is_subscriber h st :=
    match query_fault f h with
    | Some e => (st, inl e)
    | None => (st, inr (PBool (bool_decide (h ∈ st))))
    end;
  subscribe h st :=
    match subscribe_fault f h with
    | Some e => (st, inl e)
    | None => ({[h]} ∪ st, inr tt)
    end
|}.

(** The state a run starts in: nothing called, nothing printed. *)
Definition start (joined : gset string) : state (gset string) string :=
  State joined [] [] [] [] [].

(** A record with only a name. *)
Definition named (n : string) : dict := {["name" := PStr n]}.

(** In state [st] the account has joined the community called [name]. *)
Definition joined (st : gset string) (name : pyval) : Prop :=
  exists n, name = PStr n /\ n ∈ st.

(** The name a handle stands for. *)
Definition handle_name (h : string) : pyval := PStr h.

(** [st'] is [st] with the names in [J] joined as well. *)
Definition ahead (J : list pyval) (st st' : gset string) : Prop :=
  forall n, n ∈ st' <-> n ∈ st \/ PStr n ∈ J.

(** The faults of the examples: subscribing to "privatesub" is refused. *)
Definition private_faults : faults :=
  Faults (fun _ => None) (fun _ => None)
    (fun n => if String.eqb n "privatesub" then Some (Exception "403 Forbidden")
              else None).

(** Other faults: reading the subscription flag of "privatesub" raises an
    [AttributeError], with the message of a refusal. *)
Definition hidden_faults : faults :=
  Faults (fun _ => None)
    (fun n => if String.eqb n "privatesub"
              then Some (AttributeError "403 Forbidden: private community")
              else None)
    (fun _ => None).

(** A progress bar away from a terminal, as click 8 has it: it writes its
    label once. *)
Definition bar (n : nat) (label : string) : Bar :=
  {| bar_enter := [label]; bar_next := fun _ => []; bar_exit := [] |}.

(** A stand-in for [repr] on containers. *)
Definition repr : Repr := fun v =>
  match v with
  | PList _ => "[...]"
  | _ => "{...}"
  end.


End Remote.

(** ** A sample environment

    Files as a map from paths to texts, parsers that know one text each,
    and an account with two joined communities. *)
Module Sample.

#[local] Existing Instance Remote.repr.

Definition files : FileSystem (gmap string string) := {|
  fs_exists p fs := match fs !! p with Some _ => true | None => false end;
  fs_read p fs :=
    match fs !! p with
    | Some text => inr text
    | None => inl (Exception ("No such file or directory: " +:+ p))
    end;
  fs_open_w p fs :=
    match p with
    | EmptyString => inl (Exception "No such file or directory: ")
    | String _ _ => inr (<[p := ""]> fs)
    end;
  fs_write p text fs := <[p := text]> fs
|}.

(** The part of a file name from its last dot on. *)
Fixpoint last_suffix (p : string) : string :=
  match p with
  | EmptyString => ""
  | String c p' =>
    match last_suffix p' with
    | EmptyString => if Ascii.eqb c "." then p else ""
    | sfx => sfx
    end
  end.

(** Libraries whose JSON side knows the text ["{json}"] for [json_doc] and
    whose YAML side knows ["yaml:"] for [yaml_doc]; times are whole
    seconds, and two of them have a date. *)
Definition libs (json_doc yaml_doc : pyval) : Libs Z := {|
  suffix := last_suffix;
  json_load text :=
    if String.eqb text "{json}" then inr json_doc
    else inl (JSONDecodeError "Expecting value: line 1 column 1 (char 0)");
  yaml_safe_load text :=
    if String.eqb text "yaml:" then inr yaml_doc
    else inl (YAMLError "could not find expected ':'");
  json_dump _ := ("{json}", None);
  yaml_dump _ := ("yaml:", None);
  fromtimestamp_isoformat t :=
    if Z.eqb t 1200000000 then inr "2008-01-10T21:20:00"
    else if Z.eqb t 1000000000 then inr "2001-09-09T01:46:40"
    else inl (Exception "year is out of range");
  now_isoformat := "2024-01-01T00:00:00"
|}.

Definition python : Subreddit Z := {|
  display_name := PStr "python";
  title := PStr "Python";
  public_description := PStr "News about the Python language";
  subscribers := PInt 1000000;
  created_utc := 1200000000%Z
|}.

Definition nodesc : Subreddit Z := {|
  display_name := PStr "nodesc";
  title := PStr "No Description";
  public_description := PNone;
  subscribers := PInt 50;
  created_utc := 1000000000%Z
|}.

(** An account that accepts the password "pw" and has joined two
    communities. *)
Definition account : Account (gset string) Z := {|
  praw_Reddit _ _ _ password _ :=
    match password with
    | PStr "pw" => inr ({["python"; "nodesc"]} : gset string)
    | _ => inl (Exception "invalid_grant error processing request")
    end;
  user_me st := (st, inr tt);
  user_subreddits st := (st, ([python; nodesc], None))
|}.

(** The records that the sample account exports, and their document. *)
Definition exported : list dict :=
  [community_data python "2008-01-10T21:20:00";
   community_data nodesc "2001-09-09T01:46:40"].

Definition document : pyval := export_data (libs PNone PNone) exported.

(** Libraries that know the exported document in both formats. *)
Definition export_libs : Libs Z := libs document document.

(** Some files: an export, the same text under other names, and a text
    that is neither format. *)
Definition disk : gmap string string :=
  {["communities.json" := "{json}"; "settings" := "yaml:";
    "settings.yaml" := "yaml:"; "settings.json" := "yaml:";
    "broken.json" := "{"]}.

(** The world of a command that starts on an empty disk. *)
Definition fresh : world (gset string) (gmap string string) :=
  World {["python"; "nodesc"]} ∅ [].

End Sample.

(** * Proofs *)

(** ** Strings *)
Module PyStrFacts.

Lemma append_nil (s : string) : "" +:+ s = s.
Proof. reflexivity. Qed.

Lemma append_cons (c : ascii) (s t : string) :
  String c s +:+ t = String c (s +:+ t).
Proof. reflexivity. Qed.

Lemma append_nil_r (s : string) : s +:+ "" = s.
Proof.
  induction s as [|c s IH]; [reflexivity|].
  rewrite append_cons, IH. reflexivity.
Qed.

Lemma append_assoc (s t u : string) : (s +:+ t) +:+ u = s +:+ (t +:+ u).
Proof.
  induction s as [|c s IH]; [reflexivity|].
  rewrite !append_cons, IH. reflexivity.
Qed.

Lemma prefix_spec (p s : string) :
  String.prefix p s = true <-> exists post, s = p +:+ post.
Proof.
  revert s. induction p as [|c p IH]; intros s.
  - split; [intros _; exists s; reflexivity | intros _; destruct s; reflexivity].
  - destruct s as [|d s]; simpl.
    + split; [discriminate | intros [post H]; rewrite append_cons in H; discriminate].
    + destruct (Ascii.ascii_dec c d) as [->|Hne].
      * rewrite IH. split; intros [post H]; exists post.
        -- rewrite append_cons, H. reflexivity.
        -- rewrite append_cons in H. congruence.
      * split; [discriminate|].
        intros [post H]. rewrite append_cons in H. congruence.
Qed.

(** [needle in hay] decides that [needle] occurs in [hay]. *)
Lemma str_in_spec (needle hay : string) :
  str_in needle hay = true <-> occurs_in needle hay.
Proof.
  unfold occurs_in. induction hay as [|c hay IH].
  - change (str_in needle "") with (String.prefix needle "" || false).
    rewrite orb_false_r, prefix_spec. split.
    + intros [post H]. exists "", post. exact H.
    + intros [pre [post H]]. destruct pre; [exists post; exact H|].
      rewrite append_cons in H. discriminate.
  - change (str_in needle (String c hay))
      with (String.prefix needle (String c hay) || str_in needle hay).
    rewrite orb_true_iff, prefix_spec, IH. split.
    + intros [[post H] | [pre [post H]]].
      * exists "", post. exact H.
      * exists (String c pre), post. rewrite append_cons, H. reflexivity.
    + intros [pre [post H]]. destruct pre as [|d pre].
      * left. exists post. exact H.
      * right. rewrite append_cons in H. exists pre, post. congruence.
Qed.

Lemma lower_app (s t : string) : lower (s +:+ t) = lower s +:+ lower t.
Proof.
  induction s as [|c s IH]; [reflexivity|].
  rewrite append_cons. simpl. rewrite IH, append_cons. reflexivity.
Qed.

Lemma lower_app_inv (s p q : string) :
  lower s = p +:+ q ->
  exists a b, s = a +:+ b /\ lower a = p /\ lower b = q.
Proof.
  revert s. induction p as [|c p IH]; intros s H.
  - exists "", s. auto.
  - destruct s as [|d s]; [discriminate|].
    rewrite append_cons in H. simpl in H. injection H as Hc Hs.
    destruct (IH _ Hs) as [a [b [-> [Ha Hb]]]].
    exists (String d a), b. rewrite append_cons. simpl. rewrite Hc, Ha. auto.
Qed.

(** On a lower-case needle, [needle in hay.lower()] decides that [needle]
    occurs in [hay] up to case. *)
Lemma str_in_lower_spec (needle hay : string) :
  lower needle = needle ->
  str_in needle (lower hay) = true <-> occurs_in_nocase needle hay.
Proof.
  intros Hn. rewrite str_in_spec. unfold occurs_in, occurs_in_nocase. split.
  - intros [p [q H]].
    destruct (lower_app_inv _ _ _ H) as [pre [rest [-> [_ Hrest]]]].
    destruct (lower_app_inv _ _ _ Hrest) as [mid [post [-> [Hmid _]]]].
    exists pre, mid, post. rewrite Hn. auto.
  - intros [pre [mid [post [-> Hmid]]]].
    exists (lower pre), (lower post).
    rewrite !lower_app, Hmid, Hn. reflexivity.
Qed.

End PyStrFacts.

(** ** The loop body, case by case *)

Ltac unfold_stmt :=
  unfold loop_body, lift, py_get, try_except, try_block,
    hasattr_user_is_subscriber,
    get_user_is_subscriber, call_subreddit, call_subscribe, client_call,
    already_joined_append, successful_joins_append, failed_joins_append,
    echo, write, init_lists, get_state, raise, mbind, M_bind, mret, M_ret in *.

(** Split on the answer of the next client call in the goal. *)
Ltac next_call :=
  match goal with
  | |- context [subreddit ?c ?n ?st] =>
    let r := fresh "r" in let st' := fresh "st" in
    destruct (subreddit c n st) as [st' r] eqn:?; destruct r as [?e|?h]
  | |- context [user_is_subscriber ?c ?h ?st] =>
    let r := fresh "r" in let st' := fresh "st" in
    destruct (user_is_subscriber c h st) as [st' r] eqn:?; destruct r as [?e|?v]
  | |- context [subscribe ?c ?h ?st] =>
    let r := fresh "r" in let st' := fresh "st" in
    destruct (subscribe c h st) as [st' r] eqn:?; destruct r as [?e|?u]
  end; cbn [reddit calls successful_joins failed_joins already_joined stdout raised].

(** Follow the iteration along the answers of the client that the context
    records. *)
Ltac follow_calls :=
  repeat (cbn [reddit calls successful_joins failed_joins already_joined stdout
               negb raised];
          match goal with
          | H : subreddit _ _ _ = _ |- _ => rewrite H
          | H : user_is_subscriber _ _ _ = _ |- _ => rewrite H
          | H : subscribe _ _ _ = _ |- _ => rewrite H
          | H : truthy _ = _ |- _ => rewrite H
          end).

(** Follow the iteration of a named record down every branch. *)
Ltac walk_body lem :=
  repeat (first [ next_call | match goal with
      | |- context [except_clause ?n ?e ?s] =>
        destruct (lem n e s) as [? [-> _]]; unfold_stmt
      | |- context [match ?e with AttributeError _ => _ | _ => _ end] => destruct e
      | |- context [if truthy ?v then _ else _] => destruct (truthy v) eqn:?
      | |- context [if negb ?b then _ else _] => destruct b; cbn [negb]
      end ];
    cbn [reddit calls successful_joins failed_joins already_joined stdout raised fst]).

(** Close a goal that asks for the two states reached and the names the
    right side is ahead by. *)
Ltac exists_states J :=
  repeat match goal with
  | |- context [if ?c then _ else _] => destruct c
  end;
  eexists _, _, J; (split; [reflexivity|]); (split; [reflexivity|]);
  cbn [reddit calls successful_joins failed_joins already_joined stdout];
  (split; [assumption|]); (split; [auto|]);
  unfold same_lists;
  cbn [reddit calls successful_joins failed_joins already_joined stdout];
  repeat split; congruence.

(** Name the list the iteration appended to. *)
Ltac pick_outcome :=
  first
    [ eexists _, (Joined _); eexists; split; [reflexivity|];
      split; [cbn; repeat split; reflexivity|]
    | eexists _, (AlreadyJoined _); eexists; split; [reflexivity|];
      split; [cbn; repeat split; reflexivity|]
    | eexists _, (Failed _ _); eexists; split; [reflexivity|];
      split; [cbn; repeat split; reflexivity|] ].

Section BodyFacts.
Context {St Handle : Type} {py_repr : Repr}.
Variable client : Client St Handle.
Variable progressbar : nat -> string -> Bar.

Local Abbreviation state := (state St Handle).

(** The iteration for a mapping: line 139 gives the name, and the rest
    follows. *)
Lemma loop_body_record (dry_run : bool) (community : dict) (s : state) :
  loop_body client dry_run (PDict community) s =
  (if negb (truthy (name_of community)) then
     failed_joins_append (Failure (PStr "Unknown") "Missing community name")
   else
     try_except (try_block client dry_run (name_of community))
       (except_clause (name_of community))) s.
Proof. reflexivity. Qed.

(** The iteration for an element that is no mapping: line 139 raises, and
    nothing else happens. *)
Lemma loop_body_no_record (dry_run : bool) (element : pyval) (s : state) :
  (forall d, element <> PDict d) ->
  loop_body client dry_run element s = (s, inl (no_attribute_get element)).
Proof.
  intros Hno. destruct element; try reflexivity. exfalso. exact (Hno d eq_refl).
Qed.

Lemma for_each_app {A} (l1 l2 : list A) (body : A -> M St Handle unit) (s : state) :
  for_each (l1 ++ l2) body s =
  match for_each l1 body s with
  | (s', inl e) => (s', inl e)
  | (s', inr _) => for_each l2 body s'
  end.
Proof.
  revert s. induction l1 as [|x l1 IH]; intros s; [reflexivity|].
  cbn [app for_each]. unfold mbind, M_bind.
  destruct (body x s) as [s1 [e|[]]]; [reflexivity | apply IH].
Qed.

(** The [except] clause appends one failure and nothing else; the reason
    follows the order of the tests. *)
Lemma except_clause_spec (name : pyval) (e : exn) (s : state) :
  exists reason,
    except_clause name e s = failed_joins_append (Failure name reason) s
    /\ let msg := exn_str e in
       let private := occurs_in_nocase "private" msg \/ occurs_in_nocase "forbidden" msg in
       let not_found := occurs_in_nocase "not found" msg \/ occurs_in_nocase "404" msg in
       let banned := occurs_in_nocase "banned" msg in
       (private -> reason = "Private/Restricted community")
       /\ (~ private -> not_found -> reason = "Community not found")
       /\ (~ private -> ~ not_found -> banned -> reason = "Banned from community")
       /\ (~ private -> ~ not_found -> ~ banned ->
           reason = "Unknown error: " +:+ msg).
Proof.
  unfold except_clause.
  pose proof (PyStrFacts.str_in_lower_spec "private" (exn_str e) eq_refl) as H1.
  pose proof (PyStrFacts.str_in_lower_spec "forbidden" (exn_str e) eq_refl) as H2.
  pose proof (PyStrFacts.str_in_lower_spec "not found" (exn_str e) eq_refl) as H3.
  pose proof (PyStrFacts.str_in_lower_spec "404" (exn_str e) eq_refl) as H4.
  pose proof (PyStrFacts.str_in_lower_spec "banned" (exn_str e) eq_refl) as H5.
  destruct (str_in "private" (lower (exn_str e))) eqn:E1;
  destruct (str_in "forbidden" (lower (exn_str e))) eqn:E2;
  destruct (str_in "not found" (lower (exn_str e))) eqn:E3;
  destruct (str_in "404" (lower (exn_str e))) eqn:E4;
  destruct (str_in "banned" (lower (exn_str e))) eqn:E5;
  cbn [orb]; eexists; (split; [reflexivity|]); cbv zeta;
  repeat split; intros; try reflexivity; exfalso;
  rewrite <- ?H1, <- ?H2, <- ?H3, <- ?H4, <- ?H5 in *;
  intuition congruence.
Qed.

(** Every iteration returns, appends exactly one entry, looks a named
    record up once, subscribes at most once and not at all in a dry run,
    and calls no operation again after it raised. *)
Lemma loop_body_step (dry_run : bool) (community : dict) (s : state) :
  exists s' o evs,
    loop_body client dry_run (PDict community) s = (s', inr tt)
    /\ tallied o s s'
    /\ calls s' = calls s ++ evs
    /\ stdout s' = stdout s
    /\ subreddit_calls evs =
       (if truthy (name_of community) then [name_of community] else [])
    /\ count_subscribe evs <= 1
    /\ no_retry evs = true
    /\ (dry_run = true -> count_subscribe evs = 0).
Proof.
  rewrite loop_body_record. unfold name_of.
  destruct (truthy (dict_get community "name")) eqn:Hname; cbn [negb].
  - unfold_stmt.
    repeat (first [ next_call | match goal with
        | |- context [except_clause ?n ?e ?s] =>
          destruct (except_clause_spec n e s) as [? [-> _]]; unfold_stmt
        | |- context [match ?e with AttributeError _ => _ | _ => _ end] => destruct e
        | |- context [if truthy ?v then _ else _] => destruct (truthy v) eqn:?
        | |- context [if negb ?b then _ else _] => destruct b; cbn [negb]
        end ]; cbn [reddit calls successful_joins failed_joins already_joined stdout raised]).
    all: pick_outcome; rewrite <- ?app_assoc;
      repeat split; try reflexivity; try discriminate; cbn; lia.
  - unfold_stmt.
    eexists _, (Failed (PStr "Unknown") "Missing community name"), [].
    cbn. rewrite app_nil_r. repeat split; lia.
Qed.

Lemma outcomes_length (os : list outcome) :
  length (joined_of os) + length (failed_of os) + length (already_of os) = length os.
Proof.
  induction os as [|[n|n|n r] os IH]; cbn [joined_of failed_of already_of length]; lia.
Qed.

Lemma tallied_lists (o : outcome) (s s' : state) :
  tallied o s s' <->
  successful_joins s' = successful_joins s ++ joined_of [o]
  /\ failed_joins s' = failed_joins s ++ failed_of [o]
  /\ already_joined s' = already_joined s ++ already_of [o].
Proof.
  destruct o; cbn [tallied joined_of failed_of already_of];
    rewrite ?app_nil_r; reflexivity.
Qed.

Lemma joined_of_cons (o : outcome) (os : list outcome) :
  joined_of (o :: os) = joined_of [o] ++ joined_of os.
Proof. destruct o; reflexivity. Qed.

Lemma failed_of_cons (o : outcome) (os : list outcome) :
  failed_of (o :: os) = failed_of [o] ++ failed_of os.
Proof. destruct o; reflexivity. Qed.

Lemma already_of_cons (o : outcome) (os : list outcome) :
  already_of (o :: os) = already_of [o] ++ already_of os.
Proof. destruct o; reflexivity. Qed.

Lemma for_each_shown_nil {A} (next : nat -> list string)
    (body : A -> M St Handle unit) (s : state) :
  for_each_shown next [] body s = (fst (write (next 0) s), inr tt).
Proof. reflexivity. Qed.

Lemma for_each_shown_cons {A} (next : nat -> list string) (x : A) (l : list A)
    (body : A -> M St Handle unit) (s : state) :
  for_each_shown next (x :: l) body s =
  match body x (fst (write (next 0) s)) with
  | (s1, inl e) => (s1, inl e)
  | (s1, inr _) => for_each_shown (fun i => next (S i)) l body s1
  end.
Proof. reflexivity. Qed.

(** Over records the loop never stops early: every record gets its
    iteration, one outcome and one segment of calls, in input order, and
    only the bar writes. *)
Lemma for_each_loop_body (next : nat -> list string) (dry_run : bool)
    (communities : list dict) (s : state) :
  exists s' os segs written,
    for_each_shown next (PDict <$> communities) (loop_body client dry_run) s
    = (s', inr tt)
    /\ length os = length communities
    /\ successful_joins s' = successful_joins s ++ joined_of os
    /\ failed_joins s' = failed_joins s ++ failed_of os
    /\ already_joined s' = already_joined s ++ already_of os
    /\ calls s' = calls s ++ concat segs
    /\ Forall2 (segment_ok dry_run) communities segs
    /\ stdout s' = stdout s ++ written
    /\ reddit (fst (write (next 0) s)) = reddit s
    /\ (forall i o, os !! i = Some o ->
        yields_shown client next dry_run communities s i o).
Proof.
  revert next s. induction communities as [|community communities IH]; intros next s.
  - exists (fst (write (next 0) s)), [], [], (next 0). cbn. rewrite !app_nil_r.
    repeat split; [constructor|].
    intros i o Hi. rewrite lookup_nil in Hi. discriminate.
  - destruct (loop_body_step dry_run community (fst (write (next 0) s)))
      as (s1 & o & seg & Hrun & Ho & Hcalls & Hout & Hseg).
    destruct (IH (fun i => next (S i)) s1)
      as (s' & os & segs & written & Hrun' & Hlen & Hj & Hf & Ha & Hc & Hsegs
          & Hout' & _ & Hy).
    pose proof Ho as Ho'.
    apply tallied_lists in Ho. destruct Ho as (Hj1 & Hf1 & Ha1).
    exists s', (o :: os), (seg :: segs), (next 0 ++ written).
    rewrite fmap_cons, for_each_shown_cons, Hrun, Hrun'.
    rewrite joined_of_cons, failed_of_cons, already_of_cons.
    rewrite Hj, Hf, Ha, Hc, Hj1, Hf1, Ha1, Hcalls, Hout', Hout.
    cbn [length concat write fst reddit calls successful_joins failed_joins
         already_joined stdout]. rewrite <- !app_assoc.
    repeat split; try congruence.
    + constructor; [exact Hseg | exact Hsegs].
    + intros [|i] o' Hi.
      * injection Hi as <-. exists community, (fst (write (next 0) s)), s1. auto.
      * destruct (Hy i o' Hi) as (c & t1 & t2 & Hc' & Hpre & Hbody & Ht).
        exists c, t1, t2. repeat split; try assumption.
        cbn [take]. rewrite fmap_cons, for_each_shown_cons, Hrun. exact Hpre.
Qed.

(** Over any list the loop may stop at an element that is no mapping;
    until then it is as over records.  It returns only when every element
    is a mapping, and in a dry run it never subscribes. *)
Lemma for_each_any (next : nat -> list string) (dry_run : bool)
    (l : list pyval) (s : state) :
  exists s' r evs written,
    for_each_shown next l (loop_body client dry_run) s = (s', r)
    /\ calls s' = calls s ++ evs
    /\ (dry_run = true -> count_subscribe evs = 0)
    /\ stdout s' = stdout s ++ written
    /\ (r = inr tt -> exists communities : list dict, l = PDict <$> communities)
    /\ (forall e, r = inl e -> exists v, v ∈ l /\ e = no_attribute_get v
                                         /\ forall d, v <> PDict d).
Proof.
  revert next s. induction l as [|v l IH]; intros next s.
  - exists (fst (write (next 0) s)), (inr tt), [], (next 0). cbn. rewrite app_nil_r.
    repeat split; [exists []; reflexivity | discriminate].
  - rewrite for_each_shown_cons.
    assert (Hv : (exists d, v = PDict d) \/ (forall d, v <> PDict d)).
    { destruct v; try (right; intros d' Hd; discriminate Hd). left. eauto. }
    destruct Hv as [[d ->] | Hno].
    + destruct (loop_body_step dry_run d (fst (write (next 0) s)))
        as (s1 & o & seg & Hrun & _ & Hcalls & Hout & _ & _ & _ & Hdry).
      destruct (IH (fun i => next (S i)) s1)
        as (s' & r & evs & written & Hrun' & Hc & Hd & Hout' & Hret & Hraise).
      exists s', r, (seg ++ evs), (next 0 ++ written).
      rewrite Hrun, Hrun', Hc, Hcalls, Hout', Hout.
      cbn [write fst calls stdout]. rewrite <- !app_assoc.
      repeat split.
      * intros Hdr. unfold count_subscribe in *.
        rewrite List.filter_app, length_app, (Hdry Hdr), (Hd Hdr). reflexivity.
      * intros Hr. destruct (Hret Hr) as [ds ->]. exists (d :: ds). reflexivity.
      * intros e He. destruct (Hraise e He) as (v & Hin & Hv).
        exists v. split; [right; exact Hin | exact Hv].
    + rewrite (loop_body_no_record _ _ _ Hno).
      exists (fst (write (next 0) s)), (inl (no_attribute_get v)), [], (next 0).
      cbn [write fst calls stdout]. rewrite app_nil_r.
      repeat split; try discriminate.
      intros e [= <-]. exists v. split; [left | auto].
Qed.

Lemma subreddit_calls_app (a b : list (event Handle)) :
  subreddit_calls (a ++ b) = subreddit_calls a ++ subreddit_calls b.
Proof.
  induction a as [|[[n|h|h] r] a IH]; cbn [app subreddit_calls];
    rewrite ?IH; reflexivity.
Qed.

Lemma count_subscribe_app (a b : list (event Handle)) :
  count_subscribe (a ++ b) = count_subscribe a + count_subscribe b.
Proof. unfold count_subscribe. rewrite List.filter_app, length_app. reflexivity. Qed.

(** Over the whole loop: the lookups are the named records, in order. *)
Lemma segments_subreddit_calls (dry_run : bool) (communities : list dict)
    (segs : list (list (event Handle))) :
  Forall2 (segment_ok dry_run) communities segs ->
  subreddit_calls (concat segs) = named_records communities.
Proof.
  induction 1 as [|community seg communities segs (Hs & _) _ IH]; [reflexivity|].
  cbn [concat]. rewrite subreddit_calls_app, IH, Hs.
  unfold named_records. cbn [map List.filter].
  destruct (truthy (name_of community)); reflexivity.
Qed.

Lemma segments_dry_run (communities : list dict)
    (segs : list (list (event Handle))) :
  Forall2 (segment_ok true) communities segs ->
  count_subscribe (concat segs) = 0.
Proof.
  induction 1 as [|community seg communities segs (_ & _ & _ & Hd) _ IH]; [reflexivity|].
  cbn [concat]. rewrite count_subscribe_app, IH, (Hd eq_refl). reflexivity.
Qed.

Lemma for_each_echo {A} (l : list A) (line : A -> string) (s : state) :
  for_each l (fun x => echo (line x)) s =
  (State (reddit s) (calls s) (successful_joins s) (failed_joins s)
     (already_joined s) (stdout s ++ map line l), inr tt).
Proof.
  revert s. induction l as [|x l IH]; intros s.
  - cbn. rewrite app_nil_r. destruct s; reflexivity.
  - cbn [for_each map]. unfold mbind, M_bind, echo at 1. rewrite IH. cbn.
    rewrite <- app_assoc. reflexivity.
Qed.

Lemma bind_echo {B} (line : string) (k : unit -> M St Handle B) (s : state) :
  (echo line ≫= k) s =
  k tt (State (reddit s) (calls s) (successful_joins s) (failed_joins s)
          (already_joined s) (stdout s ++ [line])).
Proof. reflexivity. Qed.

Lemma bind_for_each_echo {A B} (l : list A) (line : A -> string)
    (k : unit -> M St Handle B) (s : state) :
  (for_each l (fun x => echo (line x)) ≫= k) s =
  k tt (State (reddit s) (calls s) (successful_joins s) (failed_joins s)
          (already_joined s) (stdout s ++ map line l)).
Proof. unfold mbind, M_bind. rewrite for_each_echo. reflexivity. Qed.

Lemma bind_bind {A B C} (m : M St Handle A) (f : A -> M St Handle B)
    (g : B -> M St Handle C) (s : state) :
  ((m ≫= f) ≫= g) s = (m ≫= (fun x => f x ≫= g)) s.
Proof. unfold mbind, M_bind. destruct (m s) as [s' [e|x]]; reflexivity. Qed.

Lemma bind_ret {A B} (x : A) (k : A -> M St Handle B) (s : state) :
  (mret x ≫= k) s = k x s.
Proof. reflexivity. Qed.

Lemma echo_eq (line : string) (s : state) :
  echo line s =
  (State (reddit s) (calls s) (successful_joins s) (failed_joins s)
     (already_joined s) (stdout s ++ [line]), inr tt).
Proof. reflexivity. Qed.

(** The summary only prints; its fourth line carries the label of the mode
    and its last line the number of records. *)
Lemma print_summary_spec (dry_run : bool) (communities : list pyval) (s : state) :
  exists s' lines,
    print_summary dry_run communities s = (s', inr tt)
    /\ reddit s' = reddit s /\ calls s' = calls s
    /\ successful_joins s' = successful_joins s
    /\ failed_joins s' = failed_joins s
    /\ already_joined s' = already_joined s
    /\ stdout s' =
       stdout s
       ++ [nl +:+ repeat_char "=" 50; "IMPORT SUMMARY"; repeat_char "=" 50;
           (if dry_run then "Would join: " else "Successfully joined: ")
           +:+ pretty (length (successful_joins s)) +:+ " communities"]
       ++ lines
       ++ [nl +:+ "Total processed: " +:+ pretty (length communities)
           +:+ " communities"].
Proof.
  exists (fst (print_summary dry_run communities s)),
    ((match already_joined s with
      | [] => []
      | _ :: _ =>
        (nl +:+ "Already joined: " +:+ pretty (length (already_joined s))
         +:+ " communities")
        :: map (fun name => "  - r/" +:+ py_str name) (already_joined s)
      end)
     ++ (match failed_joins s with
         | [] => []
         | _ :: _ =>
           (nl +:+ "Failed to join: " +:+ pretty (length (failed_joins s))
            +:+ " communities")
           :: map (fun failure => "  - r/" +:+ py_str (f_name failure) +:+ ": "
                                  +:+ f_error failure) (failed_joins s)
         end)).
  unfold print_summary, get_state.
  cbv beta iota delta [mbind M_bind mret M_ret].
  destruct dry_run;
    (destruct (already_joined s) as [|a al] eqn:Ha;
     destruct (failed_joins s) as [|f fl] eqn:Hf;
     repeat (first [rewrite echo_eq | rewrite for_each_echo];
             cbv beta iota;
             cbn [reddit calls successful_joins failed_joins already_joined stdout]);
     cbn [fst reddit calls successful_joins failed_joins already_joined stdout];
     rewrite <- ?Ha, <- ?Hf, <- ?app_assoc; cbn [app];
     repeat split).
Qed.

Lemma bind_init_lists {B} (k : unit -> M St Handle B) (s : state) :
  (init_lists ≫= k) s = k tt (State (reddit s) (calls s) [] [] [] (stdout s)).
Proof. reflexivity. Qed.

(** When the file cannot be read, the run fails before the loop. *)
Lemma import_communities_load_fails
    (load_communities_file : string -> exn + list pyval)
    (import_file : string) (dry_run : bool) (s : state) (e : exn) :
  load_communities_file import_file = inl e ->
  import_communities client progressbar load_communities_file import_file dry_run s =
  (s, inl (ClickException ("Import failed: " +:+ exn_str e))).
Proof.
  intros Hload. unfold import_communities, try_except. rewrite Hload. reflexivity.
Qed.

(** When the file is read, the run is the loop from [loop_entry]; then
    the bar writes what it writes on the way out, and the run fails with
    what the loop raised or goes on to the summary. *)
Lemma import_communities_loaded
    (load_communities_file : string -> exn + list pyval)
    (import_file : string) (dry_run : bool) (s : state) (l : list pyval) :
  load_communities_file import_file = inr l ->
  import_communities client progressbar load_communities_file import_file dry_run s =
  match for_each_shown (shown progressbar l) l (loop_body client dry_run)
          (loop_entry progressbar dry_run l s) with
  | (s1, inl e) =>
    (fst (write (bar_exit (run_bar progressbar (length l))) s1),
     inl (ClickException ("Import failed: " +:+ exn_str e)))
  | (s1, inr _) =>
    print_summary dry_run l (fst (write (bar_exit (run_bar progressbar (length l))) s1))
  end.
Proof.
  intros Hload.
  unfold import_communities, try_except. rewrite Hload.
  rewrite bind_ret, bind_echo.
  assert (Hentry : forall k : unit -> M St Handle unit,
    ((if dry_run then echo "DRY RUN MODE - No communities will actually be joined"
      else mret tt) ≫= (fun _ => init_lists ≫= k))
      (State (reddit s) (calls s) (successful_joins s) (failed_joins s)
         (already_joined s)
         (stdout s ++
          ["Found " +:+ pretty (length l) +:+ " communities to import"]))
    = k tt (State (reddit s) (calls s) [] [] []
              (stdout s
               ++ ["Found " +:+ pretty (length l) +:+ " communities to import"]
               ++ (if dry_run
                   then ["DRY RUN MODE - No communities will actually be joined"]
                   else [])))).
  { intros k. destruct dry_run.
    - rewrite bind_echo, bind_init_lists. cbn. rewrite <- app_assoc. reflexivity.
    - rewrite bind_ret, bind_init_lists. cbn. rewrite ?app_nil_r. reflexivity. }
  rewrite Hentry.
  unfold import_loop, with_bar, loop_entry, shown.
  cbv beta iota zeta delta [mbind M_bind write fst].
  cbn [reddit calls successful_joins failed_joins already_joined stdout].
  rewrite <- !app_assoc.
  destruct (for_each_shown _ l _ _) as [s1 [e|[]]]; [reflexivity|].
  destruct (print_summary_spec dry_run l
              (State (reddit s1) (calls s1) (successful_joins s1) (failed_joins s1)
                 (already_joined s1)
                 (stdout s1 ++ bar_exit (run_bar progressbar (length l)))))
    as (s' & lines & -> & _).
  reflexivity.
Qed.

(** Over records the run is the loop from [loop_entry], then the summary;
    it returns. *)
Lemma import_communities_run
    (load_communities_file : string -> exn + list pyval)
    (import_file : string) (dry_run : bool) (s : state) (communities : list dict) :
  load_communities_file import_file = inr (PDict <$> communities) ->
  exists s1 s' lines,
    for_each_shown (shown progressbar communities) (PDict <$> communities)
      (loop_body client dry_run) (loop_entry progressbar dry_run communities s)
    = (s1, inr tt)
    /\ import_communities client progressbar load_communities_file import_file
         dry_run s = (s', inr tt)
    /\ reddit s' = reddit s1 /\ calls s' = calls s1
    /\ successful_joins s' = successful_joins s1
    /\ failed_joins s' = failed_joins s1
    /\ already_joined s' = already_joined s1
    /\ stdout s' =
       stdout s1
       ++ bar_exit (run_bar progressbar (length communities))
       ++ [nl +:+ repeat_char "=" 50; "IMPORT SUMMARY"; repeat_char "=" 50;
           (if dry_run then "Would join: " else "Successfully joined: ")
           +:+ pretty (length (successful_joins s1)) +:+ " communities"]
       ++ lines
       ++ [nl +:+ "Total processed: " +:+ pretty (length communities)
           +:+ " communities"].
Proof.
  intros Hload.
  rewrite (import_communities_loaded _ _ dry_run s _ Hload).
  unfold shown, loop_entry. rewrite length_fmap.
  destruct (for_each_loop_body (bar_next (run_bar progressbar (length communities)))
              dry_run communities
              (loop_entry progressbar dry_run communities s))
    as (s1 & os & segs & written & Hrun & _).
  unfold loop_entry in Hrun. rewrite Hrun.
  destruct (print_summary_spec dry_run (PDict <$> communities)
              (fst (write (bar_exit (run_bar progressbar (length communities))) s1)))
    as (s' & lines & Hsum & Hr & Hc & Hj & Hf & Ha & Hout).
  exists s1, s', lines. split; [reflexivity|]. split; [exact Hsum|].
  rewrite length_fmap in Hout.
  cbn [write fst reddit calls successful_joins failed_joins already_joined stdout]
    in Hr, Hc, Hj, Hf, Ha, Hout.
  rewrite <- app_assoc in Hout. repeat split; assumption.
Qed.

(** The iteration for a community that reads as subscribed. *)
Lemma already_joined_step
    (dry_run : bool) (community : dict) (s : state) (st' : St) :
  truthy (name_of community) = true ->
  reports_subscribed client (name_of community) (reddit s) st' ->
  exists s' evs,
    loop_body client dry_run (PDict community) s = (s', inr tt)
    /\ tallied (AlreadyJoined (name_of community)) s s'
    /\ calls s' = calls s ++ evs
    /\ count_subscribe evs = 0
    /\ reddit s' = st'.
Proof.
  intros Hname (h & st1 & st2 & v1 & v2 & H1 & H2 & H3 & Hv).
  rewrite loop_body_record, Hname. cbn [negb].
  unfold_stmt. rewrite H1. cbn [reddit calls]. rewrite H2. cbn [reddit calls].
  rewrite H3. cbn [reddit calls]. rewrite Hv.
  eexists _, _. split; [reflexivity|]. cbn. rewrite <- !app_assoc.
  repeat split; reflexivity.
Qed.

End BodyFacts.

(** ** A remote that keeps subscriptions *)

Section KeepsSubscriptions.
Context {St Handle : Type}.
Variable client : Client St Handle.
Variable joined : St -> pyval -> Prop.
Variable handle_name : Handle -> pyval.
Hypothesis keeps : keeps_subscriptions client joined handle_name.

Local Abbreviation state := (state St Handle).

(** No iteration undoes a subscription. *)
Lemma loop_body_keeps (dry_run : bool) (community : dict) (s : state) (name : pyval) :
  joined (reddit s) name ->
  joined (reddit (fst (loop_body client dry_run (PDict community) s))) name.
Proof.
  intros Hj. rewrite loop_body_record. unfold name_of.
  destruct (truthy (dict_get community "name")); cbn [negb]; [|exact Hj].
  unfold_stmt. walk_body (except_clause_spec (St:=St) (Handle:=Handle)).
  all: repeat match goal with
       | H : subreddit client _ _ = _ |- _ =>
         apply (ks_stable_subreddit _ _ _ keeps name) in H; [|assumption]
       | H : user_is_subscriber client _ _ = _ |- _ =>
         apply (ks_stable_read _ _ _ keeps name) in H; [|assumption]
       | H : subscribe client _ _ = _ |- _ =>
         apply (ks_stable_subscribe _ _ _ keeps name) in H; [|assumption]
       end; assumption.
Qed.

Lemma for_each_keeps (next : nat -> list string) (dry_run : bool)
    (communities : list dict) (s : state) (name : pyval) :
  joined (reddit s) name ->
  joined (reddit (fst (for_each_shown next (PDict <$> communities)
                         (loop_body client dry_run) s))) name.
Proof.
  revert next s. induction communities as [|community communities IH];
    intros next s Hj.
  - exact Hj.
  - rewrite fmap_cons, for_each_shown_cons.
    pose proof (loop_body_keeps dry_run community (fst (write (next 0) s)) name Hj)
      as Hj1.
    destruct (loop_body client dry_run (PDict community) (fst (write (next 0) s)))
      as [s1 [e|[]]]; [exact Hj1 | apply IH; exact Hj1].
Qed.

Lemma app_one_neq {A} (l : list A) (x : A) : l <> l ++ [x].
Proof.
  intros H. apply (f_equal length) in H. rewrite length_app in H. cbn in H. lia.
Qed.

(** An iteration of a real run that appends to [successful_joins] has
    subscribed: afterwards the account has joined the record's community. *)
Lemma joined_after_join (community : dict) (s s' : state) (name : pyval) :
  loop_body client false (PDict community) s = (s', inr tt) ->
  tallied (Joined name) s s' ->
  name = name_of community
  /\ truthy (name_of community) = true
  /\ joined (reddit s') name.
Proof.
  rewrite loop_body_record. unfold name_of.
  destruct (truthy (dict_get community "name")) eqn:Hname; cbn [negb].
  - unfold_stmt. cbn [negb].
    revert s'. walk_body (except_clause_spec (St:=St) (Handle:=Handle)).
    all: intros s' Hs'; injection Hs' as <-;
      cbn [tallied reddit calls successful_joins failed_joins already_joined stdout];
      intros (Hj & Hf & Ha);
      try (exfalso; exact (app_one_neq _ _ Hj));
      try (exfalso; exact (app_one_neq _ _ Hf)).
    all: apply app_inj_tail in Hj; destruct Hj as [_ <-];
      split; [reflexivity|]; split; [reflexivity|].
    all: match goal with
         | Hsub : subscribe client ?h _ = (_, inr ?u),
           Hres : subreddit client _ _ = (_, inr ?h) |- _ =>
           destruct u;
           rewrite <- (ks_handle _ _ _ keeps _ _ _ _ Hres);
           exact (ks_subscribe _ _ _ keeps _ _ _ Hsub)
         end.
  - unfold_stmt. intros Hs'; injection Hs' as <-;
      cbn [tallied reddit calls successful_joins failed_joins already_joined stdout];
      intros (Hj & _).
    exfalso; exact (app_one_neq _ _ Hj).
Qed.

(** In a state where the account has joined a named record's community,
    the client reports it. *)
Lemma joined_reports (name : pyval) (st : St) :
  joined st name -> exists st', reports_subscribed client name st st'.
Proof.
  intros Hj.
  destruct (ks_found _ _ _ keeps _ _ Hj) as (st1 & h & Hres).
  pose proof (ks_stable_subreddit _ _ _ keeps _ _ _ _ _ Hj Hres) as Hj1.
  pose proof (ks_handle _ _ _ keeps _ _ _ _ Hres) as Hh.
  rewrite <- Hh in Hj1.
  destruct (ks_read _ _ _ keeps _ _ Hj1) as (st2 & v1 & Hr1 & _).
  pose proof (ks_stable_read _ _ _ keeps _ _ _ _ _ Hj1 Hr1) as Hj2.
  destruct (ks_read _ _ _ keeps _ _ Hj2) as (st3 & v2 & Hr2 & Hv).
  exists st3, h, st1, st2, v1, v2. auto.
Qed.

End KeepsSubscriptions.

(** ** A remote on which subscriptions are independent *)

Section Independent.
Context {St Handle : Type}.
Variable client : Client St Handle.
Variable ahead : list pyval -> St -> St -> Prop.
Variable handle_name : Handle -> pyval.
Hypothesis indep : subscriptions_independent client ahead handle_name.

Local Abbreviation state := (state St Handle).

(** One record, dry on the left and real on the right: the same entry is
    appended, and the right side gets ahead by at most the record's name. *)
Lemma dry_real_step (J : list pyval) (community : dict) (s1 s2 : state) :
  ahead J (reddit s1) (reddit s2) ->
  (truthy (name_of community) = true -> name_of community ∉ J) ->
  same_lists s1 s2 ->
  exists s1' s2' J',
    loop_body client true (PDict community) s1 = (s1', inr tt)
    /\ loop_body client false (PDict community) s2 = (s2', inr tt)
    /\ ahead J' (reddit s1') (reddit s2')
    /\ (J' = J \/ (J' = name_of community :: J /\ truthy (name_of community) = true))
    /\ same_lists s1' s2'.
Proof.
  intros Hahead Hfresh (Hj & Hf & Ha). rewrite !loop_body_record.
  unfold name_of in *.
  destruct (truthy (dict_get community "name")) eqn:Hname; cbn [negb].
  2: { unfold_stmt. exists_states J. }
  specialize (Hfresh eq_refl). unfold_stmt. unfold except_clause.
  destruct (subreddit client _ (reddit s1)) as [st1 r1] eqn:E1.
  destruct (subreddit client _ (reddit s2)) as [st2 r2] eqn:E2.
  destruct (si_subreddit _ _ _ indep _ _ _ _ _ _ _ _ Hahead Hfresh E1 E2) as [<- Hahead1].
  destruct r1 as [e|h]; cbn [reddit calls raised].
  { unfold_stmt. exists_states J. }
  pose proof (si_handle _ _ _ indep _ _ _ _ E1) as Hh.
  rewrite <- Hh in Hfresh.
  destruct (user_is_subscriber client h st1) as [st1a r1] eqn:E3.
  destruct (user_is_subscriber client h st2) as [st2a r2] eqn:E4.
  destruct (si_read _ _ _ indep _ _ _ _ _ _ _ _ Hahead1 Hfresh E3 E4) as [<- Hahead2].
  destruct r1 as [[msg|msg|msg]|v1]; cbn [reddit calls raised negb].
  - destruct (subscribe client h st2a) as [st2b r] eqn:E5.
    destruct (si_subscribe _ _ _ indep _ _ _ _ _ _ Hahead2 E5) as [-> Hahead3].
    cbn [reddit calls raised]. rewrite Hh in Hahead3.
    exists_states (dict_get community "name" :: J).
  - unfold_stmt. exists_states J.
  - unfold_stmt. exists_states J.
  - destruct (user_is_subscriber client h st1a) as [st1b r1] eqn:E5.
    destruct (user_is_subscriber client h st2a) as [st2b r2] eqn:E6.
    destruct (si_read _ _ _ indep _ _ _ _ _ _ _ _ Hahead2 Hfresh E5 E6) as [<- Hahead3].
    destruct r1 as [e|v2]; cbn [reddit calls raised].
    { unfold_stmt. exists_states J. }
    destruct (truthy v2); cbn [reddit calls raised].
    { exists_states J. }
    destruct (subscribe client h st2b) as [st2c r] eqn:E7.
    destruct (si_subscribe _ _ _ indep _ _ _ _ _ _ Hahead3 E7) as [-> Hahead4].
    cbn [reddit calls raised]. rewrite Hh in Hahead4.
    exists_states (dict_get community "name" :: J).
Qed.

End Independent.

(** ** The claims about one record *)

Section RecordClaims.
Context {St Handle : Type} {py_repr : Repr}.
Variable client : Client St Handle.
Variable progressbar : nat -> string -> Bar.

Local Abbreviation state := (state St Handle).

(** C1, as the code has it.  When a platform operation of a named record
    raises (the lookup, a read of the subscription flag, or the
    subscription), other than the first read of the flag raising an
    [AttributeError], which [hasattr] takes as "no such attribute", the
    iteration returns and appends one failure under the record's name.  Its
    reason is
    decided by what the message contains, up to case, in this order:
    "private" or "forbidden" give "Private/Restricted community"; else
    "not found" or "404" give "Community not found"; else "banned" gives
    "Banned from community"; else the reason is "Unknown error: " followed
    by the message as it was raised. *)
Theorem raised_error_is_classified
    (dry_run : bool) (community : dict) (s : state) (e : exn) (st' : St) :
  truthy (name_of community) = true ->
  op_raises client dry_run (name_of community) (reddit s) e st' ->
  exists s' reason,
    loop_body client dry_run (PDict community) s = (s', inr tt)
    /\ tallied (Failed (name_of community) reason) s s'
    /\ reddit s' = st'
    /\ let msg := exn_str e in
       let private := occurs_in_nocase "private" msg \/ occurs_in_nocase "forbidden" msg in
       let not_found := occurs_in_nocase "not found" msg \/ occurs_in_nocase "404" msg in
       let banned := occurs_in_nocase "banned" msg in
       (private -> reason = "Private/Restricted community")
       /\ (~ private -> not_found -> reason = "Community not found")
       /\ (~ private -> ~ not_found -> banned -> reason = "Banned from community")
       /\ (~ private -> ~ not_found -> ~ banned ->
           reason = "Unknown error: " +:+ msg).
Proof.
  intros Hname Hraise. rewrite loop_body_record, Hname. cbn [negb].
  destruct Hraise as [H1 | h st1 H1 H2 Hne | h st1 st2 v H1 H2 H3
                     | h st1 st2 msg -> H1 H2 H3
                     | h st1 st2 st3 v1 v2 -> H1 H2 H3 Hv H4];
    unfold_stmt; follow_calls.
  2: destruct e as [msg|msg|msg]; [exfalso; exact (Hne msg eq_refl)| |].
  all: match goal with
       | |- context [except_clause ?n ?e ?s] =>
         destruct (except_clause_spec (St:=St) (Handle:=Handle) n e s)
           as (reason & -> & Hreason)
       end;
       eexists _, reason; unfold failed_joins_append;
       (split; [reflexivity|]);
       cbn [tallied reddit calls successful_joins failed_joins already_joined stdout];
       repeat split; try reflexivity; apply Hreason.
Qed.

(** C2, as the code has it.  A record whose name is absent or the empty
    string is entered in [failed_joins] as [{'name': 'Unknown', 'error':
    'Missing community name'}]; the other lists, the client and the output
    are untouched and no call is made. *)
Theorem missing_name_is_failed (dry_run : bool) (community : dict) (s : state) :
  community !! "name" = None \/ community !! "name" = Some (PStr "") ->
  exists s',
    loop_body client dry_run (PDict community) s = (s', inr tt)
    /\ tallied (Failed (PStr "Unknown") "Missing community name") s s'
    /\ reddit s' = reddit s /\ calls s' = calls s /\ stdout s' = stdout s.
Proof.
  intros Hname.
  assert (Hfalsy : truthy (dict_get community "name") = false)
    by (unfold dict_get; destruct Hname as [-> | ->]; reflexivity).
  rewrite loop_body_record. unfold name_of. rewrite Hfalsy. cbn [negb].
  unfold failed_joins_append.
  eexists. split; [reflexivity|]. cbn. auto.
Qed.

(** C3.  When the client reports that the account has joined a named
    record's community, the iteration appends the name to [already_joined]
    and makes no [subscribe] call, whatever [dry_run] is. *)
Theorem subscribed_is_already_joined
    (dry_run : bool) (community : dict) (s : state) (st' : St) :
  truthy (name_of community) = true ->
  reports_subscribed client (name_of community) (reddit s) st' ->
  exists s' evs,
    loop_body client dry_run (PDict community) s = (s', inr tt)
    /\ tallied (AlreadyJoined (name_of community)) s s'
    /\ calls s' = calls s ++ evs
    /\ count_subscribe evs = 0
    /\ reddit s' = st'.
Proof. apply already_joined_step. Qed.

(** C4.  A dry run makes no [subscribe] call, for every file, every list,
    of records or not, every client and every progress bar. *)
Theorem dry_run_never_subscribes
    (load_communities_file : string -> exn + list pyval)
    (import_file : string) (s : state) :
  exists evs,
    calls (fst (import_communities client progressbar load_communities_file
                  import_file true s))
    = calls s ++ evs
    /\ count_subscribe evs = 0.
Proof.
  destruct (load_communities_file import_file) as [e|l] eqn:Hload.
  - rewrite (import_communities_load_fails _ _ _ _ _ _ _ Hload).
    exists []. cbn. rewrite app_nil_r. auto.
  - rewrite (import_communities_loaded _ _ _ _ true s l Hload).
    destruct (for_each_any client (shown progressbar l) true l
                (loop_entry progressbar true l s))
      as (s1 & r & evs & written & Hrun & Hc & Hd & _).
    rewrite Hrun. exists evs. split; [|exact (Hd eq_refl)].
    destruct r as [e|[]].
    + cbn [fst write calls]. rewrite Hc. reflexivity.
    + destruct (print_summary_spec true l
                  (fst (write (bar_exit (run_bar progressbar (length l))) s1)))
        as (s' & lines & -> & _ & Hc' & _).
      cbn [fst]. rewrite Hc'. cbn [fst write calls]. rewrite Hc. reflexivity.
Qed.

End RecordClaims.

(** ** The claims about a run *)

Section RunClaims.
Context {St Handle : Type} {py_repr : Repr}.
Variable client : Client St Handle.
Variable progressbar : nat -> string -> Bar.

Local Abbreviation state := (state St Handle).

(** C6, as the code has it.  Once the file is read and its list holds
    records (mappings), the run returns for every client, raising or not,
    and every progress bar: the calls it makes split into one segment per
    record, in input order; a named record is looked up exactly once, so
    the lookups are the named records in input order; within a segment
    there is at most one subscription and no operation is called again
    after it raised; and the last line printed gives the length of the
    list as the number processed. *)
Theorem import_always_summarises
    (load_communities_file : string -> exn + list pyval)
    (import_file : string) (dry_run : bool) (s : state) (communities : list dict) :
  load_communities_file import_file = inr (PDict <$> communities) ->
  exists s' segs,
    import_communities client progressbar load_communities_file import_file dry_run s
    = (s', inr tt)
    /\ calls s' = calls s ++ concat segs
    /\ Forall2 (segment_ok dry_run) communities segs
    /\ subreddit_calls (concat segs) = named_records communities
    /\ length (successful_joins s') + length (failed_joins s')
       + length (already_joined s') = length communities
    /\ last (stdout s') =
       Some (nl +:+ "Total processed: " +:+ pretty (length communities)
             +:+ " communities").
Proof.
  intros Hload.
  destruct (import_communities_run client progressbar _ _ dry_run s _ Hload)
    as (s1 & s' & lines & Hloop & Hrun & _ & Hc & Hj & Hf & Ha & Hout).
  destruct (for_each_loop_body client (shown progressbar communities) dry_run
              communities (loop_entry progressbar dry_run communities s))
    as (s1' & os & segs & written & Hloop' & Hlen & Hj1 & Hf1 & Ha1 & Hcalls & Hsegs
        & _ & _).
  rewrite Hloop in Hloop'. injection Hloop' as <-.
  exists s', segs. split; [exact Hrun|].
  split; [rewrite Hc, Hcalls; reflexivity|].
  split; [exact Hsegs|].
  split; [exact (segments_subreddit_calls _ _ _ Hsegs)|].
  split.
  - rewrite Hj, Hf, Ha, Hj1, Hf1, Ha1. cbn [loop_entry successful_joins
      failed_joins already_joined app]. rewrite <- Hlen. apply outcomes_length.
  - rewrite Hout, !app_assoc. apply last_snoc.
Qed.

(** C9, as the code has it.  Once the file is read and its list holds
    records (mappings), there is one outcome per record, the outcome at a
    position being the entry the loop appends for the record at that
    position, and the three lists are exactly the joins, the failures and
    the already joined among these outcomes.  So the lengths of the three
    lists add up to the length of the input, the number the last line
    reports. *)
Theorem every_record_in_one_list
    (load_communities_file : string -> exn + list pyval)
    (import_file : string) (dry_run : bool) (s : state) (communities : list dict) :
  load_communities_file import_file = inr (PDict <$> communities) ->
  exists s' os,
    import_communities client progressbar load_communities_file import_file dry_run s
    = (s', inr tt)
    /\ length os = length communities
    /\ (forall i o, os !! i = Some o ->
        yields client progressbar dry_run communities
          (loop_entry progressbar dry_run communities s) i o)
    /\ successful_joins s' = joined_of os
    /\ failed_joins s' = failed_of os
    /\ already_joined s' = already_of os
    /\ length (successful_joins s') + length (failed_joins s')
       + length (already_joined s') = length communities
    /\ last (stdout s') =
       Some (nl +:+ "Total processed: " +:+ pretty (length communities)
             +:+ " communities").
Proof.
  intros Hload.
  destruct (import_communities_run client progressbar _ _ dry_run s _ Hload)
    as (s1 & s' & lines & Hloop & Hrun & _ & Hc & Hj & Hf & Ha & Hout).
  destruct (for_each_loop_body client (shown progressbar communities) dry_run
              communities (loop_entry progressbar dry_run communities s))
    as (s1' & os & segs & written & Hloop' & Hlen & Hj1 & Hf1 & Ha1 & _ & _ & _ & _
        & Hy).
  rewrite Hloop in Hloop'. injection Hloop' as <-.
  exists s', os. split; [exact Hrun|]. split; [exact Hlen|]. split; [exact Hy|].
  rewrite Hj, Hf, Ha, Hj1, Hf1, Ha1.
  cbn [loop_entry successful_joins failed_joins already_joined app].
  repeat split.
  - rewrite <- Hlen. apply outcomes_length.
  - rewrite Hout, !app_assoc. apply last_snoc.
Qed.

End RunClaims.

(** ** Two runs over the same list *)

Section TwoRuns.
Context {St Handle : Type} {py_repr : Repr}.
Variable client : Client St Handle.
Variable progressbar : nat -> string -> Bar.

Local Abbreviation state := (state St Handle).

Lemma named_records_cons (community : dict) (communities : list dict) :
  named_records (community :: communities) =
  (if truthy (name_of community) then [name_of community] else [])
  ++ named_records communities.
Proof.
  unfold named_records. cbn [map List.filter].
  destruct (truthy (name_of community)); reflexivity.
Qed.

(** The loop up to an element, the element, and the loop after it. *)
Lemma for_each_shown_middle {A} (next : nat -> list string) (l1 : list A) (x : A)
    (l2 : list A) (body : A -> M St Handle unit) (s : state) :
  for_each_shown next (l1 ++ x :: l2) body s =
  match for_each_shown next l1 body s with
  | (s1, inl e) => (s1, inl e)
  | (s1, inr _) =>
    match body x s1 with
    | (s2, inl e) => (s2, inl e)
    | (s2, inr _) => for_each_shown (fun j => next (S (length l1) + j)) l2 body s2
    end
  end.
Proof.
  revert next s. induction l1 as [|a l1 IH]; intros next s.
  - reflexivity.
  - cbn [app]. rewrite !for_each_shown_cons.
    destruct (body a (fst (write (next 0) s))) as [s1 [e|[]]]; [reflexivity|].
    apply IH.
Qed.

(** A dry loop and a real loop over records with distinct names build the
    same lists when subscriptions are independent. *)
Lemma dry_real_loop (ahead : list pyval -> St -> St -> Prop)
    (handle_name : Handle -> pyval) (communities : list dict) :
  subscriptions_independent client ahead handle_name ->
  forall (next : nat -> list string) (J : list pyval) (s1 s2 : state),
    ahead J (reddit s1) (reddit s2) ->
    NoDup (named_records communities) ->
    (forall name, name ∈ named_records communities -> name ∉ J) ->
    same_lists s1 s2 ->
    exists s1' s2',
      for_each_shown next (PDict <$> communities) (loop_body client true) s1
      = (s1', inr tt)
      /\ for_each_shown next (PDict <$> communities) (loop_body client false) s2
         = (s2', inr tt)
      /\ same_lists s1' s2'.
Proof.
  intros indep. induction communities as [|community communities IH];
    intros next J s1 s2 Hahead Hnodup Hfresh Hsame.
  - exists (fst (write (next 0) s1)), (fst (write (next 0) s2)).
    split; [reflexivity|]. split; [reflexivity|]. exact Hsame.
  - rewrite named_records_cons in Hnodup, Hfresh.
    destruct (dry_real_step client ahead handle_name indep J community
                (fst (write (next 0) s1)) (fst (write (next 0) s2)) Hahead)
      as (t1 & t2 & J' & Hdry & Hreal & Hahead' & HJ' & Hsame'); [|exact Hsame|].
    { intros Ht. apply Hfresh. rewrite Ht. apply elem_of_app. left.
      apply list_elem_of_singleton. reflexivity. }
    destruct (IH (fun i => next (S i)) J' t1 t2 Hahead')
      as (s1' & s2' & Hd & Hr & Hs); [| |exact Hsame'|].
    + apply NoDup_app in Hnodup. tauto.
    + intros name Hin. destruct HJ' as [-> | [-> Ht]].
      * apply Hfresh, elem_of_app. right. exact Hin.
      * rewrite Ht in Hnodup, Hfresh. apply not_elem_of_cons. split.
        -- intros ->. apply NoDup_app in Hnodup. destruct Hnodup as (_ & Hdisj & _).
           apply (Hdisj (name_of community)); [|exact Hin].
           apply list_elem_of_singleton. reflexivity.
        -- apply Hfresh, elem_of_app. right. exact Hin.
    + exists s1', s2'. rewrite fmap_cons, !for_each_shown_cons.
      rewrite Hdry, Hreal. auto.
Qed.

(** C5, as the code has it.  Take a list whose named records have pairwise
    distinct names and a remote on which every subscription returns and
    changes no answer about another community.  From one state of the
    remote, the dry run and the real run build the same three lists, so the
    same counts; the dry run prints its count of joins as "Would join" and
    the real run as "Successfully joined". *)
Theorem dry_run_counts_match
    (ahead : list pyval -> St -> St -> Prop) (handle_name : Handle -> pyval)
    (load_communities_file : string -> exn + list pyval)
    (import_file : string) (s : state) (communities : list dict) :
  subscriptions_independent client ahead handle_name ->
  load_communities_file import_file = inr (PDict <$> communities) ->
  NoDup (named_records communities) ->
  ahead [] (reddit s) (reddit s) ->
  exists d r,
    import_communities client progressbar load_communities_file import_file true s
    = (d, inr tt)
    /\ import_communities client progressbar load_communities_file import_file false s
       = (r, inr tt)
    /\ same_lists d r
    /\ length (successful_joins d) = length (successful_joins r)
    /\ length (failed_joins d) = length (failed_joins r)
    /\ length (already_joined d) = length (already_joined r)
    /\ "Would join: " +:+ pretty (length (successful_joins d)) +:+ " communities"
       ∈ stdout d
    /\ "Successfully joined: " +:+ pretty (length (successful_joins r))
       +:+ " communities" ∈ stdout r.
Proof.
  intros indep Hload Hnodup Hahead.
  destruct (import_communities_run client progressbar _ _ true s _ Hload)
    as (d1 & d & dlines & Hdloop & Hd & _ & _ & Hdj & Hdf & Hda & Hdout).
  destruct (import_communities_run client progressbar _ _ false s _ Hload)
    as (r1 & r & rlines & Hrloop & Hr & _ & _ & Hrj & Hrf & Hra & Hrout).
  destruct (dry_real_loop ahead handle_name communities indep
              (shown progressbar communities) []
              (loop_entry progressbar true communities s)
              (loop_entry progressbar false communities s))
    as (d1' & r1' & Hdloop' & Hrloop' & Hj & Hf & Ha).
  { exact Hahead. }
  { exact Hnodup. }
  { intros name _. apply not_elem_of_nil. }
  { repeat split. }
  rewrite Hdloop in Hdloop'. injection Hdloop' as <-.
  rewrite Hrloop in Hrloop'. injection Hrloop' as <-.
  exists d, r. split; [exact Hd|]. split; [exact Hr|].
  assert (Hsame : same_lists d r).
  { unfold same_lists. rewrite Hdj, Hdf, Hda, Hrj, Hrf, Hra. auto. }
  split; [exact Hsame|]. destruct Hsame as (Hj' & Hf' & Ha').
  rewrite Hj', Hf', Ha'. repeat split.
  - rewrite Hdout, <- Hdj, Hj'. apply elem_of_app. right. apply elem_of_app. right.
    apply elem_of_app. left. cbn. set_solver.
  - rewrite Hrout, <- Hrj. apply elem_of_app. right. apply elem_of_app. right.
    apply elem_of_app. left. cbn. set_solver.
Qed.

(** C7, as the code has it.  On a remote that keeps subscriptions, if a
    real run (not a dry run) appends a record's name to [successful_joins],
    then a second run of the same file from the state the first run left
    the remote in, dry or not, appends that record's name to
    [already_joined]. *)
Theorem rerun_is_already_joined
    (joined : St -> pyval -> Prop) (handle_name : Handle -> pyval)
    (load_communities_file : string -> exn + list pyval)
    (import_file : string) (dry_run2 : bool) (s s' s2 : state)
    (communities : list dict) (i : nat) (name : pyval) :
  keeps_subscriptions client joined handle_name ->
  load_communities_file import_file = inr (PDict <$> communities) ->
  import_communities client progressbar load_communities_file import_file false s
  = (s', inr tt) ->
  yields client progressbar false communities
    (loop_entry progressbar false communities s) i (Joined name) ->
  reddit s2 = reddit s' ->
  yields client progressbar dry_run2 communities
    (loop_entry progressbar dry_run2 communities s2) i (AlreadyJoined name).
Proof.
  intros keeps Hload Hrun (community & t1 & t2 & Hi & Hpre & Hbody & Htally) Hs2.
  destruct (joined_after_join client joined handle_name keeps community t1 t2 name
              Hbody Htally) as (-> & Hname & Hjoined).
  (* the rest of the first run keeps the subscription *)
  destruct (import_communities_run client progressbar _ _ false s _ Hload)
    as (e1 & s'' & lines & Hloop & Hrun' & Hreddit & _).
  rewrite Hrun in Hrun'. injection Hrun' as <-.
  rewrite <- (take_drop_middle communities i community Hi) in Hloop at 2.
  rewrite fmap_app, fmap_cons, for_each_shown_middle, Hpre, Hbody in Hloop.
  pose proof (for_each_keeps client joined handle_name keeps
                (fun j => shown progressbar communities
                            (S (length (PDict <$> take i communities)) + j))
                false (drop (S i) communities) t2 _ Hjoined) as Hend.
  rewrite Hloop in Hend. cbn [fst] in Hend. rewrite <- Hreddit, <- Hs2 in Hend.
  (* the second run reaches the record with the subscription in place *)
  destruct (for_each_loop_body client (shown progressbar communities) dry_run2
              (take i communities) (loop_entry progressbar dry_run2 communities s2))
    as (u1 & os & segs & written & Hpre2 & _).
  pose proof (for_each_keeps client joined handle_name keeps
                (shown progressbar communities) dry_run2
                (take i communities) (loop_entry progressbar dry_run2 communities s2)
                _ Hend) as Hthere.
  rewrite Hpre2 in Hthere. cbn [fst] in Hthere.
  destruct (joined_reports client joined handle_name keeps _ _ Hthere) as (st' & Hrep).
  destruct (already_joined_step client dry_run2 community u1 st' Hname Hrep)
    as (u2 & evs & Hbody2 & Htally2 & _).
  exists community, u1, u2. auto.
Qed.

End TwoRuns.

(** ** The sample remote *)

Module RemoteFacts.
Import Remote.

(** When no lookup and no read is refused, the sample remote keeps
    subscriptions. *)
Lemma keeps (f : faults) :
  (forall n, subreddit_fault f n = None) ->
  (forall n, query_fault f n = None) ->
  keeps_subscriptions (client f) joined handle_name.
Proof.
  intros Hres Hread. split.
  - intros name st st' h. cbn. destruct name; try discriminate.
    rewrite Hres. intros [= _ ->]. reflexivity.
  - intros h st st'. cbn. destruct (subscribe_fault f h); [discriminate|].
    intros [= <-]. exists h. split; [reflexivity | set_solver].
  - intros name name' st st' r Hj. cbn. destruct name'; try (intros [= <- _]; exact Hj).
    destruct (subreddit_fault f s); intros [= <- _]; exact Hj.
  - intros name h st st' r Hj. cbn.
    destruct (query_fault f h); intros [= <- _]; exact Hj.
  - intros name h st st' r (n & -> & Hn). cbn.
    destruct (subscribe_fault f h); intros [= <- _]; exists n;
      (split; [reflexivity | set_solver]).
  - intros name st (n & -> & Hn). cbn. rewrite Hres. eauto.
  - intros h st (n & [= <-] & Hn). cbn. rewrite Hread.
    eexists _, _. split; [reflexivity|]. cbn. apply bool_decide_eq_true. exact Hn.
Qed.

(** When no subscription is refused, subscriptions on the sample remote are
    independent. *)
Lemma independent (f : faults) :
  (forall n, subscribe_fault f n = None) ->
  subscriptions_independent (client f) ahead handle_name.
Proof.
  intros Hsub. split.
  - intros name st st' h. cbn. destruct name; try discriminate.
    destruct (subreddit_fault f s); [discriminate|]. intros [= _ ->]. reflexivity.
  - intros J name st1 st2 st1' st2' r1 r2 Hahead _. cbn.
    destruct name; try (intros [= <- <-] [= <- <-]; auto).
    destruct (subreddit_fault f s); intros [= <- <-] [= <- <-]; auto.
  - intros J h st1 st2 st1' st2' r1 r2 Hahead Hfresh. cbn.
    destruct (query_fault f h); intros [= <- <-] [= <- <-]; [auto|].
    split; [|exact Hahead]. do 2 f_equal. apply bool_decide_ext.
    rewrite (Hahead h). unfold handle_name in Hfresh. tauto.
  - intros J h st1 st2 st2' r Hahead. cbn. rewrite Hsub. intros [= <- <-].
    split; [reflexivity|]. intros n. unfold handle_name.
    rewrite elem_of_union, elem_of_singleton, (Hahead n), elem_of_cons.
    split; [intros [->|[?|?]] | intros [?|[[= ->]|?]]]; auto.
Qed.

End RemoteFacts.

(** ** Credentials *)

Section Credentials.
Import PyStrFacts.

Lemma occurs_in_refl (x : string) : occurs_in x x.
Proof. exists "", "". rewrite append_nil, append_nil_r. reflexivity. Qed.

Lemma occurs_in_wrap (x a m b : string) :
  occurs_in x m -> occurs_in x (a +:+ m +:+ b).
Proof.
  intros (pre & post & ->). exists (a +:+ pre), (post +:+ b).
  rewrite !append_assoc. reflexivity.
Qed.

(** A joined list shows every one of its parts. *)
Lemma occurs_in_join (sep x : string) (parts : list string) :
  x ∈ parts -> occurs_in x (join sep parts).
Proof.
  induction parts as [|p parts IH]; intros Hin.
  - apply elem_of_nil in Hin. contradiction.
  - destruct parts as [|q parts].
    + apply list_elem_of_singleton in Hin. subst. apply occurs_in_refl.
    + change (join sep (p :: q :: parts)) with (p +:+ sep +:+ join sep (q :: parts)).
      apply elem_of_cons in Hin. destruct Hin as [-> | Hin].
      * exists "", (sep +:+ join sep (q :: parts)). reflexivity.
      * destruct (IH Hin) as (pre & post & ->).
        exists (p +:+ sep +:+ pre), post. rewrite !append_assoc. reflexivity.
Qed.

Lemma py_or_by_precedence (explicit : pyval) (config : dict) (k : string) :
  by_precedence explicit (config !! k) PNone (py_or explicit (dict_get config k)).
Proof.
  unfold by_precedence, py_or, dict_get.
  destruct (truthy explicit); repeat split; try discriminate; try reflexivity.
  - intros _ x ->. reflexivity.
  - intros _ ->. reflexivity.
Qed.

Lemma py_or_same (v : pyval) : py_or v v = v.
Proof. unfold py_or. destruct (truthy v); reflexivity. Qed.

(** On a config that is a mapping, [explicit or config.get(key)] is the
    choice between two values. *)
Lemma or_get_record (explicit : pyval) (config : dict) (key : string) :
  or_get explicit (PDict config) key = inr (py_or explicit (dict_get config key)).
Proof. unfold or_get, py_or, py_get. destruct (truthy explicit); reflexivity. Qed.

Lemma or_get_default_record (explicit : pyval) (config : dict) (key : string)
    (dflt : pyval) :
  or_get_default explicit (PDict config) key dflt
  = inr (py_or explicit (dict_get_default config key dflt)).
Proof.
  unfold or_get_default, py_or, py_get_default. destruct (truthy explicit); reflexivity.
Qed.

Variable load_config : string -> exn + pyval.

(** With a config that is a mapping, the call is the validation of the
    values chosen. *)
Lemma credentials_of_record
    (config_file : option string) (config : dict)
    (client_id client_secret username password user_agent : pyval) :
  read_config load_config config_file = inr (PDict config) ->
  get_reddit_credentials load_config config_file
    client_id client_secret username password user_agent
  = validated (py_or client_id (dict_get config "client_id"))
      (py_or client_secret (dict_get config "client_secret"))
      (py_or username (dict_get config "username"))
      (py_or password (dict_get config "password"))
      (py_or user_agent
         (dict_get_default config "user_agent" (PStr "reddit-cm:v0.1.0"))).
Proof.
  intros Hcfg. unfold get_reddit_credentials. rewrite Hcfg. cbn [and_then].
  rewrite !or_get_record, or_get_default_record. reflexivity.
Qed.

(** What [get_reddit_credentials] does once a mapping is read: the list of
    missing fields holds the name of exactly the required fields that
    resolve to a false value; it returns when the list is empty and raises
    with the list otherwise. *)
Lemma credentials_resolved
    (config_file : option string) (config : dict)
    (client_id client_secret username password user_agent : pyval) :
  read_config load_config config_file = inr (PDict config) ->
  let v f := py_or (field_of f client_id client_secret username password)
               (dict_get config (config_key f)) in
  exists missing : list string,
    (forall f, label f ∈ missing <-> truthy (v f) = false)
    /\ match missing with
       | [] =>
         get_reddit_credentials load_config config_file
           client_id client_secret username password user_agent
         = inr (v ClientId, v ClientSecret, v Username, v Password,
                py_or user_agent
                  (dict_get_default config "user_agent" (PStr "reddit-cm:v0.1.0")))
       | _ :: _ =>
         get_reddit_credentials load_config config_file
           client_id client_secret username password user_agent
         = inl (ClickException
                  ("Missing required parameters: " +:+ join ", " missing
                   +:+ ". Provide them via command line or config file."))
       end.
Proof.
  intros Hcfg v. rewrite (credentials_of_record _ _ _ _ _ _ _ Hcfg).
  unfold validated. cbv zeta.
  change (py_or client_id (dict_get config "client_id")) with (v ClientId).
  change (py_or client_secret (dict_get config "client_secret")) with (v ClientSecret).
  change (py_or username (dict_get config "username")) with (v Username).
  change (py_or password (dict_get config "password")) with (v Password).
  exists ((if truthy (v ClientId) then [] else ["client-id"])
          ++ (if truthy (v ClientSecret) then [] else ["client-secret"])
          ++ (if truthy (v Username) then [] else ["username"])
          ++ (if truthy (v Password) then [] else ["password"])).
  destruct (truthy (v ClientId)) eqn:E1, (truthy (v ClientSecret)) eqn:E2,
    (truthy (v Username)) eqn:E3, (truthy (v Password)) eqn:E4;
    cbn [negb app]; (split; [|reflexivity]);
    intros f; destruct f; rewrite ?E1, ?E2, ?E3, ?E4; cbn [label];
    (split; [intros Hin | intros Hf]); try reflexivity; try discriminate;
    try (repeat (apply elem_of_cons in Hin; destruct Hin as [Hin|Hin];
                 [discriminate Hin|]);
         apply elem_of_nil in Hin; contradiction);
    repeat first [apply list_elem_of_here | apply list_elem_of_further].
Qed.

(** C8, as the code has it.  With no config file named, or a config file
    that holds a mapping, each field is chosen by precedence: the explicit
    value, else the config's, else the default, and only the user agent
    has one, "reddit-cm:v0.1.0".  When the four required fields are all
    there, they are returned with the user agent.  Otherwise the call
    raises, and the message lists, in order, every required field that is
    missing. *)
Theorem credentials_by_precedence
    (config_file : option string) (config : dict)
    (client_id client_secret username password user_agent : pyval) :
  read_config load_config config_file = inr (PDict config) ->
  exists a b c d e,
    by_precedence client_id (config !! "client_id") PNone a
    /\ by_precedence client_secret (config !! "client_secret") PNone b
    /\ by_precedence username (config !! "username") PNone c
    /\ by_precedence password (config !! "password") PNone d
    /\ by_precedence user_agent (config !! "user_agent") (PStr "reddit-cm:v0.1.0") e
    /\ let missing :=
         (if truthy a then [] else ["client-id"])
         ++ (if truthy b then [] else ["client-secret"])
         ++ (if truthy c then [] else ["username"])
         ++ (if truthy d then [] else ["password"]) in
       let result :=
         get_reddit_credentials load_config config_file
           client_id client_secret username password user_agent in
       match missing with
       | [] => result = inr (a, b, c, d, e)
       | _ :: _ =>
         exists msg,
           result = inl (ClickException msg)
           /\ msg = "Missing required parameters: " +:+ join ", " missing
                    +:+ ". Provide them via command line or config file."
           /\ forall field, field ∈ missing -> occurs_in field msg
       end.
Proof.
  intros Hcfg.
  exists (py_or client_id (dict_get config "client_id")),
         (py_or client_secret (dict_get config "client_secret")),
         (py_or username (dict_get config "username")),
         (py_or password (dict_get config "password")),
         (py_or user_agent
            (dict_get_default config "user_agent" (PStr "reddit-cm:v0.1.0"))).
  repeat (split; [apply py_or_by_precedence|]).
  split.
  { unfold by_precedence, py_or, dict_get_default.
    destruct (truthy user_agent); repeat split; try discriminate; try reflexivity.
    - intros _ x ->. reflexivity.
    - intros _ ->. reflexivity. }
  rewrite (credentials_of_record _ _ _ _ _ _ _ Hcfg). unfold validated. cbv zeta.
  destruct (truthy (py_or client_id _)), (truthy (py_or client_secret _)),
    (truthy (py_or username _)), (truthy (py_or password _));
    cbn [negb app]; try reflexivity;
    (eexists; split; [reflexivity|]; split; [reflexivity|];
     intros field Hin;
     apply (occurs_in_wrap field "Missing required parameters: " _
              ". Provide them via command line or config file.");
     apply occurs_in_join; exact Hin).
Qed.

(** C10, as the code has it.  A required field passed as the empty string
    counts as not given: the call is the call without it, whatever the
    config file is.  With no config file named, or a config file that
    holds a mapping, the call is the one with the config's value passed
    for the field: that value is returned for the field when the four
    required fields are all there, and when the config has no value for
    the field, or the empty string, the call raises with a message that
    names the field. *)
Theorem empty_explicit_is_absent
    (f : required) (config_file : option string)
    (client_id client_secret username password user_agent : pyval) :
  field_of f client_id client_secret username password = PStr "" ->
  let result :=
    get_reddit_credentials load_config config_file
      client_id client_secret username password user_agent in
  result = credentials_with load_config config_file user_agent
             (with_field f PNone client_id client_secret username password)
  /\ forall config : dict,
       read_config load_config config_file = inr (PDict config) ->
       result = credentials_with load_config config_file user_agent
                  (with_field f (dict_get config (config_key f))
                     client_id client_secret username password)
       /\ ((forall g, truthy (py_or (field_of g client_id client_secret username
                                       password)
                                (dict_get config (config_key g))) = true) ->
           exists creds,
             result = inr creds
             /\ resolved_field f creds = dict_get config (config_key f))
       /\ (forall creds, result = inr creds ->
             resolved_field f creds = dict_get config (config_key f))
       /\ (config !! config_key f = None \/ config !! config_key f = Some (PStr "") ->
           exists msg, result = inl (ClickException msg) /\ occurs_in (label f) msg).
Proof.
  intros Hempty result. subst result. split.
  { unfold credentials_with, get_reddit_credentials.
    destruct (read_config load_config config_file) as [e|config]; [destruct f; reflexivity|].
    destruct f; cbn [field_of] in Hempty; subst; reflexivity. }
  intros config Hcfg.
  destruct (credentials_resolved config_file config
              client_id client_secret username password user_agent Hcfg)
    as (missing & Hmissing & Hres).
  assert (Hfield : py_or (field_of f client_id client_secret username password)
                     (dict_get config (config_key f))
                   = dict_get config (config_key f))
    by (rewrite Hempty; reflexivity).
  assert (Hreturned : forall creds,
            get_reddit_credentials load_config config_file
              client_id client_secret username password user_agent = inr creds ->
            resolved_field f creds = dict_get config (config_key f)).
  { intros creds Hcreds. destruct missing as [|m missing];
      rewrite Hres in Hcreds; [|discriminate].
    injection Hcreds as <-. destruct f; cbn in Hempty |- *; subst; reflexivity. }
  split; [|split; [|split; [exact Hreturned|]]].
  - unfold credentials_with.
    destruct f; cbn [field_of with_field config_key] in *; subst;
      rewrite !(credentials_of_record _ _ _ _ _ _ _ Hcfg), py_or_same; reflexivity.
  - intros Hall.
    destruct missing as [|m missing].
    + eexists. split; [exact Hres|]. apply Hreturned. exact Hres.
    + exfalso.
      pose proof (Hall ClientId) as A1. pose proof (Hall ClientSecret) as A2.
      pose proof (Hall Username) as A3. pose proof (Hall Password) as A4.
      cbn [field_of config_key] in A1, A2, A3, A4.
      rewrite (credentials_of_record _ _ _ _ _ _ _ Hcfg) in Hres.
      unfold validated in Hres. cbv zeta in Hres.
      rewrite A1, A2, A3, A4 in Hres. discriminate Hres.
  - intros Habsent.
    assert (Hin : label f ∈ missing).
    { apply Hmissing. rewrite Hempty. unfold py_or, dict_get. cbn [truthy].
      destruct Habsent as [-> | ->]; reflexivity. }
    destruct missing as [|m missing]; [apply elem_of_nil in Hin; contradiction|].
    eexists. split; [exact Hres|].
    apply (occurs_in_wrap _ "Missing required parameters: " _
             ". Provide them via command line or config file.").
    apply occurs_in_join. exact Hin.
Qed.

End Credentials.

(** ** Runs on the sample remote *)

Section SampleRuns.
Local Existing Instance Remote.repr.

(** The spec's messages, through the [except] clause. *)
Example classify_forbidden :
  failed_joins (fst (except_clause (PStr "x") (Exception "Forbidden: private sub")
                       (Remote.start ∅)))
  = [Failure (PStr "x") "Private/Restricted community"].
Proof. reflexivity. Qed.

Example classify_404 :
  failed_joins (fst (except_clause (PStr "x") (Exception "HTTP 404 Not Found")
                       (Remote.start ∅)))
  = [Failure (PStr "x") "Community not found"].
Proof. reflexivity. Qed.

Example classify_banned :
  failed_joins (fst (except_clause (PStr "x") (Exception "User is banned")
                       (Remote.start ∅)))
  = [Failure (PStr "x") "Banned from community"].
Proof. reflexivity. Qed.

Example classify_timeout :
  failed_joins (fst (except_clause (PStr "x") (Exception "timeout")
                       (Remote.start ∅)))
  = [Failure (PStr "x") "Unknown error: timeout"].
Proof. reflexivity. Qed.

(** The order of the tests decides when several words occur. *)
Example classify_priority :
  failed_joins (fst (except_clause (PStr "x")
                       (Exception "banned: 404 not found in PRIVATE list")
                       (Remote.start ∅)))
  = [Failure (PStr "x") "Private/Restricted community"].
Proof. reflexivity. Qed.

(** The spec's scenario: one join, one record without a name, one refusal. *)
Example scenario :
  let s := fst (import_communities (Remote.client Remote.private_faults) Remote.bar
                  (fun _ => inr [PDict (Remote.named "python");
                                 PDict (Remote.named "");
                                 PDict (Remote.named "privatesub")])
                  "communities.json" false (Remote.start ∅)) in
  successful_joins s = [PStr "python"]
  /\ failed_joins s = [Failure (PStr "Unknown") "Missing community name";
                       Failure (PStr "privatesub") "Private/Restricted community"]
  /\ already_joined s = []
  /\ last (stdout s) = Some (nl +:+ "Total processed: 3 communities").
Proof. vm_compute. auto. Qed.

(** C1 at a refused subscription: "403 Forbidden" is a private community. *)
Lemma raised_error_is_classified_witness :
  let community := Remote.named "privatesub" in
  let s := Remote.start ∅ in
  truthy (name_of community) = true
  /\ op_raises (Remote.client Remote.private_faults) false (name_of community)
       (reddit s) (Exception "403 Forbidden") ∅
  /\ exists s',
       loop_body (Remote.client Remote.private_faults) false (PDict community) s
       = (s', inr tt)
       /\ tallied (Failed (PStr "privatesub") "Private/Restricted community") s s'.
Proof.
  cbv zeta.
  assert (Hname : truthy (name_of (Remote.named "privatesub")) = true) by reflexivity.
  assert (Hraise : op_raises (Remote.client Remote.private_faults) false
                     (name_of (Remote.named "privatesub")) (reddit (Remote.start ∅))
                     (Exception "403 Forbidden") ∅).
  { eapply subscribe_raises; reflexivity. }
  split; [exact Hname|]. split; [exact Hraise|].
  destruct (raised_error_is_classified (Remote.client Remote.private_faults) false
              (Remote.named "privatesub") (Remote.start ∅) _ _ Hname Hraise)
    as (s' & reason & Hrun & Htally & _ & Hprivate & _).
  exists s'. split; [exact Hrun|].
  rewrite <- (Hprivate (or_intror (ex_intro _ "403 " (ex_intro _ "Forbidden"
                          (ex_intro _ "" (conj eq_refl eq_refl)))))).
  exact Htally.
Defined.

(** C1 as the spec words it fails: when the read of the subscription flag
    raises an [AttributeError], [hasattr] answers [False]; the error is
    not classified, whatever its message says, and the record is
    subscribed to and counted as joined. *)
Lemma attribute_error_is_not_classified :
  ~ (forall (dry_run : bool) (community : dict) (s : state (gset string) string)
            (e : exn) (h : string) (st1 st' : gset string),
       let client := Remote.client Remote.hidden_faults in
       truthy (name_of community) = true ->
       subreddit client (name_of community) (reddit s) = (st1, inr h) ->
       user_is_subscriber client h st1 = (st', inl e) ->
       exists s' reason,
         loop_body client dry_run (PDict community) s = (s', inr tt)
         /\ tallied (Failed (name_of community) reason) s s').
Proof.
  intros H.
  destruct (H false (Remote.named "privatesub") (Remote.start ∅)
              (AttributeError "403 Forbidden: private community") "privatesub" ∅ ∅
              eq_refl eq_refl eq_refl)
    as (s' & reason & Hrun & Hj & _).
  injection Hrun as <-. discriminate Hj.
Qed.

(** That iteration: one subscription, and the name among the joins. *)
Example attribute_error_is_joined :
  let s := fst (loop_body (Remote.client Remote.hidden_faults) false
                  (PDict (Remote.named "privatesub")) (Remote.start ∅)) in
  successful_joins s = [PStr "privatesub"]
  /\ failed_joins s = []
  /\ count_subscribe (calls s) = 1
  /\ reddit s = {["privatesub"]}.
Proof. vm_compute. auto. Qed.

(** C2 at a record whose name is the empty string. *)
Lemma missing_name_is_failed_witness :
  let community := Remote.named "" in
  let s := Remote.start ∅ in
  (community !! "name" = None \/ community !! "name" = Some (PStr ""))
  /\ exists s',
       loop_body (Remote.client Remote.no_faults) false (PDict community) s
       = (s', inr tt)
       /\ tallied (Failed (PStr "Unknown") "Missing community name") s s'
       /\ reddit s' = reddit s /\ calls s' = calls s /\ stdout s' = stdout s.
Proof.
  cbv zeta.
  assert (H : Remote.named "" !! "name" = None
              \/ Remote.named "" !! "name" = Some (PStr "")) by (right; reflexivity).
  split; [exact H|].
  exact (missing_name_is_failed (Remote.client Remote.no_faults) false
           (Remote.named "") (Remote.start ∅) H).
Defined.

(** C2 as the spec words it fails: a record without a name is counted among
    the failures, it is not set apart from them. *)
Lemma missing_name_counted_as_failed :
  ~ (forall (dry_run : bool) (community : dict) (s s' : state (gset string) string),
       community !! "name" = None \/ community !! "name" = Some (PStr "") ->
       loop_body (Remote.client Remote.no_faults) dry_run (PDict community) s
       = (s', inr tt) ->
       failed_joins s' = failed_joins s).
Proof.
  intros H.
  specialize (H false (Remote.named "") (Remote.start ∅) _
                (or_intror eq_refl) eq_refl).
  discriminate H.
Qed.

(** C3 at an account that has joined "python". *)
Lemma subscribed_is_already_joined_witness :
  let community := Remote.named "python" in
  let s := Remote.start {["python"]} in
  truthy (name_of community) = true
  /\ reports_subscribed (Remote.client Remote.no_faults) (name_of community)
       (reddit s) {["python"]}
  /\ exists s' evs,
       loop_body (Remote.client Remote.no_faults) false (PDict community) s
       = (s', inr tt)
       /\ tallied (AlreadyJoined (name_of community)) s s'
       /\ calls s' = calls s ++ evs
       /\ count_subscribe evs = 0
       /\ reddit s' = {["python"]}.
Proof.
  cbv zeta.
  assert (Hname : truthy (name_of (Remote.named "python")) = true) by reflexivity.
  assert (Hrep : reports_subscribed (Remote.client Remote.no_faults)
                   (name_of (Remote.named "python"))
                   (reddit (Remote.start {["python"]})) {["python"]}).
  { exists "python", {["python"]}, {["python"]}, (PBool true), (PBool true).
    repeat split. }
  split; [exact Hname|]. split; [exact Hrep|].
  exact (subscribed_is_already_joined (Remote.client Remote.no_faults) false
           (Remote.named "python") (Remote.start {["python"]}) _ Hname Hrep).
Defined.

(** C5 as the spec words it fails: a subscription that the remote refuses is
    a failure of the real run and a join of the dry run. *)
Lemma dry_run_counts_differ :
  ~ (forall (communities : list dict) (s : state (gset string) string),
       let run dry_run :=
         fst (import_communities (Remote.client Remote.private_faults) Remote.bar
                (fun _ => inr (PDict <$> communities)) "communities.json" dry_run s) in
       length (successful_joins (run true)) = length (successful_joins (run false))
       /\ length (failed_joins (run true)) = length (failed_joins (run false))
       /\ length (already_joined (run true)) = length (already_joined (run false))).
Proof.
  intros H.
  specialize (H [Remote.named "privatesub"] (Remote.start ∅)).
  destruct H as [H _]. vm_compute in H. discriminate H.
Qed.

(** A name that comes twice is joined twice by the dry run; the real run
    finds it joined the second time. *)
Example dry_run_counts_differ_on_repeat :
  let run dry_run :=
    fst (import_communities (Remote.client Remote.no_faults) Remote.bar
           (fun _ => inr [PDict (Remote.named "python"); PDict (Remote.named "python")])
           "communities.json" dry_run (Remote.start ∅)) in
  successful_joins (run true) = [PStr "python"; PStr "python"]
  /\ already_joined (run true) = []
  /\ successful_joins (run false) = [PStr "python"]
  /\ already_joined (run false) = [PStr "python"].
Proof. vm_compute. auto. Qed.

(** C5 at two communities that nothing refuses. *)
Lemma dry_run_counts_match_witness :
  let communities := [Remote.named "python"; Remote.named "rust"] in
  let load := fun _ : string => inr (PDict <$> communities) : exn + list pyval in
  let s := Remote.start ∅ in
  subscriptions_independent (Remote.client Remote.no_faults)
    Remote.ahead Remote.handle_name
  /\ load "communities.json" = inr (PDict <$> communities)
  /\ NoDup (named_records communities)
  /\ Remote.ahead [] (reddit s) (reddit s)
  /\ exists d r,
       import_communities (Remote.client Remote.no_faults) Remote.bar load
         "communities.json" true s = (d, inr tt)
       /\ import_communities (Remote.client Remote.no_faults) Remote.bar load
            "communities.json" false s = (r, inr tt)
       /\ same_lists d r
       /\ length (successful_joins d) = length (successful_joins r)
       /\ length (failed_joins d) = length (failed_joins r)
       /\ length (already_joined d) = length (already_joined r)
       /\ "Would join: " +:+ pretty (length (successful_joins d)) +:+ " communities"
          ∈ stdout d
       /\ "Successfully joined: " +:+ pretty (length (successful_joins r))
          +:+ " communities" ∈ stdout r.
Proof.
  cbv zeta.
  pose proof (RemoteFacts.independent Remote.no_faults (fun _ => eq_refl)) as Hind.
  assert (Hnodup : NoDup (named_records [Remote.named "python"; Remote.named "rust"])).
  { change (NoDup [PStr "python"; PStr "rust"]).
    apply NoDup_cons. split.
    - intros Hin. apply list_elem_of_singleton in Hin. discriminate Hin.
    - apply NoDup_singleton. }
  assert (Hahead : Remote.ahead [] (reddit (Remote.start ∅)) (reddit (Remote.start ∅))).
  { intros n. split; [auto|]. intros [H|H]; [exact H|].
    apply elem_of_nil in H. contradiction. }
  split; [exact Hind|]. split; [reflexivity|]. split; [exact Hnodup|].
  split; [exact Hahead|].
  exact (dry_run_counts_match (Remote.client Remote.no_faults) Remote.bar Remote.ahead
           Remote.handle_name
           (fun _ => inr (PDict <$> [Remote.named "python"; Remote.named "rust"]))
           "communities.json" (Remote.start ∅) _ Hind eq_refl Hnodup Hahead).
Defined.

(** C6 and C9 at the spec's scenario. *)
Lemma import_always_summarises_witness :
  let communities :=
    [Remote.named "python"; Remote.named ""; Remote.named "privatesub"] in
  let load := fun _ : string => inr (PDict <$> communities) : exn + list pyval in
  let s := Remote.start ∅ in
  load "communities.json" = inr (PDict <$> communities)
  /\ exists s' segs,
       import_communities (Remote.client Remote.private_faults) Remote.bar load
         "communities.json" false s = (s', inr tt)
       /\ calls s' = calls s ++ concat segs
       /\ Forall2 (segment_ok false) communities segs
       /\ subreddit_calls (concat segs) = named_records communities
       /\ length (successful_joins s') + length (failed_joins s')
          + length (already_joined s') = length communities
       /\ last (stdout s') =
          Some (nl +:+ "Total processed: " +:+ pretty (length communities)
                +:+ " communities").
Proof.
  cbv zeta. split; [reflexivity|].
  exact (import_always_summarises (Remote.client Remote.private_faults) Remote.bar
           (fun _ => inr (PDict <$> [Remote.named "python"; Remote.named "";
                                     Remote.named "privatesub"]))
           "communities.json" false (Remote.start ∅) _ eq_refl).
Defined.

(** C6 as the spec words it fails: an element of the list that is no
    mapping ends the run.  Line 139 raises outside the [try] of the loop
    body, so the run fails with "Import failed: ", the elements after it
    are not processed and no summary is printed. *)
Lemma non_record_ends_the_run :
  ~ (forall (communities : list pyval) (dry_run : bool)
            (s : state (gset string) string),
       exists s',
         import_communities (Remote.client Remote.no_faults) Remote.bar
           (fun _ => inr communities) "communities.json" dry_run s = (s', inr tt)
         /\ last (stdout s') =
            Some (nl +:+ "Total processed: " +:+ pretty (length communities)
                  +:+ " communities")).
Proof.
  intros H.
  destruct (H [PDict (Remote.named "python"); PNone; PDict (Remote.named "rust")]
              false (Remote.start ∅)) as (s' & Hrun & _).
  vm_compute in Hrun. discriminate Hrun.
Qed.

(** That run: "python" is joined, "rust" is never looked up, and the last
    thing written is the label of the bar. *)
Example non_record_run :
  let run := import_communities (Remote.client Remote.no_faults) Remote.bar
               (fun _ => inr [PDict (Remote.named "python"); PNone;
                              PDict (Remote.named "rust")])
               "communities.json" false (Remote.start ∅) in
  snd run = inl (ClickException
                   "Import failed: 'NoneType' object has no attribute 'get'")
  /\ successful_joins (fst run) = [PStr "python"]
  /\ subreddit_calls (calls (fst run)) = [PStr "python"]
  /\ stdout (fst run) = ["Found 3 communities to import"; "Importing communities"].
Proof. vm_compute. auto. Qed.

Lemma every_record_in_one_list_witness :
  let communities :=
    [Remote.named "python"; Remote.named ""; Remote.named "privatesub"] in
  let load := fun _ : string => inr (PDict <$> communities) : exn + list pyval in
  let s := Remote.start ∅ in
  load "communities.json" = inr (PDict <$> communities)
  /\ exists s' os,
       import_communities (Remote.client Remote.private_faults) Remote.bar load
         "communities.json" false s = (s', inr tt)
       /\ length os = length communities
       /\ (forall i o, os !! i = Some o ->
           yields (Remote.client Remote.private_faults) Remote.bar false communities
             (loop_entry Remote.bar false communities s) i o)
       /\ successful_joins s' = joined_of os
       /\ failed_joins s' = failed_of os
       /\ already_joined s' = already_of os
       /\ length (successful_joins s') + length (failed_joins s')
          + length (already_joined s') = length communities
       /\ last (stdout s') =
          Some (nl +:+ "Total processed: " +:+ pretty (length communities)
                +:+ " communities").
Proof.
  cbv zeta. split; [reflexivity|].
  exact (every_record_in_one_list (Remote.client Remote.private_faults) Remote.bar
           (fun _ => inr (PDict <$> [Remote.named "python"; Remote.named "";
                                     Remote.named "privatesub"]))
           "communities.json" false (Remote.start ∅) _ eq_refl).
Defined.

(** C9 as the spec words it fails: when an element of the list is no
    mapping, that element and the ones after it are in no list, so the
    lengths of the three lists do not add up to the length of the input. *)
Lemma non_record_is_in_no_list :
  ~ (forall (communities : list pyval) (dry_run : bool)
            (s : state (gset string) string),
       let s' := fst (import_communities (Remote.client Remote.no_faults) Remote.bar
                        (fun _ => inr communities) "communities.json" dry_run s) in
       length (successful_joins s') + length (failed_joins s')
       + length (already_joined s') = length communities).
Proof.
  intros H.
  specialize (H [PDict (Remote.named "python"); PNone; PDict (Remote.named "rust")]
                false (Remote.start ∅)).
  vm_compute in H. discriminate H.
Qed.

(** C7 as the spec words it fails: a dry run reports a join and subscribes
    to nothing, so the next run reports the join again. *)
Lemma dry_run_is_not_idempotent :
  ~ (forall (dry_run1 dry_run2 : bool) (communities : list dict)
            (s s' : state (gset string) string) (i : nat) (name : pyval),
       let client := Remote.client Remote.no_faults in
       import_communities client Remote.bar (fun _ => inr (PDict <$> communities))
         "communities.json" dry_run1 s = (s', inr tt) ->
       yields client Remote.bar dry_run1 communities
         (loop_entry Remote.bar dry_run1 communities s) i (Joined name) ->
       yields client Remote.bar dry_run2 communities
         (loop_entry Remote.bar dry_run2 communities s') i (AlreadyJoined name)).
Proof.
  intros H.
  pose (communities := [Remote.named "python"]).
  pose (s' := fst (import_communities (Remote.client Remote.no_faults) Remote.bar
                     (fun _ => inr (PDict <$> communities)) "communities.json" true
                     (Remote.start ∅))).
  assert (Hrun : import_communities (Remote.client Remote.no_faults) Remote.bar
                   (fun _ => inr (PDict <$> communities)) "communities.json" true
                   (Remote.start ∅) = (s', inr tt))
    by (vm_compute; reflexivity).
  assert (Hfirst : yields (Remote.client Remote.no_faults) Remote.bar true communities
                     (loop_entry Remote.bar true communities (Remote.start ∅)) 0
                     (Joined (PStr "python"))).
  { exists (Remote.named "python"),
      (loop_entry Remote.bar true communities (Remote.start ∅)),
      (fst (loop_body (Remote.client Remote.no_faults) true
              (PDict (Remote.named "python"))
              (loop_entry Remote.bar true communities (Remote.start ∅)))).
    split; [reflexivity|]. split; [vm_compute; reflexivity|].
    split; [vm_compute; reflexivity|]. vm_compute. auto. }
  destruct (H true false communities (Remote.start ∅) s' 0 (PStr "python") Hrun Hfirst)
    as (community & s1 & s2 & Hi & Hpre & Hbody & _ & _ & Ha).
  injection Hi as <-.
  vm_compute in Hpre. injection Hpre as <-.
  apply (f_equal fst) in Hbody. cbn [fst] in Hbody. subst s2.
  vm_compute in Ha. discriminate Ha.
Qed.

(** C7 at a real run that joins "python" and is refused "privatesub". *)
Lemma rerun_is_already_joined_witness :
  let client := Remote.client Remote.private_faults in
  let communities := [Remote.named "python"; Remote.named "privatesub"] in
  let load := fun _ : string => inr (PDict <$> communities) : exn + list pyval in
  let s := Remote.start ∅ in
  let s' := fst (import_communities client Remote.bar load "communities.json" false s) in
  keeps_subscriptions client Remote.joined Remote.handle_name
  /\ load "communities.json" = inr (PDict <$> communities)
  /\ import_communities client Remote.bar load "communities.json" false s = (s', inr tt)
  /\ yields client Remote.bar false communities
       (loop_entry Remote.bar false communities s) 0 (Joined (PStr "python"))
  /\ reddit s' = reddit s'
  /\ yields client Remote.bar true communities
       (loop_entry Remote.bar true communities s') 0 (AlreadyJoined (PStr "python")).
Proof.
  intros client communities load s s'.
  pose proof (RemoteFacts.keeps Remote.private_faults
                (fun _ => eq_refl) (fun _ => eq_refl)) as Hkeeps.
  assert (Hrun : import_communities client Remote.bar load "communities.json" false s
                 = (s', inr tt)) by (vm_compute; reflexivity).
  assert (Hyields : yields client Remote.bar false communities
                      (loop_entry Remote.bar false communities s) 0
                      (Joined (PStr "python"))).
  { exists (Remote.named "python"), (loop_entry Remote.bar false communities s),
      (fst (loop_body client false (PDict (Remote.named "python"))
              (loop_entry Remote.bar false communities s))).
    split; [reflexivity|]. split; [vm_compute; reflexivity|].
    split; [vm_compute; reflexivity|]. vm_compute. auto. }
  split; [exact Hkeeps|]. split; [reflexivity|]. split; [exact Hrun|].
  split; [exact Hyields|]. split; [reflexivity|].
  exact (rerun_is_already_joined client Remote.bar Remote.joined Remote.handle_name
           load "communities.json" true s s' s' communities 0 (PStr "python")
           Hkeeps eq_refl Hrun Hyields eq_refl).
Defined.

(** C8 at a config that gives the secret and the user name, with the client
    id on the command line: the password is missing. *)
Lemma credentials_by_precedence_witness :
  let config : dict :=
    {["client_secret" := PStr "s3cret"; "username" := PStr "alice"]} in
  let load_config := fun _ : string => inr (PDict config) : exn + pyval in
  read_config load_config (Some "reddit.yaml") = inr (PDict config)
  /\ exists a b c d e,
       by_precedence (PStr "cli-id") (config !! "client_id") PNone a
       /\ by_precedence PNone (config !! "client_secret") PNone b
       /\ by_precedence (PStr "") (config !! "username") PNone c
       /\ by_precedence PNone (config !! "password") PNone d
       /\ by_precedence PNone (config !! "user_agent") (PStr "reddit-cm:v0.1.0") e
       /\ let missing :=
            (if truthy a then [] else ["client-id"])
            ++ (if truthy b then [] else ["client-secret"])
            ++ (if truthy c then [] else ["username"])
            ++ (if truthy d then [] else ["password"]) in
          let result :=
            get_reddit_credentials load_config (Some "reddit.yaml")
              (PStr "cli-id") PNone (PStr "") PNone PNone in
          match missing with
          | [] => result = inr (a, b, c, d, e)
          | _ :: _ =>
            exists msg,
              result = inl (ClickException msg)
              /\ msg = "Missing required parameters: " +:+ join ", " missing
                       +:+ ". Provide them via command line or config file."
              /\ forall field, field ∈ missing -> occurs_in field msg
          end.
Proof.
  cbv zeta. split; [reflexivity|].
  exact (credentials_by_precedence
           (fun _ => inr (PDict {["client_secret" := PStr "s3cret";
                                  "username" := PStr "alice"]}))
           (Some "reddit.yaml") _
           (PStr "cli-id") PNone (PStr "") PNone PNone eq_refl).
Defined.

(** That call: the password is the one field missing. *)
Example credentials_password_missing :
  get_reddit_credentials
    (fun _ => inr (PDict {["client_secret" := PStr "s3cret";
                           "username" := PStr "alice"]}))
    (Some "reddit.yaml") (PStr "cli-id") PNone (PStr "") PNone PNone
  = inl (ClickException
           "Missing required parameters: password. Provide them via command line or config file.").
Proof. reflexivity. Qed.

(** C8 as the spec words it fails: [load_config] returns what the file
    holds, and when that is no mapping, a list say, [config.get] raises an
    [AttributeError] that names no field, where the claim has an error,
    of whatever class, that names every missing field. *)
Lemma missing_field_is_not_named :
  ~ (forall (load_config : string -> exn + pyval) (config_file : option string)
            (config : pyval) (f : required)
            (client_id client_secret username password user_agent : pyval),
       read_config load_config config_file = inr config ->
       is_missing f config client_id client_secret username password ->
       exists e,
         get_reddit_credentials load_config config_file
           client_id client_secret username password user_agent
         = inl e
         /\ occurs_in (label f) (exn_str e)).
Proof.
  intros H.
  destruct (H (fun _ => inr (PList [PInt 1])) (Some "reddit.json") (PList [PInt 1])
              ClientId PNone PNone PNone PNone PNone eq_refl)
    as (e & Hres & Hnamed).
  - split; [reflexivity|]. intros v Hv. discriminate Hv.
  - injection Hres as <-. apply PyStrFacts.str_in_spec in Hnamed.
    discriminate Hnamed.
Qed.

(** That call raises what [config.get] raises. *)
Example credentials_of_a_list :
  get_reddit_credentials (fun _ => inr (PList [PInt 1])) (Some "reddit.json")
    PNone PNone PNone PNone PNone
  = inl (AttributeError "'list' object has no attribute 'get'").
Proof. reflexivity. Qed.

(** C10 at a user name passed as the empty string, with a user name in the
    config: the call returns the config's user name. *)
Lemma empty_explicit_is_absent_witness :
  let config : dict := {["username" := PStr "alice"]} in
  let load_config := fun _ : string => inr (PDict config) : exn + pyval in
  let result :=
    get_reddit_credentials load_config (Some "reddit.yaml")
      (PStr "id") (PStr "s3cret") (PStr "") (PStr "pw") PNone in
  field_of Username (PStr "id") (PStr "s3cret") (PStr "") (PStr "pw") = PStr ""
  /\ read_config load_config (Some "reddit.yaml") = inr (PDict config)
  /\ result = get_reddit_credentials load_config (Some "reddit.yaml")
                (PStr "id") (PStr "s3cret") PNone (PStr "pw") PNone
  /\ result = get_reddit_credentials load_config (Some "reddit.yaml")
                (PStr "id") (PStr "s3cret") (PStr "alice") (PStr "pw") PNone
  /\ exists creds, result = inr creds /\ resolved_field Username creds = PStr "alice".
Proof.
  cbv zeta.
  pose (load_config := fun _ : string =>
          inr (PDict {["username" := PStr "alice"]}) : exn + pyval).
  destruct (empty_explicit_is_absent load_config Username (Some "reddit.yaml")
              (PStr "id") (PStr "s3cret") (PStr "") (PStr "pw") PNone eq_refl)
    as (Habsent & Hconfig).
  destruct (Hconfig {["username" := PStr "alice"]} eq_refl)
    as (Hfallback & Hreturns & _).
  split; [reflexivity|]. split; [reflexivity|].
  split; [exact Habsent|]. split; [exact Hfallback|].
  apply Hreturns. intros g. destruct g; reflexivity.
Defined.

(** The same call returns the config's user name with the default user agent. *)
Example credentials_fall_back :
  get_reddit_credentials (fun _ => inr (PDict {["username" := PStr "alice"]}))
    (Some "reddit.yaml") (PStr "id") (PStr "s3cret") (PStr "") (PStr "pw") PNone
  = inr (PStr "id", PStr "s3cret", PStr "alice", PStr "pw", PStr "reddit-cm:v0.1.0").
Proof. reflexivity. Qed.

(** C10 as the spec words it fails: with a config file that holds a list,
    there is no config value to fall back to, and the field passed as the
    empty string is not reported among the missing parameters: the call
    raises what [config.get] raises. *)
Lemma empty_explicit_is_not_reported :
  ~ (forall (load_config : string -> exn + pyval) (config_file : option string)
            (config : pyval) (f : required)
            (client_id client_secret username password user_agent : pyval),
       read_config load_config config_file = inr config ->
       field_of f client_id client_secret username password = PStr "" ->
       config_value config (config_key f) = None
       \/ config_value config (config_key f) = Some (PStr "") ->
       exists e,
         get_reddit_credentials load_config config_file
           client_id client_secret username password user_agent
         = inl e
         /\ occurs_in (label f) (exn_str e)).
Proof.
  intros H.
  destruct (H (fun _ => inr (PList [PInt 1])) (Some "reddit.json") (PList [PInt 1])
              Username (PStr "id") (PStr "s3cret") (PStr "") (PStr "pw") PNone
              eq_refl eq_refl (or_introl eq_refl))
    as (e & Hres & Hnamed).
  injection Hres as <-. apply PyStrFacts.str_in_spec in Hnamed.
  discriminate Hnamed.
Qed.

(** Without a config, every missing field is named, not only the first. *)
Example credentials_all_missing :
  get_reddit_credentials (fun _ => inr (PDict ∅)) None PNone (PStr "") PNone PNone PNone
  = inl (ClickException
           "Missing required parameters: client-id, client-secret, username, password. Provide them via command line or config file.").
Proof. reflexivity. Qed.

End SampleRuns.

(** * Files *)

Section FileFacts.
Context {T FS : Type}.
Variable libs : Libs T.
Variable fsys : FileSystem FS.

(** X1.  [load_communities_file] raises nothing but [ClickException], and
    the message starts with one of three texts: "Failed to parse JSON
    file: " for a [JSONDecodeError], "Failed to parse YAML file: " for a
    [YAMLError], "Failed to load import file: " for anything else. *)
Theorem load_communities_file_raises_click (fs : FS) (file_path : string) (e : exn) :
  load_communities_file libs fsys fs file_path = inl e ->
  exists detail,
    e = ClickException ("Failed to parse JSON file: " +:+ detail)
    \/ e = ClickException ("Failed to parse YAML file: " +:+ detail)
    \/ e = ClickException ("Failed to load import file: " +:+ detail).
Proof.
  unfold load_communities_file.
  destruct (load_communities_block libs fsys fs file_path) as [[msg|msg|e']|items];
    intros [= <-]; eauto.
Qed.

(** X2.  The errors that [load_communities_file] raises itself pass through
    its last [except] clause, so they arrive wrapped: a file that does not
    exist gives "Failed to load import file: Import file not found: "
    followed by the path. *)
Theorem load_communities_file_missing (fs : FS) (file_path : string) :
  fs_exists fsys file_path fs = false ->
  load_communities_file libs fsys fs file_path
  = inl (ClickException
           ("Failed to load import file: Import file not found: " +:+ file_path)).
Proof.
  intros Hno. unfold load_communities_file, load_communities_block.
  rewrite Hno. reflexivity.
Qed.

(** X3.  [load_communities_file] returns exactly when the file exists and
    parses to a mapping whose ['communities'] entry is a sequence, and it
    returns that sequence as it is. *)
Theorem load_communities_file_returns (fs : FS) (file_path : string)
    (items : list pyval) :
  load_communities_file libs fsys fs file_path = inr items <->
  fs_exists fsys file_path fs = true
  /\ exists d, parse_import libs fsys fs file_path = inr (PDict d)
               /\ d !! "communities" = Some (PList items).
Proof.
  unfold load_communities_file, load_communities_block. split.
  - destruct (fs_exists fsys file_path fs); cbn [negb]; [|discriminate].
    destruct (parse_import libs fsys fs file_path) as [[msg|msg|e]|[ |b|z|str|l|d]];
      try discriminate.
    destruct (d !! "communities") as [[ |b|z|str|l|d']|] eqn:Hc; try discriminate.
    intros [= <-]. eauto.
  - intros (-> & d & -> & ->). reflexivity.
Qed.

(** X4.  A file that parses to something else is refused with one of two
    messages, also wrapped: no mapping or no ['communities'] key, or a
    ['communities'] entry that is not a sequence. *)
Theorem load_communities_file_invalid (fs : FS) (file_path : string) (data : pyval) :
  fs_exists fsys file_path fs = true ->
  parse_import libs fsys fs file_path = inr data ->
  (forall d items, data = PDict d -> d !! "communities" <> Some (PList items)) ->
  load_communities_file libs fsys fs file_path
  = inl (ClickException
           ("Failed to load import file: "
            +:+ (match data with
                 | PDict d =>
                   match d !! "communities" with
                   | Some _ => "Invalid file format: 'communities' must be a list"
                   | None => "Invalid file format: missing 'communities' field"
                   end
                 | _ => "Invalid file format: missing 'communities' field"
                 end))).
Proof.
  intros Hex Hparse Hbad. unfold load_communities_file, load_communities_block.
  rewrite Hex, Hparse. cbn [negb].
  destruct data as [ |b|z|str|l|d]; try reflexivity.
  destruct (d !! "communities") as [[ |b|z|str|l|d']|] eqn:Hc; try reflexivity.
  exfalso. exact (Hbad d l eq_refl Hc).
Qed.

(** X6.  [load_config] raises nothing but [ClickException]: "Config file
    not found: " with the path when the file does not exist, and "Failed
    to parse config file: " with the error otherwise. *)
Theorem load_config_raises_click (fs : FS) (config_file : string) (e : exn) :
  load_config libs fsys fs config_file = inl e ->
  (fs_exists fsys config_file fs = false
   /\ e = ClickException ("Config file not found: " +:+ config_file))
  \/ (fs_exists fsys config_file fs = true
      /\ exists err, parse_config libs fsys fs config_file = inl err
         /\ e = ClickException ("Failed to parse config file: " +:+ pyexc_str err)).
Proof.
  unfold load_config. destruct (fs_exists fsys config_file fs); cbn [negb].
  - destruct (parse_config libs fsys fs config_file) as [err|config];
      intros [= <-]. right. eauto.
  - intros [= <-]. left. auto.
Qed.

(** X7.  What [load_config] returns is a true value or the empty mapping:
    a file that parses to [None], to an empty sequence or to an empty
    mapping gives [{}]. *)
Theorem load_config_or_empty (fs : FS) (config_file : string) (config : pyval) :
  load_config libs fsys fs config_file = inr config ->
  exists parsed,
    parse_config libs fsys fs config_file = inr parsed
    /\ ((truthy parsed = true /\ config = parsed)
        \/ (truthy parsed = false /\ config = PDict ∅)).
Proof.
  unfold load_config. destruct (fs_exists fsys config_file fs); cbn [negb];
    [|discriminate].
  destruct (parse_config libs fsys fs config_file) as [err|parsed]; [discriminate|].
  intros [= <-]. exists parsed. split; [reflexivity|].
  destruct (truthy parsed); auto.
Qed.

(** X8.  For a file that is neither .yaml, .yml nor .json, [load_config]
    turns to YAML only when JSON raises [JSONDecodeError]: then it gives
    what it gives for a .yaml file with the same text.  In every other
    case it gives what it gives for a .json file with that text. *)
Theorem load_config_detects_format (fs : FS) (config_file as_yaml as_json text : string) :
  is_yaml_suffix libs config_file = false ->
  is_json_suffix libs config_file = false ->
  is_yaml_suffix libs as_yaml = true ->
  is_yaml_suffix libs as_json = false ->
  is_json_suffix libs as_json = true ->
  fs_exists fsys config_file fs = true ->
  fs_exists fsys as_yaml fs = true ->
  fs_exists fsys as_json fs = true ->
  fs_read fsys config_file fs = inr text ->
  fs_read fsys as_yaml fs = inr text ->
  fs_read fsys as_json fs = inr text ->
  load_config libs fsys fs config_file =
  match json_load libs text with
  | inl (JSONDecodeError _) => load_config libs fsys fs as_yaml
  | _ => load_config libs fsys fs as_json
  end.
Proof.
  intros Hy Hj Hyy Hjy Hjj He Hey Hej Hr Hry Hrj.
  unfold load_config, parse_config.
  rewrite He, Hey, Hej, Hr, Hry, Hrj, Hy, Hj, Hyy, Hjy, Hjj. cbn [negb].
  destruct (json_load libs text) as [[msg|msg|e]|data]; reflexivity.
Qed.

End FileFacts.

(** X5.  The suffix alone selects the parser of [load_communities_file]:
    with a .yaml or .yml suffix, in any case of letters, the JSON parser
    has no say, and with any other suffix the YAML parser has none. *)
Theorem load_communities_file_parser {T FS : Type} (libs libs' : Libs T)
    (fsys : FileSystem FS) (fs : FS) (file_path : string) :
  suffix libs file_path = suffix libs' file_path ->
  (if is_yaml_suffix libs file_path
   then forall text, yaml_safe_load libs text = yaml_safe_load libs' text
   else forall text, json_load libs text = json_load libs' text) ->
  load_communities_file libs fsys fs file_path
  = load_communities_file libs' fsys fs file_path.
Proof.
  intros Hsfx Hparser.
  assert (Hy : is_yaml_suffix libs' file_path = is_yaml_suffix libs file_path)
    by (unfold is_yaml_suffix; rewrite Hsfx; reflexivity).
  unfold load_communities_file, load_communities_block, parse_import.
  rewrite Hy.
  destruct (fs_exists fsys file_path fs); cbn [negb]; [|reflexivity].
  destruct (fs_read fsys file_path fs) as [e|text]; [reflexivity|].
  destruct (is_yaml_suffix libs file_path); rewrite Hparser; reflexivity.
Qed.

(** * Credentials and the config file *)

Lemma py_or_given (a b : pyval) : truthy a = true -> py_or a b = a.
Proof. intros H. unfold py_or. rewrite H. reflexivity. Qed.

(** X9.  When the four required fields are all given explicitly, the
    config file decides nothing about them, but it is still loaded when it
    is named, and it is still asked for the user agent when none is given.
    A file that fails to load makes the call fail with the loader's error.
    Otherwise, with a user agent given, the five explicit values come
    back, whatever the config is; with none given, the user agent is the
    config's or the default when the config is a mapping, and the call
    fails with the [AttributeError] of [config.get] when it is not. *)
Theorem explicit_credentials_still_load_config
    (load_config : string -> exn + pyval) (config_file : option string)
    (client_id client_secret username password user_agent : pyval) :
  truthy client_id = true -> truthy client_secret = true ->
  truthy username = true -> truthy password = true ->
  get_reddit_credentials load_config config_file
    client_id client_secret username password user_agent
  = match read_config load_config config_file with
    | inl e => inl e
    | inr config =>
      if truthy user_agent then
        inr (client_id, client_secret, username, password, user_agent)
      else
        match config with
        | PDict d =>
          inr (client_id, client_secret, username, password,
               dict_get_default d "user_agent" (PStr "reddit-cm:v0.1.0"))
        | _ => inl (no_attribute_get config)
        end
    end.
Proof.
  intros H1 H2 H3 H4. unfold get_reddit_credentials.
  destruct (read_config load_config config_file) as [e|config]; [reflexivity|].
  cbn [and_then]. unfold or_get, or_get_default, py_get_default.
  rewrite H1, H2, H3, H4. cbn [and_then].
  destruct (truthy user_agent); [|destruct config]; cbn [and_then];
    unfold validated; rewrite ?H1, ?H2, ?H3, ?H4; reflexivity.
Qed.

(** * The import run, further *)

Section ImportFacts.
Context {St Handle : Type} {py_repr : Repr}.
Variable client : Client St Handle.
Variable progressbar : nat -> string -> Bar.

Local Abbreviation state := (state St Handle).

(** X10.  When [load_communities_file] fails, [import_communities] fails
    with "Import failed: " before the error's own message, and nothing else
    happens: no call on the client, nothing printed, no list touched. *)
Theorem import_reports_load_failure {T FS : Type} (libs : Libs T)
    (fsys : FileSystem FS) (fs : FS) (load : string -> exn + list pyval)
    (import_file : string) (dry_run : bool) (s : state) (e : exn) :
  load import_file = load_communities_file libs fsys fs import_file ->
  load_communities_file libs fsys fs import_file = inl e ->
  import_communities client progressbar load import_file dry_run s
  = (s, inl (ClickException ("Import failed: " +:+ exn_str e))).
Proof.
  intros Hreads Hfail. rewrite Hfail in Hreads.
  apply import_communities_load_fails. exact Hreads.
Qed.

(** The lines of the summary, in full. *)
Lemma print_summary_lines (dry_run : bool) (communities : list pyval) (s : state) :
  stdout (fst (print_summary dry_run communities s)) =
  stdout s
  ++ [nl +:+ repeat_char "=" 50; "IMPORT SUMMARY"; repeat_char "=" 50;
      (if dry_run then "Would join: " else "Successfully joined: ")
      +:+ pretty (length (successful_joins s)) +:+ " communities"]
  ++ (match already_joined s with
      | [] => []
      | _ :: _ =>
        (nl +:+ "Already joined: " +:+ pretty (length (already_joined s))
         +:+ " communities")
        :: map (fun name => "  - r/" +:+ py_str name) (already_joined s)
      end)
  ++ (match failed_joins s with
      | [] => []
      | _ :: _ =>
        (nl +:+ "Failed to join: " +:+ pretty (length (failed_joins s))
         +:+ " communities")
        :: map (fun failure => "  - r/" +:+ py_str (f_name failure) +:+ ": "
                               +:+ f_error failure) (failed_joins s)
      end)
  ++ [nl +:+ "Total processed: " +:+ pretty (length communities) +:+ " communities"].
Proof.
  unfold print_summary, get_state.
  cbv beta iota delta [mbind M_bind mret M_ret].
  destruct dry_run;
    (destruct (already_joined s) as [|a al] eqn:Ha;
     destruct (failed_joins s) as [|f fl] eqn:Hf;
     repeat (first [rewrite echo_eq | rewrite for_each_echo];
             cbv beta iota;
             cbn [reddit calls successful_joins failed_joins already_joined stdout]);
     cbn [fst reddit calls successful_joins failed_joins already_joined stdout];
     rewrite <- ?app_assoc; cbn [app]; reflexivity).
Qed.

(** A run that returns has read the file, gone through the whole loop
    and printed the summary, in the state the bar left on its way out. *)
Lemma import_communities_summary (load : string -> exn + list pyval)
    (import_file : string) (dry_run : bool) (s s' : state) :
  import_communities client progressbar load import_file dry_run s = (s', inr tt) ->
  exists l s1,
    load import_file = inr l
    /\ for_each_shown (shown progressbar l) l (loop_body client dry_run)
         (loop_entry progressbar dry_run l s) = (s1, inr tt)
    /\ print_summary dry_run l
         (fst (write (bar_exit (run_bar progressbar (length l))) s1))
       = (s', inr tt).
Proof.
  intros Hrun.
  destruct (load import_file) as [e|l] eqn:Hload.
  { rewrite (import_communities_load_fails client progressbar _ _ _ _ _ Hload) in Hrun.
    discriminate Hrun. }
  rewrite (import_communities_loaded client progressbar _ _ dry_run s l Hload) in Hrun.
  destruct (for_each_shown _ l _ _) as [s1 [e|[]]] eqn:Hloop; [discriminate Hrun|].
  exists l, s1. auto.
Qed.

(** X11.  An empty list of communities: no call on the client, three empty
    lists, what the bar writes for a list without elements, and a summary
    of zeros. *)
Theorem import_of_nothing (load : string -> exn + list pyval)
    (import_file : string) (dry_run : bool) (s : state) :
  load import_file = inr [] ->
  import_communities client progressbar load import_file dry_run s
  = (State (reddit s) (calls s) [] [] []
       (stdout s
        ++ ["Found 0 communities to import"]
        ++ (if dry_run then ["DRY RUN MODE - No communities will actually be joined"]
            else [])
        ++ bar_enter (progressbar 0 "Importing communities")
        ++ bar_next (progressbar 0 "Importing communities") 0
        ++ bar_exit (progressbar 0 "Importing communities")
        ++ [nl +:+ repeat_char "=" 50; "IMPORT SUMMARY"; repeat_char "=" 50;
            if dry_run then "Would join: 0 communities"
            else "Successfully joined: 0 communities";
            nl +:+ "Total processed: 0 communities"]),
     inr tt).
Proof.
  intros Hload.
  rewrite (import_communities_loaded client progressbar _ _ dry_run s [] Hload).
  rewrite for_each_shown_nil.
  set (s1 := fst (write (bar_exit (run_bar progressbar (length (@nil pyval))))
                    (fst (write (shown progressbar (@nil pyval) 0)
                            (loop_entry progressbar dry_run (@nil pyval) s))))).
  destruct (print_summary_spec dry_run [] s1)
    as (s' & lines & Hsum & Hr & Hc & Hj & Hf & Ha & _).
  pose proof (print_summary_lines dry_run [] s1) as Hout.
  rewrite Hsum in Hout |- *. cbn [fst] in Hout.
  destruct s' as [r c sj fj aj out].
  subst s1. unfold shown, run_bar in *.
  cbn [reddit calls successful_joins failed_joins already_joined stdout loop_entry
       write fst length] in Hr, Hc, Hj, Hf, Ha, Hout.
  subst. rewrite <- !app_assoc. destruct dry_run; reflexivity.
Qed.

(** X12.  The summary leaves nothing out: every failure is printed with
    its name and its reason, and every community found joined is printed
    with its name. *)
Theorem summary_reports_every_entry (load : string -> exn + list pyval)
    (import_file : string) (dry_run : bool) (s s' : state) :
  import_communities client progressbar load import_file dry_run s = (s', inr tt) ->
  (forall failure, failure ∈ failed_joins s' ->
     "  - r/" +:+ py_str (f_name failure) +:+ ": " +:+ f_error failure ∈ stdout s')
  /\ (forall name, name ∈ already_joined s' ->
        "  - r/" +:+ py_str name ∈ stdout s').
Proof.
  intros Hrun.
  destruct (import_communities_summary load import_file dry_run s s' Hrun)
    as (communities & s0 & _ & _ & Hsum).
  set (s1 := fst (write (bar_exit (run_bar progressbar (length communities))) s0))
    in Hsum.
  destruct (print_summary_spec dry_run communities s1)
    as (s2 & lines' & Hsum' & _ & _ & _ & Hf & Ha & _).
  rewrite Hsum in Hsum'. injection Hsum' as <-.
  pose proof (print_summary_lines dry_run communities s1) as Hout.
  rewrite Hsum in Hout. cbn [fst] in Hout. rewrite Hout, Hf, Ha. split.
  - intros failure Hin. apply elem_of_app. right. apply elem_of_app. right.
    apply elem_of_app. right. apply elem_of_app. left.
    destruct (failed_joins s1) as [|f fl] eqn:E; [apply elem_of_nil in Hin; contradiction|].
    apply list_elem_of_further.
    apply (list_elem_of_fmap_2
             (fun failure => "  - r/" +:+ py_str (f_name failure) +:+ ": "
                             +:+ f_error failure)). exact Hin.
  - intros name Hin. apply elem_of_app. right. apply elem_of_app. right.
    apply elem_of_app. left.
    destruct (already_joined s1) as [|a al] eqn:E; [apply elem_of_nil in Hin; contradiction|].
    apply list_elem_of_further.
    apply (list_elem_of_fmap_2 (fun name => "  - r/" +:+ py_str name)). exact Hin.
Qed.

(** The entry of an iteration belongs to its record. *)
Lemma loop_body_outcome (dry_run : bool) (community : dict) (s : state) :
  exists s' o,
    loop_body client dry_run (PDict community) s = (s', inr tt)
    /\ tallied o s s'
    /\ outcome_for community o.
Proof.
  rewrite loop_body_record. unfold outcome_for, name_of.
  destruct (truthy (dict_get community "name")) eqn:Hname; cbn [negb].
  - unfold_stmt. walk_body (except_clause_spec (St:=St) (Handle:=Handle)).
    all: first
      [ eexists _, (Joined _); split; [reflexivity|]; cbn; rewrite ?Hname; tauto
      | eexists _, (AlreadyJoined _); split; [reflexivity|]; cbn; rewrite ?Hname; tauto
      | eexists _, (Failed _ _); split; [reflexivity|]; cbn; rewrite ?Hname; tauto ].
  - unfold_stmt. eexists _, (Failed _ _). split; [reflexivity|].
    cbn. rewrite ?Hname. tauto.
Qed.

Lemma for_each_outcomes (next : nat -> list string) (dry_run : bool)
    (communities : list dict) (s : state) :
  exists s' os,
    for_each_shown next (PDict <$> communities) (loop_body client dry_run) s
    = (s', inr tt)
    /\ Forall2 outcome_for communities os
    /\ successful_joins s' = successful_joins s ++ joined_of os
    /\ failed_joins s' = failed_joins s ++ failed_of os
    /\ already_joined s' = already_joined s ++ already_of os.
Proof.
  revert next s. induction communities as [|community communities IH]; intros next s.
  - exists (fst (write (next 0) s)), []. cbn. rewrite !app_nil_r.
    repeat split. constructor.
  - destruct (loop_body_outcome dry_run community (fst (write (next 0) s)))
      as (s1 & o & Hrun & Ho & Hfor).
    destruct (IH (fun i => next (S i)) s1) as (s' & os & Hrun' & Hos & Hj & Hf & Ha).
    apply tallied_lists in Ho. destruct Ho as (Hj1 & Hf1 & Ha1).
    exists s', (o :: os). rewrite fmap_cons, for_each_shown_cons, Hrun, Hrun'.
    rewrite joined_of_cons, failed_of_cons, already_of_cons.
    rewrite Hj, Hf, Ha, Hj1, Hf1, Ha1, <- !app_assoc.
    repeat split. constructor; assumption.
Qed.

Lemma outcomes_are_named (communities : list dict) (os : list outcome) :
  Forall2 outcome_for communities os ->
  sublist (joined_of os) (named_records communities)
  /\ sublist (already_of os) (named_records communities)
  /\ (forall failure, failure ∈ failed_of os ->
        (f_name failure = PStr "Unknown" /\ f_error failure = "Missing community name")
        \/ f_name failure ∈ named_records communities).
Proof.
  induction 1 as [|community o communities os Ho _ (IHj & IHa & IHf)].
  - split; [constructor|]. split; [constructor|].
    intros f Hin. apply elem_of_nil in Hin. contradiction.
  - rewrite named_records_cons.
    destruct o as [name|name|name reason]; cbn [outcome_for] in Ho;
      cbn [joined_of already_of failed_of].
    + destruct Ho as [Ht ->]. rewrite Ht. cbn [app]. repeat split.
      * apply sublist_skip. exact IHj.
      * apply sublist_cons. exact IHa.
      * intros f Hin. destruct (IHf f Hin); [left|right]; auto.
        apply list_elem_of_further. assumption.
    + destruct Ho as [Ht ->]. rewrite Ht. cbn [app]. repeat split.
      * apply sublist_cons. exact IHj.
      * apply sublist_skip. exact IHa.
      * intros f Hin. destruct (IHf f Hin); [left|right]; auto.
        apply list_elem_of_further. assumption.
    + assert (Hsub : forall l : list pyval,
                sublist l (named_records communities) ->
                sublist l ((if truthy (name_of community)
                            then [name_of community] else [])
                           ++ named_records communities)).
      { intros l Hl. destruct (truthy (name_of community)); cbn [app];
          [apply sublist_cons|]; exact Hl. }
      repeat split; [apply Hsub, IHj | apply Hsub, IHa |].
      intros f Hin. apply elem_of_cons in Hin. destruct Hin as [-> | Hin].
      * cbn [f_name f_error]. destruct Ho as [[Ht ->] | (_ & -> & ->)]; [right|left; auto].
        rewrite Ht. apply list_elem_of_here.
      * destruct (IHf f Hin); [left|right]; auto.
        apply elem_of_app. right. assumption.
Qed.

(** X13.  The run reports nothing that is not in the file: the names in
    [successful_joins] and those in [already_joined] are names of records,
    in the order of the file, and a failure is either under the name of a
    record or the fixed entry for a record without a name. *)
Theorem import_reports_only_the_file (load : string -> exn + list pyval)
    (import_file : string) (dry_run : bool) (s s' : state)
    (communities : list dict) :
  load import_file = inr (PDict <$> communities) ->
  import_communities client progressbar load import_file dry_run s = (s', inr tt) ->
  sublist (successful_joins s') (named_records communities)
  /\ sublist (already_joined s') (named_records communities)
  /\ (forall failure, failure ∈ failed_joins s' ->
        (f_name failure = PStr "Unknown" /\ f_error failure = "Missing community name")
        \/ f_name failure ∈ named_records communities).
Proof.
  intros Hload Hrun.
  destruct (import_communities_run client progressbar _ _ dry_run s _ Hload)
    as (s1 & s'' & lines & Hloop & Hrun' & _ & _ & Hj & Hf & Ha & _).
  rewrite Hrun in Hrun'. injection Hrun' as <-.
  destruct (for_each_outcomes (shown progressbar communities) dry_run communities
              (loop_entry progressbar dry_run communities s))
    as (s1' & os & Hloop' & Hos & Hj1 & Hf1 & Ha1).
  rewrite Hloop in Hloop'. injection Hloop' as <-.
  rewrite Hj, Hf, Ha, Hj1, Hf1, Ha1.
  cbn [loop_entry successful_joins failed_joins already_joined app].
  apply outcomes_are_named. exact Hos.
Qed.

(** On a client whose operations return for the record, the iteration
    fails only a record without a name. *)
Lemma loop_body_without_error (dry_run : bool) (community : dict) (s : state) :
  (truthy (name_of community) = true ->
   forall st, exists st' h, subreddit client (name_of community) st = (st', inr h)) ->
  (forall h st, exists st' v, user_is_subscriber client h st = (st', inr v)) ->
  (forall h st, exists st', subscribe client h st = (st', inr tt)) ->
  exists s' o,
    loop_body client dry_run (PDict community) s = (s', inr tt)
    /\ tallied o s s'
    /\ (if truthy (name_of community)
        then o = Joined (name_of community) \/ o = AlreadyJoined (name_of community)
        else o = Failed (PStr "Unknown") "Missing community name").
Proof.
  intros Hres Hread Hsub. rewrite loop_body_record. unfold name_of in *.
  destruct (truthy (dict_get community "name")) eqn:Hname; cbn [negb].
  - specialize (Hres eq_refl). unfold_stmt.
    walk_body (except_clause_spec (St:=St) (Handle:=Handle)).
    all: try match goal with
         | H : subreddit client ?n ?st = (_, inl _) |- _ =>
           destruct (Hres st) as (? & ? & Heq); rewrite Heq in H; discriminate H
         | H : user_is_subscriber client ?h ?st = (_, inl _) |- _ =>
           destruct (Hread h st) as (? & ? & Heq); rewrite Heq in H; discriminate H
         | H : subscribe client ?h ?st = (_, inl _) |- _ =>
           destruct (Hsub h st) as (? & Heq); rewrite Heq in H; discriminate H
         end.
    all: first
      [ eexists _, (Joined _); split; [reflexivity|]; cbn; tauto
      | eexists _, (AlreadyJoined _); split; [reflexivity|]; cbn; tauto ].
  - unfold_stmt. eexists _, (Failed _ _). split; [reflexivity|]. cbn. tauto.
Qed.

(** X14.  When no operation of the client raises for the records of the
    file, the failures of the run are exactly the records without a name:
    every named record is joined or found joined. *)
Theorem import_fails_only_the_unnamed (load : string -> exn + list pyval)
    (import_file : string) (dry_run : bool) (s s' : state)
    (communities : list dict) :
  load import_file = inr (PDict <$> communities) ->
  (forall name st, name ∈ named_records communities ->
     exists st' h, subreddit client name st = (st', inr h)) ->
  (forall h st, exists st' v, user_is_subscriber client h st = (st', inr v)) ->
  (forall h st, exists st', subscribe client h st = (st', inr tt)) ->
  import_communities client progressbar load import_file dry_run s = (s', inr tt) ->
  failed_joins s'
  = replicate (length communities - length (named_records communities))
      (Failure (PStr "Unknown") "Missing community name")
  /\ length (successful_joins s') + length (already_joined s')
     = length (named_records communities).
Proof.
  intros Hload Hres Hread Hsub Hrun.
  destruct (import_communities_run client progressbar _ _ dry_run s _ Hload)
    as (s1 & s'' & lines & Hloop & Hrun' & _ & _ & Hj & Hf & Ha & _).
  rewrite Hrun in Hrun'. injection Hrun' as <-. rewrite Hj, Hf, Ha.
  clear Hrun Hj Hf Ha Hload.
  assert (Hgen : forall next s0 s1,
    for_each_shown next (PDict <$> communities) (loop_body client dry_run) s0
    = (s1, inr tt) ->
    failed_joins s1
    = failed_joins s0
      ++ replicate (length communities - length (named_records communities))
           (Failure (PStr "Unknown") "Missing community name")
    /\ length (successful_joins s1) + length (already_joined s1)
       = length (successful_joins s0) + length (already_joined s0)
         + length (named_records communities)).
  { clear Hloop s1. induction communities as [|community communities IH];
      intros next s0 s1 Hloop.
    - rewrite fmap_nil, for_each_shown_nil in Hloop. injection Hloop as <-.
      unfold named_records.
      cbn [map List.filter length Nat.sub replicate write fst failed_joins
           successful_joins already_joined].
      rewrite app_nil_r. split; [reflexivity | lia].
    - rewrite fmap_cons, for_each_shown_cons in Hloop.
      destruct (loop_body_without_error dry_run community (fst (write (next 0) s0)))
        as (t & o & Hbody & Ho & Hkind); [| exact Hread | exact Hsub |].
      { intros Ht st. apply Hres. rewrite named_records_cons, Ht.
        apply list_elem_of_here. }
      rewrite Hbody in Hloop.
      destruct (IH (fun name st Hin => Hres name st
                      ltac:(rewrite named_records_cons; apply elem_of_app; right;
                            exact Hin)) _ t s1 Hloop) as (Hf & Hlen).
      rewrite named_records_cons, Hf, Hlen.
      pose proof (List.filter_length_le truthy (map name_of communities)) as Hle.
      rewrite length_map in Hle. fold (named_records communities) in Hle.
      destruct (truthy (name_of community)).
      + cbn [app length].
        replace (S (length communities) - S (length (named_records communities)))
          with (length communities - length (named_records communities)) by lia.
        destruct Hkind as [-> | ->]; destruct Ho as (Hj1 & Hf1 & Ha1);
          cbn [write fst failed_joins successful_joins already_joined]
            in Hj1, Hf1, Ha1;
          rewrite Hj1, Hf1, Ha1, ?length_app; cbn [length];
          (split; [reflexivity | lia]).
      + cbn [app length].
        replace (S (length communities) - length (named_records communities))
          with (S (length communities - length (named_records communities))) by lia.
        subst o. destruct Ho as (Hj1 & Hf1 & Ha1).
        cbn [write fst failed_joins successful_joins already_joined]
          in Hj1, Hf1, Ha1.
        rewrite Hj1, Hf1, Ha1, <- app_assoc. cbn [replicate app].
        split; [reflexivity | lia]. }
  destruct (Hgen _ _ _ Hloop) as (Hf & Hlen). rewrite Hf, Hlen.
  cbn [loop_entry successful_joins failed_joins already_joined app length].
  split; [reflexivity | lia].
Qed.

End ImportFacts.

(** * Export *)

Section ExportFacts.
Context {St T FS : Type} {py_repr : Repr}.
Variable libs : Libs T.
Variable fsys : FileSystem FS.
Variable account : Account St T.

Lemma community_data_name (sub : Subreddit T) (created : string) :
  name_of (community_data sub created) = display_name sub.
Proof.
  unfold name_of, dict_get, community_data.
  rewrite !lookup_insert_ne by discriminate. rewrite lookup_insert_eq. reflexivity.
Qed.

(** X15.  The loop of [export_communities] makes one record per subreddit,
    in the order of the listing: its name is the display name, its url is
    "https://reddit.com/r/" followed by the display name, and its
    description is the public description, or the empty string when there
    is none.  In the document, [total_communities] is the number of
    records. *)
Theorem export_document_shape (subs : list (Subreddit T)) (communities : list dict) :
  collect_communities libs subs = inr communities ->
  Forall2
    (fun sub c =>
       name_of c = display_name sub
       /\ c !! "url" = Some (PStr ("https://reddit.com/r/" +:+ py_str (display_name sub)))
       /\ c !! "description"
          = Some (if truthy (public_description sub) then public_description sub
                  else PStr "")
       /\ exists created,
            fromtimestamp_isoformat libs (created_utc sub) = inr created
            /\ c !! "created_utc" = Some (PStr created))
    subs communities
  /\ exists d,
       export_data libs communities = PDict d
       /\ d !! "total_communities" = Some (PInt (Z.of_nat (length subs)))
       /\ d !! "communities" = Some (PList (PDict <$> communities)).
Proof.
  intros Hcollect.
  assert (Hall : Forall2
    (fun sub c =>
       name_of c = display_name sub
       /\ c !! "url" = Some (PStr ("https://reddit.com/r/" +:+ py_str (display_name sub)))
       /\ c !! "description"
          = Some (if truthy (public_description sub) then public_description sub
                  else PStr "")
       /\ exists created,
            fromtimestamp_isoformat libs (created_utc sub) = inr created
            /\ c !! "created_utc" = Some (PStr created))
    subs communities).
  { revert communities Hcollect. induction subs as [|sub subs IH];
      intros communities Hcollect; cbn [collect_communities] in Hcollect.
    - injection Hcollect as <-. constructor.
    - destruct (fromtimestamp_isoformat libs (created_utc sub)) as [e|created] eqn:Hc;
        [discriminate|].
      destruct (collect_communities libs subs) as [e|rest]; [discriminate|].
      injection Hcollect as <-. constructor; [|apply IH; reflexivity].
      split; [apply community_data_name|].
      unfold community_data, py_or.
      split; [apply lookup_insert_eq|].
      split.
      + rewrite !lookup_insert_ne by discriminate. rewrite lookup_insert_eq.
        reflexivity.
      + exists created. split; [exact Hc|].
        rewrite lookup_insert_ne by discriminate. apply lookup_insert_eq. }
  split; [exact Hall|].
  eexists. split; [reflexivity|].
  rewrite (Forall2_length _ _ _ Hall). split.
  - rewrite lookup_insert_ne by discriminate. apply lookup_insert_eq.
  - apply lookup_insert_eq.
Qed.

(** X16.  With a format that is neither 'json' nor 'yaml',
    [export_communities] writes no file and still reports the export: when
    the listing succeeds it returns, the files are as before, and the last
    line printed is "Communities exported to " with the file name. *)
Theorem export_unknown_format (format_type output_file : string) (w : world St FS)
    (st : St) (subs : list (Subreddit T)) (communities : list dict) :
  format_type <> "json" -> format_type <> "yaml" ->
  user_subreddits account (w_reddit w) = (st, (subs, None)) ->
  collect_communities libs subs = inr communities ->
  export_communities libs fsys account format_type output_file w
  = (World st (w_files w)
       (w_stdout w ++ ["Fetching joined communities...";
                       "Found " +:+ pretty (length communities) +:+ " communities";
                       "Communities exported to " +:+ output_file]),
     inr tt).
Proof.
  intros Hj Hy Hlist Hcollect.
  unfold export_communities, export_block, dump_for, w_echo.
  cbn [w_reddit w_files w_stdout]. rewrite Hlist, Hcollect.
  apply String.eqb_neq in Hj, Hy. rewrite Hj, Hy.
  cbn [w_reddit w_files w_stdout]. rewrite <- !app_assoc. reflexivity.
Qed.

(** X17.  [export_communities] raises nothing but [ClickException] with a
    message that starts with "Export failed: ", and a failed export is
    never reported as done: besides "Fetching joined communities..." it
    prints at most the line that counts the communities. *)
Theorem export_failure (format_type output_file : string) (w w' : world St FS)
    (e : exn) :
  export_communities libs fsys account format_type output_file w = (w', inl e) ->
  (exists detail, e = ClickException ("Export failed: " +:+ detail))
  /\ (w_stdout w' = w_stdout w ++ ["Fetching joined communities..."]
      \/ exists n : nat,
           w_stdout w' = w_stdout w ++ ["Fetching joined communities...";
                                        "Found " +:+ pretty n +:+ " communities"]).
Proof.
  unfold export_communities, export_block, write_document, w_echo.
  cbn [w_reddit w_files w_stdout].
  destruct (user_subreddits account (w_reddit w)) as [st [subs err]].
  destruct (collect_communities libs subs) as [e1|communities].
  { intros [= <- <-]. split; [eauto|]. left. reflexivity. }
  destruct err as [e1|].
  { intros [= <- <-]. split; [eauto|]. left. reflexivity. }
  cbn [w_reddit w_files w_stdout].
  destruct (dump_for libs format_type) as [dump|].
  2: { intros [= _ Hfalse]. }
  destruct (fs_open_w fsys output_file (w_files w)) as [e1|fs1].
  { intros [= <- <-]. split; [eauto|]. right. exists (length communities).
    cbn [w_stdout]. rewrite <- app_assoc. reflexivity. }
  destruct (dump (export_data libs communities)) as [text [e1|]].
  - intros [= <- <-]. split; [eauto|]. right. exists (length communities).
    cbn [w_stdout]. rewrite <- app_assoc. reflexivity.
  - intros [= _ Hfalse].
Qed.

(** X18.  Round trip.  On a file system that keeps what is written, when
    the parser that the suffix of the file selects reads back what the
    dump of the format wrote, [load_communities_file] gives, for the file
    that [export_communities] has written, the records exported, in
    order. *)
Theorem export_then_load (format_type output_file : string) (w w' : world St FS) :
  keeps_text fsys ->
  format_type = "json" \/ format_type = "yaml" ->
  (forall dump communities,
     dump_for libs format_type = Some dump ->
     collect_communities libs (fst (snd (user_subreddits account (w_reddit w))))
     = inr communities ->
     (if is_yaml_suffix libs output_file then yaml_safe_load libs else json_load libs)
       (fst (dump (export_data libs communities)))
     = inr (export_data libs communities)) ->
  export_communities libs fsys account format_type output_file w = (w', inr tt) ->
  exists communities,
    collect_communities libs (fst (snd (user_subreddits account (w_reddit w))))
    = inr communities
    /\ load_communities_file libs fsys (w_files w') output_file
       = inr (PDict <$> communities).
Proof.
  intros Hkeeps Hformat Hback.
  unfold export_communities, export_block, write_document, w_echo.
  cbn [w_reddit w_files w_stdout].
  destruct (user_subreddits account (w_reddit w)) as [st [subs err]]. cbn [fst snd].
  destruct (collect_communities libs subs) as [e1|communities] eqn:Hcollect;
    [intros [= _ Hfalse]|].
  destruct err as [e1|]; [intros [= _ Hfalse]|].
  cbn [w_reddit w_files w_stdout].
  destruct (dump_for libs format_type) as [dump|] eqn:Hdump.
  2: { exfalso. unfold dump_for in Hdump.
       destruct Hformat as [-> | ->]; discriminate Hdump. }
  specialize (Hback dump communities eq_refl Hcollect).
  destruct (fs_open_w fsys output_file (w_files w)) as [e1|fs1] eqn:Hopen;
    [intros [= _ Hfalse]|].
  destruct (dump (export_data libs communities)) as [text [e1|]];
    [intros [= _ Hfalse]|].
  intros [= <-]. cbn [w_files fst] in *.
  exists communities. split; [reflexivity|].
  destruct (Hkeeps output_file text (w_files w) fs1 Hopen) as (Hex & Hread).
  apply load_communities_file_returns. split; [exact Hex|].
  eexists. split.
  - unfold parse_import. rewrite Hread.
    destruct (is_yaml_suffix libs output_file); exact Hback.
  - apply lookup_insert_eq.
Qed.

(** X19.  [authenticate_reddit] returns a client only after
    [reddit.user.me()] has returned on it, in the state that call left;
    whatever fails, it raises [ClickException] with "Authentication
    failed: " before the error's message. *)
Theorem authenticate_reddit_checks
    (client_id client_secret username password user_agent : pyval) :
  match authenticate_reddit account client_id client_secret username password
          user_agent with
  | inr st =>
    exists st0,
      praw_Reddit account client_id client_secret username password user_agent
      = inr st0
      /\ user_me account st0 = (st, inr tt)
  | inl e =>
    exists cause,
      e = ClickException ("Authentication failed: " +:+ exn_str cause)
      /\ (praw_Reddit account client_id client_secret username password user_agent
          = inl cause
          \/ exists st0 st1,
               praw_Reddit account client_id client_secret username password
                 user_agent = inr st0
               /\ user_me account st0 = (st1, inl cause))
  end.
Proof.
  unfold authenticate_reddit.
  destruct (praw_Reddit account _ _ _ _ _) as [cause|st0]; [eauto|].
  destruct (user_me account st0) as [st1 [cause|[]]] eqn:Hme; [|eauto].
  exists cause. split; [reflexivity|]. right. eauto.
Qed.

(** X20.  The file of the command [export]: a YAML export never goes to
    "communities.json", not even when that name is given; any other name
    that is given is kept; and without [--format] the format is JSON. *)
Theorem export_target_file (format_type : option format) (output_file : option string) :
  let (chosen, target) := export_target format_type output_file in
  (chosen = Yaml -> target <> "communities.json")
  /\ (forall name, output_file = Some name -> name <> "" ->
        name <> "communities.json" -> target = name)
  /\ (format_type = None -> chosen = Json)
  /\ (chosen = Json -> output_file = None -> target = "communities.json").
Proof.
  unfold export_target.
  destruct format_type as [[|]|]; cbn [default];
    destruct output_file as [[|c name']|];
    try (destruct (String.eqb (String c name') "communities.json") eqn:E;
         [apply String.eqb_eq in E | apply String.eqb_neq in E]);
    cbn [String.eqb Ascii.eqb Bool.eqb];
    (split; [intros Hc; try discriminate Hc; try exact E; try discriminate|]);
    (split; [intros name [= <-] Hne Hnd; try reflexivity; try contradiction;
             try (exfalso; apply Hne; reflexivity)|]);
    (split; [intros Hn; try discriminate Hn; reflexivity|]);
    intros Hc Ho; try discriminate Hc; try discriminate Ho; reflexivity.
Qed.

(** X21.  The command [export], when everything succeeds: it prints five
    lines, authenticates before it lists, and the file of [export_target]
    holds what the dump of the format wrote. *)
Theorem export_command_writes
    (load_config : string -> exn + pyval) (config_file : option string)
    (client_id client_secret username password user_agent : pyval)
    (format_type : option format) (output_file : option string)
    (fs fs1 : FS) (out : list string)
    (cid cs u p ua : pyval) (st st' : St) (subs : list (Subreddit T))
    (communities : list dict) (dump : pyval -> string * option exn) (text : string) :
  get_reddit_credentials load_config config_file
    client_id client_secret username password user_agent = inr (cid, cs, u, p, ua) ->
  authenticate_reddit account cid cs u p ua = inr st ->
  user_subreddits account st = (st', (subs, None)) ->
  collect_communities libs subs = inr communities ->
  dump_for libs (format_str (fst (export_target format_type output_file))) = Some dump ->
  fs_open_w fsys (snd (export_target format_type output_file)) fs = inr fs1 ->
  dump (export_data libs communities) = (text, None) ->
  export libs fsys account load_config config_file
    client_id client_secret username password user_agent format_type output_file fs out
  = ((Some st',
      fs_write fsys (snd (export_target format_type output_file)) text fs1,
      out ++ ["Authenticating with Reddit as " +:+ py_str u +:+ "...";
              "Exporting communities to "
              +:+ format_upper (fst (export_target format_type output_file))
              +:+ " format...";
              "Fetching joined communities...";
              "Found " +:+ pretty (length communities) +:+ " communities";
              "Communities exported to "
              +:+ snd (export_target format_type output_file)]),
     inr tt).
Proof.
  intros Hcreds Hauth Hlist Hcollect Hdump Hopen Htext.
  unfold export. rewrite Hcreds.
  destruct (export_target format_type output_file) as [chosen target].
  cbn [fst snd] in *. rewrite Hauth.
  unfold export_communities, export_block, write_document, w_echo.
  cbn [w_reddit w_files w_stdout]. rewrite Hlist, Hcollect.
  cbn [w_reddit w_files w_stdout]. rewrite Hdump, Hopen, Htext.
  cbn [w_reddit w_files w_stdout]. rewrite <- !app_assoc. reflexivity.
Qed.

(** X22.  The command [export] touches no file before it has a client:
    when the credentials do not resolve it has printed nothing, when the
    authentication fails it has printed the line that names the user, and
    in both cases the files are as before and the command fails with that
    error. *)
Theorem export_command_needs_client
    (load_config : string -> exn + pyval) (config_file : option string)
    (client_id client_secret username password user_agent : pyval)
    (format_type : option format) (output_file : option string)
    (fs fs' : FS) (out out' : list string) (r : exn + unit) :
  export libs fsys account load_config config_file
    client_id client_secret username password user_agent format_type output_file fs out
  = ((None, fs', out'), r) ->
  fs' = fs
  /\ ((exists e,
         get_reddit_credentials load_config config_file
           client_id client_secret username password user_agent = inl e
         /\ r = inl e /\ out' = out)
      \/ (exists cid cs u p ua e,
            get_reddit_credentials load_config config_file
              client_id client_secret username password user_agent
            = inr (cid, cs, u, p, ua)
            /\ authenticate_reddit account cid cs u p ua = inl e
            /\ r = inl e
            /\ out' = out ++ ["Authenticating with Reddit as " +:+ py_str u +:+ "..."])).
Proof.
  unfold export.
  destruct (get_reddit_credentials _ _ _ _ _ _ _) as [e|[[[[cid cs] u] p] ua]].
  { intros [= <- <- <-]. split; [reflexivity|]. left. eauto. }
  destruct (export_target format_type output_file) as [chosen target].
  destruct (authenticate_reddit account cid cs u p ua) as [e|st] eqn:Hauth.
  - intros [= <- <- <-]. split; [reflexivity|]. right.
    exists cid, cs, u, p, ua, e. auto.
  - destruct (export_communities _ _ _ _ _ _) as [w res]. intros [= Hnone].
Qed.

End ExportFacts.

(** ** The command [import] *)

Section ImportCommandFacts.
Context {St Handle T : Type} {py_repr : Repr}.
Variable client : Client St Handle.
Variable progressbar : nat -> string -> Bar.
Variable account : Account St T.

(** X23.  The command [import] with [--dry-run] never subscribes, whatever
    the credentials, the account and the file; it makes no call on the
    client before the credentials are resolved and the client is
    authenticated; and a command that gets no client has failed. *)
Theorem import_command_dry_run
    (load_communities_file : string -> exn + list pyval) (import_file : string)
    (load_config : string -> exn + pyval) (config_file : option string)
    (client_id client_secret username password user_agent : pyval)
    (out : list string) :
  match import_cmd client progressbar account load_communities_file import_file
          load_config config_file client_id client_secret username password
          user_agent true out with
  | (Some s, lines, _) =>
    count_subscribe (calls s) = 0
    /\ lines = stdout s
    /\ exists cid cs u p ua st rest,
         get_reddit_credentials load_config config_file
           client_id client_secret username password user_agent
         = inr (cid, cs, u, p, ua)
         /\ authenticate_reddit account cid cs u p ua = inr st
         /\ lines = out ++ ["Authenticating with Reddit as " +:+ py_str u +:+ "..."]
                        ++ rest
  | (None, lines, r) =>
    (exists e, r = inl e)
    /\ (lines = out
        \/ exists u,
             lines = out ++ ["Authenticating with Reddit as " +:+ py_str u +:+ "..."])
  end.
Proof.
  unfold import_cmd.
  destruct (get_reddit_credentials _ _ _ _ _ _ _) as [e|[[[[cid cs] u] p] ua]] eqn:Hcreds.
  { split; [eauto|]. left. reflexivity. }
  destruct (authenticate_reddit account cid cs u p ua) as [e|st] eqn:Hauth.
  { split; [eauto|]. right. eauto. }
  set (s0 := State st [] [] [] [] _).
  destruct (load_communities_file import_file) as [e|l] eqn:Hload.
  - rewrite (import_communities_load_fails client progressbar _ _ _ _ _ Hload).
    split; [reflexivity|]. split; [reflexivity|].
    exists cid, cs, u, p, ua, st, []. rewrite app_nil_r. auto.
  - rewrite (import_communities_loaded client progressbar _ _ true s0 l Hload).
    destruct (for_each_any client (shown progressbar l) true l
                (loop_entry progressbar true l s0))
      as (s1 & r & evs & written & Hloop & Hcalls & Hdry & Hout1 & _).
    rewrite Hloop.
    assert (Hnone : count_subscribe (calls s1) = 0).
    { rewrite Hcalls. subst s0. cbn [loop_entry calls app]. apply Hdry. reflexivity. }
    destruct r as [e|[]].
    + split; [exact Hnone|]. split; [reflexivity|].
      exists cid, cs, u, p, ua, st. eexists. split; [reflexivity|]. split; [exact Hauth|].
      cbn [write fst stdout]. rewrite Hout1. subst s0. cbn [loop_entry stdout].
      rewrite <- !app_assoc. reflexivity.
    + set (s2 := fst (write (bar_exit (run_bar progressbar (length l))) s1)).
      destruct (print_summary_spec true l s2)
        as (s' & lines & Hsum & _ & Hc & _ & _ & _ & Hout).
      rewrite Hsum.
      split; [rewrite Hc; exact Hnone|]. split; [reflexivity|].
      exists cid, cs, u, p, ua, st. eexists. split; [reflexivity|]. split; [exact Hauth|].
      rewrite Hout. subst s2. cbn [write fst stdout]. rewrite Hout1. subst s0.
      cbn [loop_entry stdout]. rewrite <- !app_assoc. reflexivity.
Qed.

End ImportCommandFacts.

(** * The further properties on the sample environment *)

Section SampleFacts.
Local Existing Instance Remote.repr.

Lemma load_communities_file_raises_click_witness :
  let e := ClickException "Failed to parse JSON file: Expecting value: line 1 column 1 (char 0)" in
  load_communities_file Sample.export_libs Sample.files Sample.disk "broken.json" = inl e
  /\ exists detail,
       e = ClickException ("Failed to parse JSON file: " +:+ detail)
       \/ e = ClickException ("Failed to parse YAML file: " +:+ detail)
       \/ e = ClickException ("Failed to load import file: " +:+ detail).
Proof.
  cbv zeta.
  assert (H : load_communities_file Sample.export_libs Sample.files Sample.disk
                "broken.json"
              = inl (ClickException "Failed to parse JSON file: Expecting value: line 1 column 1 (char 0)"))
    by (vm_compute; reflexivity).
  split; [exact H|].
  exact (load_communities_file_raises_click Sample.export_libs Sample.files
           Sample.disk "broken.json" _ H).
Defined.

Lemma load_communities_file_missing_witness :
  fs_exists Sample.files "nowhere.json" Sample.disk = false
  /\ load_communities_file Sample.export_libs Sample.files Sample.disk "nowhere.json"
     = inl (ClickException
              ("Failed to load import file: Import file not found: " +:+ "nowhere.json")).
Proof.
  assert (H : fs_exists Sample.files "nowhere.json" Sample.disk = false)
    by (vm_compute; reflexivity).
  split; [exact H|].
  exact (load_communities_file_missing Sample.export_libs Sample.files
           Sample.disk "nowhere.json" H).
Defined.

(** The sample export reads back as the two records exported. *)
Example load_sample_export :
  load_communities_file Sample.export_libs Sample.files Sample.disk "communities.json"
  = inr (PDict <$> Sample.exported).
Proof. vm_compute. reflexivity. Qed.

Lemma load_communities_file_invalid_witness :
  let libs := Sample.libs (PList []) (PNone) in
  fs_exists Sample.files "communities.json" Sample.disk = true
  /\ parse_import libs Sample.files Sample.disk "communities.json" = inr (PList [])
  /\ (forall d items, PList [] = PDict d -> d !! "communities" <> Some (PList items))
  /\ load_communities_file libs Sample.files Sample.disk "communities.json"
     = inl (ClickException
              ("Failed to load import file: "
               +:+ "Invalid file format: missing 'communities' field")).
Proof.
  cbv zeta.
  assert (H1 : fs_exists Sample.files "communities.json" Sample.disk = true)
    by (vm_compute; reflexivity).
  assert (H2 : parse_import (Sample.libs (PList []) (PNone)) Sample.files
                 Sample.disk "communities.json" = inr (PList []))
    by (vm_compute; reflexivity).
  assert (H3 : forall (d : gmap string pyval) (items : list pyval),
                 PList [] = PDict d -> d !! "communities" <> Some (PList items))
    by (intros d items Hd; discriminate Hd).
  split; [exact H1|]. split; [exact H2|]. split; [exact H3|].
  exact (load_communities_file_invalid (Sample.libs (PList []) (PNone))
           Sample.files Sample.disk "communities.json" (PList []) H1 H2 H3).
Defined.

Lemma load_communities_file_parser_witness :
  let libs := Sample.libs (PList []) Sample.document in
  let libs' := Sample.libs (PNone) Sample.document in
  suffix libs "settings.yaml" = suffix libs' "settings.yaml"
  /\ (if is_yaml_suffix libs "settings.yaml"
      then forall text, yaml_safe_load libs text = yaml_safe_load libs' text
      else forall text, json_load libs text = json_load libs' text)
  /\ load_communities_file libs Sample.files Sample.disk "settings.yaml"
     = load_communities_file libs' Sample.files Sample.disk "settings.yaml".
Proof.
  cbv zeta.
  assert (H2 : if is_yaml_suffix (Sample.libs (PList []) Sample.document) "settings.yaml"
               then forall text,
                      yaml_safe_load (Sample.libs (PList []) Sample.document) text
                      = yaml_safe_load (Sample.libs (PNone) Sample.document) text
               else forall text,
                      json_load (Sample.libs (PList []) Sample.document) text
                      = json_load (Sample.libs (PNone) Sample.document) text).
  { replace (is_yaml_suffix (Sample.libs (PList []) Sample.document) "settings.yaml")
      with true by (vm_compute; reflexivity).
    intros text. reflexivity. }
  split; [reflexivity|]. split; [exact H2|].
  exact (load_communities_file_parser (Sample.libs (PList []) Sample.document)
           (Sample.libs (PNone) Sample.document) Sample.files Sample.disk
           "settings.yaml" eq_refl H2).
Defined.

Lemma load_config_raises_click_witness :
  let e := ClickException "Config file not found: nowhere.yaml" in
  load_config Sample.export_libs Sample.files Sample.disk "nowhere.yaml" = inl e
  /\ ((fs_exists Sample.files "nowhere.yaml" Sample.disk = false
       /\ e = ClickException ("Config file not found: " +:+ "nowhere.yaml"))
      \/ (fs_exists Sample.files "nowhere.yaml" Sample.disk = true
          /\ exists err,
               parse_config Sample.export_libs Sample.files Sample.disk "nowhere.yaml"
               = inl err
               /\ e = ClickException ("Failed to parse config file: "
                                      +:+ pyexc_str err))).
Proof.
  cbv zeta.
  assert (H : load_config Sample.export_libs Sample.files Sample.disk "nowhere.yaml"
              = inl (ClickException "Config file not found: nowhere.yaml"))
    by (vm_compute; reflexivity).
  split; [exact H|].
  exact (load_config_raises_click Sample.export_libs Sample.files Sample.disk
           "nowhere.yaml" _ H).
Defined.

Lemma load_config_or_empty_witness :
  let libs := Sample.libs (PNone) (PNone) in
  load_config libs Sample.files Sample.disk "settings.yaml" = inr (PDict ∅)
  /\ exists parsed,
       parse_config libs Sample.files Sample.disk "settings.yaml" = inr parsed
       /\ ((truthy parsed = true /\ PDict ∅ = parsed)
           \/ (truthy parsed = false /\ PDict ∅ = PDict ∅)).
Proof.
  cbv zeta.
  assert (H : load_config (Sample.libs (PNone) (PNone)) Sample.files
                Sample.disk "settings.yaml" = inr (PDict ∅))
    by (vm_compute; reflexivity).
  split; [exact H|].
  exact (load_config_or_empty (Sample.libs (PNone) (PNone))
           Sample.files Sample.disk "settings.yaml" _ H).
Defined.

Lemma load_config_detects_format_witness :
  let libs := Sample.export_libs in
  is_yaml_suffix libs "settings" = false
  /\ is_json_suffix libs "settings" = false
  /\ is_yaml_suffix libs "settings.yaml" = true
  /\ is_yaml_suffix libs "settings.json" = false
  /\ is_json_suffix libs "settings.json" = true
  /\ fs_exists Sample.files "settings" Sample.disk = true
  /\ fs_exists Sample.files "settings.yaml" Sample.disk = true
  /\ fs_exists Sample.files "settings.json" Sample.disk = true
  /\ fs_read Sample.files "settings" Sample.disk = inr "yaml:"
  /\ fs_read Sample.files "settings.yaml" Sample.disk = inr "yaml:"
  /\ fs_read Sample.files "settings.json" Sample.disk = inr "yaml:"
  /\ load_config libs Sample.files Sample.disk "settings"
     = match json_load libs "yaml:" with
       | inl (JSONDecodeError _) => load_config libs Sample.files Sample.disk "settings.yaml"
       | _ => load_config libs Sample.files Sample.disk "settings.json"
       end.
Proof.
  cbv zeta.
  repeat (split; [vm_compute; reflexivity|]).
  apply (load_config_detects_format Sample.export_libs Sample.files Sample.disk
           "settings" "settings.yaml" "settings.json" "yaml:");
    vm_compute; reflexivity.
Defined.

Lemma explicit_credentials_still_load_config_witness :
  let load := fun _ : string => inr (PList [PInt 1]) : exn + pyval in
  truthy (PStr "id") = true /\ truthy (PStr "secret") = true
  /\ truthy (PStr "alice") = true /\ truthy (PStr "pw") = true
  /\ get_reddit_credentials load (Some "reddit.yaml")
       (PStr "id") (PStr "secret") (PStr "alice") (PStr "pw") PNone
     = match read_config load (Some "reddit.yaml") with
       | inl e => inl e
       | inr config =>
         if truthy PNone then
           inr (PStr "id", PStr "secret", PStr "alice", PStr "pw", PNone)
         else
           match config with
           | PDict d =>
             inr (PStr "id", PStr "secret", PStr "alice", PStr "pw",
                  dict_get_default d "user_agent" (PStr "reddit-cm:v0.1.0"))
           | _ => inl (no_attribute_get config)
           end
       end.
Proof.
  cbv zeta. repeat (split; [reflexivity|]).
  exact (explicit_credentials_still_load_config
           (fun _ => inr (PList [PInt 1]))
           (Some "reddit.yaml") (PStr "id") (PStr "secret") (PStr "alice") (PStr "pw")
           PNone eq_refl eq_refl eq_refl eq_refl).
Defined.

(** A config file that holds the list [[1]]: the four explicit fields do
    not keep [config.get] from being called for the user agent. *)
Example explicit_credentials_of_a_list :
  get_reddit_credentials (fun _ => inr (PList [PInt 1])) (Some "reddit.yaml")
    (PStr "id") (PStr "secret") (PStr "alice") (PStr "pw") PNone
  = inl (AttributeError "'list' object has no attribute 'get'").
Proof. reflexivity. Qed.

Lemma import_reports_load_failure_witness :
  let e := ClickException "Failed to load import file: Import file not found: nowhere.json" in
  let load := load_communities_file Sample.export_libs Sample.files Sample.disk in
  load "nowhere.json"
  = load_communities_file Sample.export_libs Sample.files Sample.disk "nowhere.json"
  /\ load_communities_file Sample.export_libs Sample.files Sample.disk "nowhere.json"
     = inl e
  /\ import_communities (Remote.client Remote.no_faults) Remote.bar load "nowhere.json"
       false (Remote.start ∅)
     = (Remote.start ∅, inl (ClickException ("Import failed: " +:+ exn_str e))).
Proof.
  cbv zeta.
  assert (H2 : load_communities_file Sample.export_libs Sample.files Sample.disk
                 "nowhere.json"
               = inl (ClickException
                        "Failed to load import file: Import file not found: nowhere.json"))
    by (vm_compute; reflexivity).
  split; [reflexivity|]. split; [exact H2|].
  exact (import_reports_load_failure (Remote.client Remote.no_faults) Remote.bar
           Sample.export_libs Sample.files Sample.disk
           (load_communities_file Sample.export_libs Sample.files Sample.disk)
           "nowhere.json" false (Remote.start ∅) _ eq_refl H2).
Defined.

Lemma import_of_nothing_witness :
  let load := fun _ : string => inr [] : exn + list pyval in
  load "communities.json" = inr []
  /\ import_communities (Remote.client Remote.no_faults) Remote.bar load
       "communities.json" true (Remote.start ∅)
     = (State (reddit (Remote.start ∅)) (calls (Remote.start ∅)) [] [] []
          (stdout (Remote.start ∅)
           ++ ["Found 0 communities to import"]
           ++ ["DRY RUN MODE - No communities will actually be joined"]
           ++ bar_enter (Remote.bar 0 "Importing communities")
           ++ bar_next (Remote.bar 0 "Importing communities") 0
           ++ bar_exit (Remote.bar 0 "Importing communities")
           ++ [nl +:+ repeat_char "=" 50; "IMPORT SUMMARY"; repeat_char "=" 50;
               "Would join: 0 communities";
               nl +:+ "Total processed: 0 communities"]),
        inr tt).
Proof.
  cbv zeta. split; [reflexivity|].
  exact (import_of_nothing (Remote.client Remote.no_faults) Remote.bar (fun _ => inr [])
           "communities.json" true (Remote.start ∅) eq_refl).
Defined.

(** The same run, line by line: the label of the bar is printed between
    the line of the dry run and the summary. *)
Example import_of_nothing_lines :
  stdout (fst (import_communities (Remote.client Remote.no_faults) Remote.bar
                 (fun _ => inr []) "communities.json" true (Remote.start ∅)))
  = ["Found 0 communities to import";
     "DRY RUN MODE - No communities will actually be joined";
     "Importing communities";
     nl +:+ "=================================================="; "IMPORT SUMMARY";
     "=================================================="; "Would join: 0 communities";
     nl +:+ "Total processed: 0 communities"].
Proof. reflexivity. Qed.

Lemma summary_reports_every_entry_witness :
  let communities :=
    [Remote.named "python"; Remote.named ""; Remote.named "privatesub"] in
  let load := fun _ : string => inr (PDict <$> communities) : exn + list pyval in
  let run :=
    import_communities (Remote.client Remote.private_faults) Remote.bar load "communities.json"
      false (Remote.start {["python"]}) in
  run = (fst run, inr tt)
  /\ (forall failure, failure ∈ failed_joins (fst run) ->
        "  - r/" +:+ py_str (f_name failure) +:+ ": " +:+ f_error failure
        ∈ stdout (fst run))
  /\ (forall name, name ∈ already_joined (fst run) ->
        "  - r/" +:+ py_str name ∈ stdout (fst run)).
Proof.
  cbv zeta.
  pose (load := fun _ : string =>
          inr (PDict <$> [Remote.named "python"; Remote.named "";
                          Remote.named "privatesub"])
          : exn + list pyval).
  pose (run := import_communities (Remote.client Remote.private_faults) Remote.bar load
                 "communities.json" false (Remote.start {["python"]})).
  assert (H : import_communities (Remote.client Remote.private_faults) Remote.bar load
                "communities.json" false (Remote.start {["python"]})
              = (fst run, inr tt))
    by (vm_compute; reflexivity).
  split; [exact H|].
  exact (summary_reports_every_entry (Remote.client Remote.private_faults) Remote.bar load
           "communities.json" false (Remote.start {["python"]}) (fst run) H).
Defined.

Lemma import_reports_only_the_file_witness :
  let communities :=
    [Remote.named "python"; Remote.named ""; Remote.named "privatesub"] in
  let load := fun _ : string => inr (PDict <$> communities) : exn + list pyval in
  let run :=
    import_communities (Remote.client Remote.private_faults) Remote.bar load "communities.json"
      false (Remote.start {["python"]}) in
  load "communities.json" = inr (PDict <$> communities)
  /\ run = (fst run, inr tt)
  /\ sublist (successful_joins (fst run)) (named_records communities)
  /\ sublist (already_joined (fst run)) (named_records communities)
  /\ (forall failure, failure ∈ failed_joins (fst run) ->
        (f_name failure = PStr "Unknown" /\ f_error failure = "Missing community name")
        \/ f_name failure ∈ named_records communities).
Proof.
  cbv zeta.
  pose (load := fun _ : string =>
          inr (PDict <$> [Remote.named "python"; Remote.named "";
                          Remote.named "privatesub"])
          : exn + list pyval).
  pose (run := import_communities (Remote.client Remote.private_faults) Remote.bar load
                 "communities.json" false (Remote.start {["python"]})).
  assert (H : import_communities (Remote.client Remote.private_faults) Remote.bar load
                "communities.json" false (Remote.start {["python"]})
              = (fst run, inr tt))
    by (vm_compute; reflexivity).
  split; [reflexivity|]. split; [exact H|].
  exact (import_reports_only_the_file (Remote.client Remote.private_faults) Remote.bar load
           "communities.json" false (Remote.start {["python"]}) (fst run) _ eq_refl H).
Defined.

Lemma import_fails_only_the_unnamed_witness :
  let client := Remote.client Remote.no_faults in
  let communities := [Remote.named "python"; (∅ : dict); Remote.named "rust"] in
  let load := fun _ : string => inr (PDict <$> communities) : exn + list pyval in
  let run := import_communities client Remote.bar load "communities.json" false
               (Remote.start {["python"]}) in
  load "communities.json" = inr (PDict <$> communities)
  /\ (forall name st, name ∈ named_records communities ->
        exists st' h, subreddit client name st = (st', inr h))
  /\ (forall h st, exists st' v, user_is_subscriber client h st = (st', inr v))
  /\ (forall h st, exists st', subscribe client h st = (st', inr tt))
  /\ run = (fst run, inr tt)
  /\ failed_joins (fst run)
     = replicate (length communities - length (named_records communities))
         (Failure (PStr "Unknown") "Missing community name")
  /\ length (successful_joins (fst run)) + length (already_joined (fst run))
     = length (named_records communities).
Proof.
  cbv zeta.
  pose (client := Remote.client Remote.no_faults).
  pose (communities := [Remote.named "python"; (∅ : dict); Remote.named "rust"]).
  pose (load := fun _ : string => inr (PDict <$> communities) : exn + list pyval).
  pose (run := import_communities client Remote.bar load "communities.json" false
                 (Remote.start {["python"]})).
  assert (Hres : forall name st, name ∈ named_records communities ->
                   exists st' h, subreddit client name st = (st', inr h)).
  { intros name st Hin.
    replace (named_records communities) with [PStr "python"; PStr "rust"] in Hin
      by (vm_compute; reflexivity).
    apply elem_of_cons in Hin. destruct Hin as [-> | Hin];
      [eexists _, _; reflexivity|].
    apply elem_of_cons in Hin. destruct Hin as [-> | Hin];
      [eexists _, _; reflexivity|].
    inversion Hin. }
  assert (Hread : forall h st, exists st' v,
                    user_is_subscriber client h st = (st', inr v))
    by (intros h st; eexists _, _; reflexivity).
  assert (Hsub : forall h st, exists st', subscribe client h st = (st', inr tt))
    by (intros h st; eexists; reflexivity).
  assert (H : import_communities client Remote.bar load "communities.json" false
                (Remote.start {["python"]}) = (fst run, inr tt))
    by (vm_compute; reflexivity).
  split; [reflexivity|]. split; [exact Hres|]. split; [exact Hread|].
  split; [exact Hsub|]. split; [exact H|].
  exact (import_fails_only_the_unnamed client Remote.bar load "communities.json" false
           (Remote.start {["python"]}) (fst run) communities eq_refl Hres Hread Hsub H).
Defined.

Lemma export_document_shape_witness :
  let libs := Sample.export_libs in
  let subs := [Sample.python; Sample.nodesc] in
  collect_communities libs subs = inr Sample.exported
  /\ Forall2
       (fun sub c =>
          name_of c = display_name sub
          /\ c !! "url"
             = Some (PStr ("https://reddit.com/r/" +:+ py_str (display_name sub)))
          /\ c !! "description"
             = Some (if truthy (public_description sub) then public_description sub
                     else PStr "")
          /\ exists created,
               fromtimestamp_isoformat libs (created_utc sub) = inr created
               /\ c !! "created_utc" = Some (PStr created))
       subs Sample.exported
  /\ exists d,
       export_data libs Sample.exported = PDict d
       /\ d !! "total_communities" = Some (PInt (Z.of_nat (length subs)))
       /\ d !! "communities" = Some (PList (PDict <$> Sample.exported)).
Proof.
  cbv zeta.
  assert (H : collect_communities Sample.export_libs [Sample.python; Sample.nodesc]
              = inr Sample.exported)
    by reflexivity.
  split; [exact H|].
  exact (export_document_shape Sample.export_libs [Sample.python; Sample.nodesc]
           Sample.exported H).
Defined.

Lemma export_unknown_format_witness :
  "xml" <> "json" /\ "xml" <> "yaml"
  /\ user_subreddits Sample.account (w_reddit Sample.fresh)
     = (w_reddit Sample.fresh, ([Sample.python; Sample.nodesc], None))
  /\ collect_communities Sample.export_libs [Sample.python; Sample.nodesc]
     = inr Sample.exported
  /\ export_communities Sample.export_libs Sample.files Sample.account "xml"
       "communities.xml" Sample.fresh
     = (World (w_reddit Sample.fresh) (w_files Sample.fresh)
          (w_stdout Sample.fresh
           ++ ["Fetching joined communities...";
               "Found " +:+ pretty (length Sample.exported) +:+ " communities";
               "Communities exported to " +:+ "communities.xml"]),
        inr tt).
Proof.
  assert (H1 : "xml" <> "json") by discriminate.
  assert (H2 : "xml" <> "yaml") by discriminate.
  assert (H4 : collect_communities Sample.export_libs [Sample.python; Sample.nodesc]
               = inr Sample.exported)
    by reflexivity.
  split; [exact H1|]. split; [exact H2|]. split; [reflexivity|]. split; [exact H4|].
  exact (export_unknown_format Sample.export_libs Sample.files Sample.account "xml"
           "communities.xml" Sample.fresh _ _ _ H1 H2 eq_refl H4).
Defined.

Lemma export_failure_witness :
  let run := export_communities Sample.export_libs Sample.files Sample.account
               "json" "" Sample.fresh in
  let e := ClickException "Export failed: No such file or directory: " in
  run = (fst run, inl e)
  /\ (exists detail, e = ClickException ("Export failed: " +:+ detail))
  /\ (w_stdout (fst run) = w_stdout Sample.fresh ++ ["Fetching joined communities..."]
      \/ exists n : nat,
           w_stdout (fst run)
           = w_stdout Sample.fresh ++ ["Fetching joined communities...";
                                       "Found " +:+ pretty n +:+ " communities"]).
Proof.
  cbv zeta.
  pose (run := export_communities Sample.export_libs Sample.files Sample.account
                 "json" "" Sample.fresh).
  assert (H : export_communities Sample.export_libs Sample.files Sample.account
                "json" "" Sample.fresh
              = (fst run,
                 inl (ClickException "Export failed: No such file or directory: ")))
    by (vm_compute; reflexivity).
  split; [exact H|].
  exact (export_failure Sample.export_libs Sample.files Sample.account "json" ""
           Sample.fresh (fst run) _ H).
Defined.

(** The sample file system keeps what is written. *)
Lemma sample_files_keep_text : keeps_text Sample.files.
Proof.
  intros path text fs fs1 _. cbn. rewrite lookup_insert_eq. auto.
Qed.

Lemma export_then_load_witness :
  let libs := Sample.export_libs in
  let run := export_communities libs Sample.files Sample.account "json"
               "communities.json" Sample.fresh in
  keeps_text Sample.files
  /\ ("json" = "json" \/ "json" = "yaml")
  /\ (forall dump communities,
        dump_for libs "json" = Some dump ->
        collect_communities libs
          (fst (snd (user_subreddits Sample.account (w_reddit Sample.fresh))))
        = inr communities ->
        (if is_yaml_suffix libs "communities.json" then yaml_safe_load libs
         else json_load libs)
          (fst (dump (export_data libs communities)))
        = inr (export_data libs communities))
  /\ run = (fst run, inr tt)
  /\ exists communities,
       collect_communities libs
         (fst (snd (user_subreddits Sample.account (w_reddit Sample.fresh))))
       = inr communities
       /\ load_communities_file libs Sample.files (w_files (fst run)) "communities.json"
          = inr (PDict <$> communities).
Proof.
  cbv zeta.
  pose (run := export_communities Sample.export_libs Sample.files Sample.account
                 "json" "communities.json" Sample.fresh).
  assert (Hback : forall dump communities,
            dump_for Sample.export_libs "json" = Some dump ->
            collect_communities Sample.export_libs
              (fst (snd (user_subreddits Sample.account (w_reddit Sample.fresh))))
            = inr communities ->
            (if is_yaml_suffix Sample.export_libs "communities.json"
             then yaml_safe_load Sample.export_libs
             else json_load Sample.export_libs)
              (fst (dump (export_data Sample.export_libs communities)))
            = inr (export_data Sample.export_libs communities)).
  { intros dump communities Hdump Hcollect.
    change (Some (json_dump Sample.export_libs) = Some dump) in Hdump.
    change (inr Sample.exported = inr communities :> exn + list dict) in Hcollect.
    injection Hdump as <-. injection Hcollect as <-. reflexivity. }
  assert (H : export_communities Sample.export_libs Sample.files Sample.account
                "json" "communities.json" Sample.fresh = (fst run, inr tt))
    by (vm_compute; reflexivity).
  split; [exact sample_files_keep_text|]. split; [left; reflexivity|].
  split; [exact Hback|]. split; [exact H|].
  exact (export_then_load Sample.export_libs Sample.files Sample.account "json"
           "communities.json" Sample.fresh (fst run) sample_files_keep_text
           (or_introl eq_refl) Hback H).
Defined.

Lemma export_command_writes_witness :
  let load_config := fun _ : string => inr (PDict ∅) : exn + pyval in
  let target := export_target (Some Yaml) None in
  get_reddit_credentials load_config None
    (PStr "id") (PStr "secret") (PStr "alice") (PStr "pw") PNone
  = inr (PStr "id", PStr "secret", PStr "alice", PStr "pw", PStr "reddit-cm:v0.1.0")
  /\ authenticate_reddit Sample.account (PStr "id") (PStr "secret") (PStr "alice")
       (PStr "pw") (PStr "reddit-cm:v0.1.0")
     = inr (w_reddit Sample.fresh)
  /\ user_subreddits Sample.account (w_reddit Sample.fresh)
     = (w_reddit Sample.fresh, ([Sample.python; Sample.nodesc], None))
  /\ collect_communities Sample.export_libs [Sample.python; Sample.nodesc]
     = inr Sample.exported
  /\ dump_for Sample.export_libs (format_str (fst target))
     = Some (yaml_dump Sample.export_libs)
  /\ fs_open_w Sample.files (snd target) ∅ = inr {["communities.yaml" := ""]}
  /\ yaml_dump Sample.export_libs (export_data Sample.export_libs Sample.exported)
     = ("yaml:", None)
  /\ export Sample.export_libs Sample.files Sample.account load_config None
       (PStr "id") (PStr "secret") (PStr "alice") (PStr "pw") PNone
       (Some Yaml) None ∅ []
     = ((Some (w_reddit Sample.fresh),
         fs_write Sample.files (snd target) "yaml:" {["communities.yaml" := ""]},
         [] ++ ["Authenticating with Reddit as " +:+ py_str (PStr "alice") +:+ "...";
                "Exporting communities to " +:+ format_upper (fst target)
                +:+ " format...";
                "Fetching joined communities...";
                "Found " +:+ pretty (length Sample.exported) +:+ " communities";
                "Communities exported to " +:+ snd target]),
        inr tt).
Proof.
  cbv zeta.
  assert (H1 : get_reddit_credentials (fun _ : string => inr (PDict ∅) : exn + pyval) None
                 (PStr "id") (PStr "secret") (PStr "alice") (PStr "pw") PNone
               = inr (PStr "id", PStr "secret", PStr "alice", PStr "pw",
                      PStr "reddit-cm:v0.1.0"))
    by (vm_compute; reflexivity).
  assert (H2 : authenticate_reddit Sample.account (PStr "id") (PStr "secret")
                 (PStr "alice") (PStr "pw") (PStr "reddit-cm:v0.1.0")
               = inr (w_reddit Sample.fresh))
    by reflexivity.
  assert (H4 : collect_communities Sample.export_libs [Sample.python; Sample.nodesc]
               = inr Sample.exported)
    by reflexivity.
  assert (H6 : fs_open_w Sample.files (snd (export_target (Some Yaml) None)) ∅
               = inr {["communities.yaml" := ""]})
    by reflexivity.
  split; [exact H1|]. split; [exact H2|]. split; [reflexivity|]. split; [exact H4|].
  split; [reflexivity|]. split; [exact H6|]. split; [reflexivity|].
  exact (export_command_writes Sample.export_libs Sample.files Sample.account
           (fun _ => inr (PDict ∅)) None (PStr "id") (PStr "secret") (PStr "alice") (PStr "pw")
           PNone (Some Yaml) None ∅ {["communities.yaml" := ""]} []
           _ _ _ _ _ _ _ _ _ _ _ H1 H2 eq_refl H4 eq_refl H6 eq_refl).
Defined.

Lemma export_command_needs_client_witness :
  let load_config := fun _ : string => inr (PDict ∅) : exn + pyval in
  let e := ClickException "Authentication failed: invalid_grant error processing request" in
  let out' := ["Authenticating with Reddit as alice..."] in
  export Sample.export_libs Sample.files Sample.account load_config None
    (PStr "id") (PStr "secret") (PStr "alice") (PStr "guess") PNone
    (Some Json) (Some "communities.json") Sample.disk []
  = ((None, Sample.disk, out'), inl e)
  /\ Sample.disk = Sample.disk
  /\ ((exists e',
         get_reddit_credentials load_config None
           (PStr "id") (PStr "secret") (PStr "alice") (PStr "guess") PNone = inl e'
         /\ inl e = inl e' :> exn + unit /\ out' = [])
      \/ (exists cid cs u p ua e',
            get_reddit_credentials load_config None
              (PStr "id") (PStr "secret") (PStr "alice") (PStr "guess") PNone
            = inr (cid, cs, u, p, ua)
            /\ authenticate_reddit Sample.account cid cs u p ua = inl e'
            /\ inl e = inl e' :> exn + unit
            /\ out' = [] ++ ["Authenticating with Reddit as " +:+ py_str u +:+ "..."])).
Proof.
  cbv zeta.
  assert (H : export Sample.export_libs Sample.files Sample.account
                (fun _ : string => inr (PDict ∅) : exn + pyval) None
                (PStr "id") (PStr "secret") (PStr "alice") (PStr "guess") PNone
                (Some Json) (Some "communities.json") Sample.disk []
              = ((None, Sample.disk, ["Authenticating with Reddit as alice..."]),
                 inl (ClickException
                        "Authentication failed: invalid_grant error processing request")))
    by reflexivity.
  split; [exact H|].
  exact (export_command_needs_client Sample.export_libs Sample.files Sample.account
           (fun _ => inr (PDict ∅)) None (PStr "id") (PStr "secret") (PStr "alice")
           (PStr "guess") PNone (Some Json) (Some "communities.json")
           Sample.disk _ [] _ _ H).
Defined.

(** The loaders and the commands together: a config file that holds a
    list goes from [load_config] to [config.get], which raises, and the
    command fails before it prints anything. *)
Example credentials_of_a_list_file :
  let libs := Sample.libs (PList [PInt 1]) (PList [PInt 1]) in
  load_config libs Sample.files Sample.disk "settings.yaml" = inr (PList [PInt 1])
  /\ get_reddit_credentials (load_config libs Sample.files Sample.disk)
       (Some "settings.yaml") PNone (PStr "secret") (PStr "alice") (PStr "pw") PNone
     = inl (AttributeError "'list' object has no attribute 'get'")
  /\ import_cmd (Remote.client Remote.no_faults) Remote.bar Sample.account
       (load_communities_file libs Sample.files Sample.disk) "communities.json"
       (load_config libs Sample.files Sample.disk) (Some "settings.yaml")
       PNone (PStr "secret") (PStr "alice") (PStr "pw") PNone true []
     = (None, [], inl (AttributeError "'list' object has no attribute 'get'")).
Proof. cbv zeta. repeat split; vm_compute; reflexivity. Qed.

(** The command [import] as a dry run on the sample export, with the
    loaders of the repository: the account has joined both communities. *)
Example import_command_on_sample :
  let run :=
    import_cmd (Remote.client Remote.no_faults) Remote.bar Sample.account
      (load_communities_file Sample.export_libs Sample.files Sample.disk)
      "communities.json"
      (load_config (Sample.libs PNone PNone) Sample.files Sample.disk)
      (Some "settings.yaml")
      (PStr "id") (PStr "secret") (PStr "alice") (PStr "pw") PNone true [] in
  snd run = inr tt
  /\ snd (fst run)
     = ["Authenticating with Reddit as alice...";
        "Found 2 communities to import";
        "DRY RUN MODE - No communities will actually be joined";
        "Importing communities";
        nl +:+ "=================================================="; "IMPORT SUMMARY";
        "=================================================="; "Would join: 0 communities";
        nl +:+ "Already joined: 2 communities"; "  - r/python"; "  - r/nodesc";
        nl +:+ "Total processed: 2 communities"].
Proof. cbv zeta. split; vm_compute; reflexivity. Qed.

End SampleFacts.
